(** * Trip-listing API: response cache keys, parameterised queries, fan-in

    A shallow embedding of the request handlers of [server.js]
    (GET /api/combined-trips, GET /api/:provider/trips), of the
    instrumented cache of [migrateomio.js] (cacheStats, dispose,
    /api/cache-stats) and of the single-provider route handlers
    (GET /api/trips/from/:origin and its siblings).  Further modules
    cover the other handlers of [server.js] (transport types, metrics,
    search, date filter, filter lists, filter search) with its route
    table, the older combined-trips handler and the import script of
    [migrateomio.js], and the cache writes of the standalone server.

    JavaScript strings are taken as byte strings ([string]); the
    operations the handlers use ([split], [join], [toUpperCase],
    [toLowerCase], [===], template literals) are modelled on ASCII.
    JavaScript numbers are integers or NaN ([num]); the handlers only
    build numbers with [parseInt], [Math.max], [Math.min], [Math.ceil]
    of a quotient, [+], [-] and [*].  The rounding of integers beyond
    2^53 and the infinities are not represented.

    [Server] takes every query parameter as a string or absent.
    [Raw] gives GET /api/combined-trips on the query as Express parses
    it, where a repeated or bracketed parameter arrives as an array or
    object, with the TypeErrors these raise and the handler's 500
    answer; on string parameters the two agree. *)

From Stdlib Require Import ZArith List String Ascii Bool Lia DecimalString Permutation.
From Stdlib Require Import DecimalPos DecimalZ.
Import ListNotations.
Open Scope string_scope.
Set Warnings "-register-all".

(* ================================================================= *)
(** ** JavaScript primitives used by the handlers *)

Module Js.

(** Numbers: an integer or NaN. *)
Inductive num : Type :=
| NaN
| Num (z : Z).

Definition num_add (a b : num) : num :=
  match a, b with Num x, Num y => Num (x + y) | _, _ => NaN end.

Definition num_sub (a b : num) : num :=
  match a, b with Num x, Num y => Num (x - y) | _, _ => NaN end.

Definition num_mul (a b : num) : num :=
  match a, b with Num x, Num y => Num (x * y) | _, _ => NaN end.

(** [Math.max] and [Math.min]: NaN as soon as one argument is NaN. *)
Definition Math_max (a b : num) : num :=
  match a, b with Num x, Num y => Num (Z.max x y) | _, _ => NaN end.

Definition Math_min (a b : num) : num :=
  match a, b with Num x, Num y => Num (Z.min x y) | _, _ => NaN end.

(** [a < b] and [a > b]: false as soon as one side is NaN. *)
Definition num_lt (a b : num) : bool :=
  match a, b with Num x, Num y => (x <? y)%Z | _, _ => false end.

Definition num_gt (a b : num) : bool := num_lt b a.

(** [Math.ceil(a / b)].  A zero divisor gives an infinity or NaN in
    JavaScript; the handlers never divide by zero (see
    [limitNum_not_zero] and [provider_limit_not_zero]) and the case is
    mapped to NaN here. *)
Definition Math_ceil_div (a b : num) : num :=
  match a, b with
  | Num x, Num y => if (y =? 0)%Z then NaN else Num (- ((- x) / y))
  | _, _ => NaN
  end.

(** Decimal text of a number, as [String(n)] and template literals give it. *)
Definition Z_to_string (z : Z) : string := NilZero.string_of_int (Z.to_int z).

Definition nat_to_string (n : nat) : string := Z_to_string (Z.of_nat n).

Definition num_to_string (n : num) : string :=
  match n with NaN => "NaN" | Num z => Z_to_string z end.

(** *** Strings *)

Definition dquote : ascii := "034"%char.
Definition backslash : ascii := "092"%char.

(** A text between double quotes. *)
Definition in_dquotes (s : string) : string :=
  String dquote (s ++ String dquote EmptyString).

Definition is_lower (c : ascii) : bool :=
  (97 <=? nat_of_ascii c)%nat && (nat_of_ascii c <=? 122)%nat.

Definition is_upper (c : ascii) : bool :=
  (65 <=? nat_of_ascii c)%nat && (nat_of_ascii c <=? 90)%nat.

Definition upper_char (c : ascii) : ascii :=
  if is_lower c then ascii_of_nat (nat_of_ascii c - 32) else c.

Definition lower_char (c : ascii) : ascii :=
  if is_upper c then ascii_of_nat (nat_of_ascii c + 32) else c.

Fixpoint map_string (f : ascii -> ascii) (s : string) : string :=
  match s with
  | EmptyString => EmptyString
  | String c r => String (f c) (map_string f r)
  end.

Definition toUpperCase : string -> string := map_string upper_char.
Definition toLowerCase : string -> string := map_string lower_char.

(** [s.split(sep)] for a one-character separator. *)
Fixpoint split (sep : ascii) (s : string) : list string :=
  match s with
  | EmptyString => [EmptyString]
  | String c r =>
      if Ascii.eqb c sep then EmptyString :: split sep r
      else match split sep r with
           | h :: t => String c h :: t
           | [] => [String c EmptyString]
           end
  end.

(** [xs.join(sep)]. *)
Definition join (sep : string) (xs : list string) : string :=
  match xs with
  | [] => EmptyString
  | x :: rest => x ++ String.concat EmptyString (map (fun y => sep ++ y) rest)
  end.

(** [xs.includes(x)] on an array of strings. *)
Definition includes (xs : list string) (x : string) : bool :=
  existsb (String.eqb x) xs.

(** Truthiness of a string that may be absent ([undefined]). *)
Definition truthy_str (o : option string) : bool :=
  match o with
  | Some (String _ _) => true
  | _ => false
  end.

(** The value stored under a name in a list of named entries. *)
Fixpoint assoc {A : Type} (k : string) (l : list (string * A)) : option A :=
  match l with
  | [] => None
  | (k', v) :: r => if String.eqb k k' then Some v else assoc k r
  end.

(** *** parseInt *)

Definition is_space (c : ascii) : bool :=
  let n := nat_of_ascii c in
  ((9 <=? n)%nat && (n <=? 13)%nat) || (n =? 32)%nat.

Fixpoint skip_spaces (s : string) : string :=
  match s with
  | String c r => if is_space c then skip_spaces r else s
  | EmptyString => s
  end.

Definition digit_value (radix : Z) (c : ascii) : option Z :=
  let n := Z.of_nat (nat_of_ascii c) in
  let v :=
    if (48 <=? n)%Z && (n <=? 57)%Z then Some (n - 48)%Z
    else if (97 <=? n)%Z && (n <=? 122)%Z then Some (n - 87)%Z
    else if (65 <=? n)%Z && (n <=? 90)%Z then Some (n - 55)%Z
    else None in
  match v with
  | Some d => if (d <? radix)%Z then Some d else None
  | None => None
  end.

(** The longest prefix of digits, folded left to right; [None] when the
    prefix is empty. *)
Fixpoint parse_digits (radix : Z) (acc : option Z) (s : string) : option Z :=
  match s with
  | EmptyString => acc
  | String c r =>
      match digit_value radix c with
      | Some d =>
          parse_digits radix
            (Some (match acc with Some a => a * radix + d | None => d end)%Z) r
      | None => acc
      end
  end.

Definition strip_sign (s : string) : bool * string :=
  match s with
  | String "-" r => (true, r)
  | String "+" r => (false, r)
  | _ => (false, s)
  end.

Definition strip_hex_prefix (s : string) : option string :=
  match s with
  | String "0" (String "x" r) => Some r
  | String "0" (String "X" r) => Some r
  | _ => None
  end.

Definition signed (neg : bool) (o : option Z) : num :=
  match o with
  | Some v => Num (if neg then - v else v)
  | None => NaN
  end.

(** [parseInt(s)] with no radix: leading white space, a sign, a 0x
    prefix selecting base 16, then the longest run of digits. *)
Definition parseInt (s : string) : num :=
  let '(neg, body) := strip_sign (skip_spaces s) in
  match strip_hex_prefix body with
  | Some hex => signed neg (parse_digits 16 None hex)
  | None => signed neg (parse_digits 10 None body)
  end.

(** [parseInt(s, 10)]: no prefix is stripped. *)
Definition parseInt10 (s : string) : num :=
  let '(neg, body) := strip_sign (skip_spaces s) in
  signed neg (parse_digits 10 None body).

(** A query-string or route parameter that may be absent:
    [parseInt(undefined)] reads the text "undefined" and is NaN. *)
Definition parseInt_opt (o : option string) : num :=
  match o with
  | Some s => parseInt s
  | None => parseInt "undefined"
  end.

(** [n || d] on numbers: 0 and NaN are falsy. *)
Definition num_or (n d : num) : num :=
  match n with
  | NaN => d
  | Num z => if (z =? 0)%Z then d else n
  end.

End Js.

(* ================================================================= *)
(** ** Values, JSON documents and JSON.stringify *)

Module Json.
Import Js.

(** Primitive values: what a database cell, a bound parameter or a leaf
    of a response can be. *)
Inductive prim : Type :=
| Undefined
| Null
| Bool (b : bool)
| Number (n : num)
| Str (s : string).

(** Documents handed to [res.json] and stored in the cache. *)
Inductive json : Type :=
| JV (p : prim)
| JArr (items : list json)
| JObj (fields : list (string * json)).

Definition truthy (p : prim) : bool :=
  match p with
  | Undefined | Null => false
  | Bool b => b
  | Number NaN => false
  | Number (Num z) => negb (z =? 0)%Z
  | Str EmptyString => false
  | Str (String _ _) => true
  end.

(** Arrays and objects are always truthy. *)
Definition truthy_json (j : json) : bool :=
  match j with
  | JV p => truthy p
  | _ => true
  end.

(** [a || b]. *)
Definition prim_or (a b : prim) : prim := if truthy a then a else b.

Definition to_string (p : prim) : string :=
  match p with
  | Undefined => "undefined"
  | Null => "null"
  | Bool true => "true"
  | Bool false => "false"
  | Number n => num_to_string n
  | Str s => s
  end.

Section Coercions.

(** ECMAScript's StringToNumber, which the handlers reach only when the
    database driver hands a count back as text. *)
Variable StringToNumber : string -> num.

Definition to_number (p : prim) : num :=
  match p with
  | Undefined => NaN
  | Null => Num 0
  | Bool true => Num 1
  | Bool false => Num 0
  | Number n => n
  | Str s => StringToNumber s
  end.

(** [a + b]: concatenation as soon as one operand is a string. *)
Definition js_add (a b : prim) : prim :=
  match a, b with
  | Str _, _ | _, Str _ => Str (to_string a ++ to_string b)
  | _, _ => Number (num_add (to_number a) (to_number b))
  end.

End Coercions.

(** *** JSON.stringify *)

Definition hex_digit (n : nat) : ascii :=
  nth n ["0"; "1"; "2"; "3"; "4"; "5"; "6"; "7";
         "8"; "9"; "a"; "b"; "c"; "d"; "e"; "f"]%char "0"%char.

(** QuoteJSONString, one character at a time. *)
Definition escape_char (c : ascii) : string :=
  let n := nat_of_ascii c in
  if Ascii.eqb c dquote then String backslash (String dquote EmptyString)
  else if Ascii.eqb c backslash then String backslash (String backslash EmptyString)
  else if (n =? 8)%nat then "\b"
  else if (n =? 9)%nat then "\t"
  else if (n =? 10)%nat then "\n"
  else if (n =? 12)%nat then "\f"
  else if (n =? 13)%nat then "\r"
  else if (n <? 32)%nat then
    "\u00" ++ String (hex_digit (n / 16)) (String (hex_digit (n mod 16)) EmptyString)
  else String c EmptyString.

Fixpoint escape (s : string) : string :=
  match s with
  | EmptyString => EmptyString
  | String c r => escape_char c ++ escape r
  end.

Definition quote (s : string) : string :=
  String dquote (escape s ++ String dquote EmptyString).

(** A primitive inside an array or as a property value; [undefined]
    and NaN print as null. *)
Definition stringify_prim (p : prim) : string :=
  match p with
  | Undefined => "null"
  | Null => "null"
  | Bool true => "true"
  | Bool false => "false"
  | Number NaN => "null"
  | Number (Num z) => Z_to_string z
  | Str s => quote s
  end.

(** [JSON.stringify(j)] for a defined [j]; a property whose value is
    [undefined] is left out of its object. *)
Fixpoint stringify (j : json) : string :=
  match j with
  | JV p => stringify_prim p
  | JArr items => "[" ++ join "," (map stringify items) ++ "]"
  | JObj fields =>
      "{" ++ join ","
        ((fix members (fs : list (string * json)) : list string :=
            match fs with
            | [] => []
            | (k, v) :: r =>
                match v with
                | JV Undefined => members r
                | _ => (quote k ++ ":" ++ stringify v) :: members r
                end
            end) fields) ++ "}"
  end.

(** Object helpers: property read, the property names, and the rest
    pattern [{ k, ...rest }]. *)
Definition row : Type := list (string * prim).

Fixpoint get (k : string) (r : row) : prim :=
  match r with
  | [] => Undefined
  | (k', v) :: r' => if String.eqb k k' then v else get k r'
  end.

Definition without (k : string) (r : row) : row :=
  filter (fun kv => negb (String.eqb k (fst kv))) r.

Definition row_json (r : row) : json :=
  JObj (map (fun kv => (fst kv, JV (snd kv))) r).

Definition keys (j : json) : list string :=
  match j with
  | JObj fields => map fst fields
  | _ => []
  end.

Fixpoint field (k : string) (fields : list (string * json)) : option json :=
  match fields with
  | [] => None
  | (k', v) :: r => if String.eqb k k' then Some v else field k r
  end.

Definition prop (k : string) (j : json) : option json :=
  match j with
  | JObj fields => field k fields
  | _ => None
  end.

End Json.

(* ================================================================= *)
(** ** The collaborators of a handler: database pool and HTTP response *)

Module Web.
Import Js Json.

(** [pool.query(text, values)] resolves with rows or rejects with an error. *)
Inductive dbresult : Type :=
| Rows (rows : list row)
| Failed (message : string).

Definition pool : Type := string -> list prim -> dbresult.

Record response : Type := { status : Z; body : json }.

(** [res.json(doc)] with the default status. *)
Definition ok (doc : json) : response := {| status := 200; body := doc |}.

(** [res.status(code).json({ error: message })]. *)
Definition error_response (code : Z) (message : string) : response :=
  {| status := code; body := JObj [("error", JV (Str message))] |}.

(** [if (cached)]: a miss, or a cached value that is falsy, falls through. *)
Definition served (cached : option json) : option json :=
  match cached with
  | Some c => if truthy_json c then Some c else None
  | None => None
  end.

End Web.

(* ================================================================= *)
(** ** server.js: cache helpers and the two trip-listing handlers *)

Module Server.
Import Js Json Web.

(** The parsed query string of a request whose parameters are each
    given once and without brackets: every parameter is a string or
    absent.  [Raw.query] is the general case. *)
Record query : Type := {
  q_origin : option string;
  q_destination : option string;
  q_operator_name : option string;
  q_transport_type : option string;
  q_timeline : option string;
  q_start_date : option string;
  q_end_date : option string;
  q_travel_date : option string;
  q_page : option string;
  q_limit : option string;
  q_sort_by : option string;
  q_sort_order : option string
}.

(** A destructuring default, [{ page = '1' } = req.query]. *)
Definition or_default (d : string) (o : option string) : string :=
  match o with Some s => s | None => d end.

(** [v ? v.split(',') : []]. *)
Definition csv (o : option string) : list string :=
  if truthy_str o then split "," (or_default EmptyString o) else [].

(** The handler's local variables, computed before the cache lookup. *)
Record locals : Type := {
  origins : list string;
  destinations : list string;
  transportTypes : list string;
  operatorNames : list string;
  timeline : option string;
  start_date : option string;
  end_date : option string;
  travel_date : option string;
  pageNum : num;
  limitNum : num;
  offset : num;
  sort_by : string;
  sort_order : string
}.

Definition parse_pageNum (q : query) : num :=
  Math_max (Num 1) (parseInt (or_default "1" (q_page q))).

Definition parse_limitNum (q : query) : num :=
  Math_min (Num 100) (Math_max (Num 1) (parseInt (or_default "50" (q_limit q)))).

Definition parse (q : query) : locals := {|
  origins := csv (q_origin q);
  destinations := csv (q_destination q);
  transportTypes := csv (q_transport_type q);
  operatorNames := csv (q_operator_name q);
  timeline := q_timeline q;
  start_date := q_start_date q;
  end_date := q_end_date q;
  travel_date := q_travel_date q;
  pageNum := parse_pageNum q;
  limitNum := parse_limitNum q;
  offset := num_mul (num_sub (parse_pageNum q) (Num 1)) (parse_limitNum q);
  sort_by := or_default "departure_time" (q_sort_by q);
  sort_order := or_default "ASC" (q_sort_order q)
|}.

Definition strings (xs : list string) : json := JArr (map (fun s => JV (Str s)) xs).

Definition optional (o : option string) : json :=
  match o with Some s => JV (Str s) | None => JV Undefined end.

(** The object literal whose JSON text follows the key prefix. *)
Definition cacheKey_object (l : locals) : json :=
  JObj [ ("origins", strings (origins l));
         ("destinations", strings (destinations l));
         ("operatorNames", strings (operatorNames l));
         ("transportTypes", strings (transportTypes l));
         ("timeline", optional (timeline l));
         ("start_date", optional (start_date l));
         ("end_date", optional (end_date l));
         ("travel_date", optional (travel_date l));
         ("pageNum", JV (Number (pageNum l)));
         ("limitNum", JV (Number (limitNum l)));
         ("sort_by", JV (Str (sort_by l)));
         ("sort_order", JV (Str (sort_order l))) ].

Definition cacheKey (l : locals) : string :=
  "combined_trips_" ++ stringify (cacheKey_object l).

(** *** buildQuery *)

(** The three variables [buildQuery] mutates while it walks the filters. *)
Record builder : Type := {
  params : list prim;
  conditions : list string;
  paramIndex : nat
}.

Definition builder0 : builder :=
  {| params := []; conditions := []; paramIndex := 1 |}.

(** [values.map((_, i) => `$${paramIndex + i}`).join(',')]. *)
Definition placeholders (paramIndex : nat) (values : list string) : string :=
  join "," (map (fun i => "$" ++ nat_to_string (paramIndex + i))
                (seq 0 (List.length values))).

(** One [IN (...)] filter over a multi-valued field. *)
Definition add_in (column : string) (values : list string) (b : builder) : builder :=
  match values with
  | [] => b
  | _ :: _ =>
      {| params := List.app (params b) (map Str values);
         conditions :=
           List.app (conditions b)
             ["(" ++ column ++ " IN (" ++ placeholders (paramIndex b) values ++ "))"];
         paramIndex := paramIndex b + List.length values |}
  end.

(** [const [day, month, year] = travel_date.split('-')], then
    [`${year}-${month}-${day}`]; a missing part prints as "undefined". *)
Definition formattedDate (travel_date : string) : string :=
  let parts := split "-" travel_date in
  let day := nth 0 parts "undefined" in
  let month := nth 1 parts "undefined" in
  let year := nth 2 parts "undefined" in
  year ++ "-" ++ month ++ "-" ++ day.

Definition add_travel_date (travel_date : option string) (b : builder) : builder :=
  match travel_date with
  | Some (String _ _ as d) =>
      {| params := List.app (params b) [Str (formattedDate d)];
         conditions :=
           List.app (conditions b)
             ["DATE(travel_date) = $" ++ nat_to_string (paramIndex b)];
         paramIndex := paramIndex b + 1 |}
  | _ => b
  end.

(** The [switch (timeline.toLowerCase())]; no case, no condition. *)
Definition timeline_condition (t : string) : option string :=
  let t := toLowerCase t in
  if String.eqb t "today" then Some "travel_date = CURRENT_DATE"
  else if String.eqb t "yesterday" then Some "travel_date = CURRENT_DATE - INTERVAL '1 day'"
  else if String.eqb t "last 7 days" then Some "travel_date >= CURRENT_DATE - INTERVAL '7 days'"
  else if String.eqb t "last 14 days" then Some "travel_date >= CURRENT_DATE - INTERVAL '14 days'"
  else if String.eqb t "last 28 days" then Some "travel_date >= CURRENT_DATE - INTERVAL '28 days'"
  else if String.eqb t "last 30 days" then Some "travel_date >= CURRENT_DATE - INTERVAL '30 days'"
  else if String.eqb t "last 90 days" then Some "travel_date >= CURRENT_DATE - INTERVAL '90 days'"
  else if String.eqb t "this month" then Some "travel_date >= date_trunc('month', CURRENT_DATE)"
  else if String.eqb t "this year" then Some "travel_date >= date_trunc('year', CURRENT_DATE)"
  else None.

Definition add_dates (start_date end_date timeline : option string) (b : builder) : builder :=
  if truthy_str start_date && truthy_str end_date then
    {| params :=
         List.app (params b) [Str (or_default EmptyString start_date);
                              Str (or_default EmptyString end_date)];
       conditions :=
         List.app (conditions b)
           ["travel_date BETWEEN $" ++ nat_to_string (paramIndex b)
              ++ " AND $" ++ nat_to_string (paramIndex b + 1)];
       paramIndex := paramIndex b + 2 |}
  else if truthy_str timeline then
    match timeline_condition (or_default EmptyString timeline) with
    | Some c =>
        {| params := params b;
           conditions := List.app (conditions b) [c];
           paramIndex := paramIndex b |}
    | None => b
    end
  else b.

Definition sort_columns : list string :=
  ["departure_time"; "arrival_time"; "price_inr"; "duration_minutes"].

Definition sort_directions : list string := ["ASC"; "DESC"].

Definition safeSortBy (sort_by : string) : string :=
  if includes sort_columns sort_by then sort_by else "departure_time".

Definition safeSortOrder (sort_order : string) : string :=
  if includes sort_directions (toUpperCase sort_order)
  then toUpperCase sort_order else "ASC".

(** The filters in the order [buildQuery] visits them. *)
Definition filters (l : locals) (tableName : string) : builder :=
  add_dates (start_date l) (end_date l) (timeline l)
    (add_travel_date (travel_date l)
       (add_in "operator_name" (operatorNames l)
          (add_in "transport_type" (transportTypes l)
             (add_in (if String.eqb tableName "trips" then "destination" else "to_location")
                (destinations l)
                (add_in (if String.eqb tableName "trips" then "origin" else "from_location")
                   (origins l) builder0))))).

Definition where_clause (conditions : list string) : string :=
  match conditions with
  | [] => EmptyString
  | _ :: _ => "WHERE " ++ join " AND " conditions
  end.

Record built : Type := { text : string; values : list prim }.

Definition buildQuery (l : locals) (tableName : string) : built :=
  let b := filters l tableName in
  let query :=
    "SELECT *, (SELECT COUNT(*) FROM " ++ tableName ++ " "
      ++ where_clause (conditions b) ++ ") as total_count FROM " ++ tableName in
  let query :=
    match conditions b with
    | [] => query
    | _ :: _ => query ++ " WHERE " ++ join " AND " (conditions b)
    end in
  let query :=
    query ++ " ORDER BY " ++ safeSortBy (sort_by l) ++ " " ++ safeSortOrder (sort_order l) in
  {| text :=
       query ++ " LIMIT $" ++ nat_to_string (paramIndex b)
         ++ " OFFSET $" ++ nat_to_string (paramIndex b + 1);
     values := List.app (params b) [Number (limitNum l); Number (offset l)] |}.

(** *** Fan-in of the two provider answers *)

Record pools : Type := {
  pool_12go : pool;
  pool_bookaway : pool
}.

(** [.then(res => res.rows).catch(err => [])]. *)
Definition rows_or_empty (r : dbresult) : list row :=
  match r with
  | Rows rows => rows
  | Failed _ => []
  end.

(** [processResults]: the second argument is accepted and never read. *)
Definition processResults (results : list row) (source : string) : list row * prim :=
  match results with
  | [] => ([], Number (Num 0))
  | first :: _ =>
      (map (without "total_count") results,
       prim_or (get "total_count" first) (Number (Num 0)))
  end.

Section Handlers.

Variable StringToNumber : string -> num.

(** The lru-cache instance, configured with [max] and [ttl] only: a
    read returns the live value or [undefined] and may reorder or purge
    entries; a write may evict. *)
Variable lru : Type.
Variable lru_get : lru -> string -> option json * lru.
Variable lru_set : lru -> string -> json -> lru.
Variable lru_size : lru -> Z.

(** [cacheStats]; [currentSize] is not a property until the first write. *)
Record cacheStats : Type := {
  hits : Z;
  misses : Z;
  currentSize : option Z
}.

Record state : Type := { stats : cacheStats; cache : lru }.

Definition getFromCache (key : string) (st : state) : option json * state :=
  let '(value, c) := lru_get (cache st) key in
  match value with
  | Some v =>
      (Some v,
       {| stats := {| hits := hits (stats st) + 1;
                      misses := misses (stats st);
                      currentSize := currentSize (stats st) |};
          cache := c |})
  | None =>
      (None,
       {| stats := {| hits := hits (stats st);
                      misses := misses (stats st) + 1;
                      currentSize := currentSize (stats st) |};
          cache := c |})
  end.

Definition setInCache (key : string) (value : json) (st : state) : state :=
  let c := lru_set (cache st) key value in
  {| stats := {| hits := hits (stats st);
                 misses := misses (stats st);
                 currentSize := Some (lru_size c) |};
     cache := c |}.

(** **** GET /api/combined-trips *)

Definition combinedResults (l : locals) (result12go resultBookaway : list row) : json :=
  let twelveGoData := processResults result12go "12go" in
  let bookawayData := processResults resultBookaway "bookaway" in
  let total :=
    js_add StringToNumber
      (prim_or (snd twelveGoData) (Number (Num 0)))
      (prim_or (snd bookawayData) (Number (Num 0))) in
  JObj [ ("data", JArr (map row_json (List.app (fst twelveGoData) (fst bookawayData))));
         ("pagination",
          JObj [ ("page", JV (Number (pageNum l)));
                 ("limit", JV (Number (limitNum l)));
                 ("total", JV total);
                 ("totalPages",
                  JV (Number (Math_ceil_div (to_number StringToNumber total) (limitNum l)))) ]) ].

(** [{ success: true, ...doc }], for the object the handler has just built. *)
Definition with_success (doc : json) : json :=
  match doc with
  | JObj fields => JObj (("success", JV (Bool true)) :: fields)
  | _ => JObj [("success", JV (Bool true))]
  end.

Definition combined_trips (q : query) (db : pools) (st : state) : response * state :=
  let l := parse q in
  let '(cachedResult, st) := getFromCache (cacheKey l) st in
  match served cachedResult with
  | Some c => (ok c, st)
  | None =>
      let twelveGoQuery := buildQuery l "trips" in
      let bookawayQuery := buildQuery l "bookaway_trips" in
      let result12go :=
        rows_or_empty (pool_12go db (text twelveGoQuery) (values twelveGoQuery)) in
      let resultBookaway :=
        rows_or_empty (pool_bookaway db (text bookawayQuery) (values bookawayQuery)) in
      let doc := combinedResults l result12go resultBookaway in
      (ok (with_success doc), setInCache (cacheKey l) doc st)
  end.

(** **** GET /api/:provider/trips *)

(** What [pools[provider]] evaluates to: one of the two pools, a
    property inherited from Object.prototype (truthy, yet no pool), or
    [undefined]. *)
Inductive pool_ref : Type :=
| IsPool (p : pool)
| Inherited
| NoSuchKey.

Definition object_prototype_keys : list string :=
  ["constructor"; "__proto__"; "hasOwnProperty"; "isPrototypeOf";
   "propertyIsEnumerable"; "toLocaleString"; "toString"; "valueOf";
   "__defineGetter__"; "__defineSetter__"; "__lookupGetter__"; "__lookupSetter__"].

Definition lookup_pool (db : pools) (provider : string) : pool_ref :=
  if String.eqb provider "12go" then IsPool (pool_12go db)
  else if String.eqb provider "bookaway" then IsPool (pool_bookaway db)
  else if includes object_prototype_keys provider then Inherited
  else NoSuchKey.

Definition provider_page (page : option string) : num :=
  num_or (parseInt_opt page) (Num 1).

Definition provider_limit (limit : option string) : num :=
  num_or (parseInt_opt limit) (Num 10).

Definition provider_cacheKey (provider : string) (page limit : num) : string :=
  provider ++ "_trips_page" ++ num_to_string page ++ "_limit" ++ num_to_string limit.

(** The two statements of the handler. *)
Definition count_statement (tableName : string) : string :=
  "SELECT COUNT(*) FROM " ++ tableName.

Definition nl : string := String "010"%char EmptyString.

Definition listing_statement (tableName provider : string) : string :=
  "SELECT " ++ nl
  ++ "        id," ++ nl
  ++ "        COALESCE(origin, 'N/A') as " ++ in_dquotes "From" ++ "," ++ nl
  ++ "        COALESCE(destination, 'N/A') as " ++ in_dquotes "To" ++ "," ++ nl
  ++ "        COALESCE(price_inr, 0) as " ++ in_dquotes "Price" ++ "," ++ nl
  ++ "        COALESCE(operator_name, 'N/A') as " ++ in_dquotes "Operator" ++ "," ++ nl
  ++ "        COALESCE(TO_CHAR(travel_date, 'YYYY-MM-DD'), 'N/A') as "
  ++ in_dquotes "Date" ++ "," ++ nl
  ++ "        COALESCE(route_url, '#') as route_url," ++ nl
  ++ "        COALESCE(transport_type, 'N/A') as transport_type," ++ nl
  ++ "        COALESCE(TO_CHAR(departure_time, 'HH24:MI'), 'N/A') as departure_time," ++ nl
  ++ "        COALESCE(TO_CHAR(arrival_time, 'HH24:MI'), 'N/A') as arrival_time," ++ nl
  ++ "        '" ++ provider ++ "' as source" ++ nl
  ++ "      FROM " ++ tableName ++ " " ++ nl
  ++ "      ORDER BY id " ++ nl
  ++ "      LIMIT $1 OFFSET $2".

Definition failed_to_fetch (details : string) : response :=
  {| status := 500;
     body := JObj [ ("error", JV (Str "Failed to fetch trips"));
                    ("details", JV (Str details)) ] |}.

Definition provider_response (trips : list row) (total page limit : num) : json :=
  let totalPages := Math_ceil_div total limit in
  JObj [ ("data", JArr (map row_json trips));
         ("pagination",
          JObj [ ("total", JV (Number total));
                 ("page", JV (Number page));
                 ("limit", JV (Number limit));
                 ("totalPages", JV (Number totalPages));
                 ("hasNextPage", JV (Bool (num_lt page totalPages)));
                 ("hasPrevPage", JV (Bool (num_gt page (Num 1)))) ]) ].

Definition provider_trips (provider : string) (page_param limit_param : option string)
    (db : pools) (st : state) : response * state :=
  let page := provider_page page_param in
  let limit := provider_limit limit_param in
  let offset := num_mul (num_sub page (Num 1)) limit in
  match lookup_pool db provider with
  | NoSuchKey =>
      (error_response 400
         ("Invalid provider. Use either " ++ in_dquotes "12go"
            ++ " or " ++ in_dquotes "bookaway"),
       st)
  | ref =>
      let key := provider_cacheKey provider page limit in
      let '(cachedData, st) := getFromCache key st in
      match served cachedData with
      | Some c => (ok c, st)
      | None =>
          match ref with
          | IsPool p =>
              let tableName :=
                if String.eqb provider "bookaway" then "bookaway_trips" else "trips" in
              match p (count_statement tableName) [] with
              | Failed message => (failed_to_fetch message, st)
              | Rows countResult =>
                  match p (listing_statement tableName provider)
                          [Number limit; Number offset] with
                  | Failed message => (failed_to_fetch message, st)
                  | Rows trips =>
                      match countResult with
                      | [] =>
                          (failed_to_fetch
                             "Cannot read properties of undefined (reading 'count')", st)
                      | first :: _ =>
                          let total := parseInt10 (to_string (get "count" first)) in
                          let doc := provider_response trips total page limit in
                          (ok doc, setInCache key doc st)
                      end
                  end
              end
          | _ => (failed_to_fetch "pool.connect is not a function", st)
          end
      end
  end.

End Handlers.

Arguments stats {lru} s.
Arguments cache {lru} s.
Arguments getFromCache {lru} lru_get key st.
Arguments setInCache {lru} lru_set lru_size key value st.
Arguments combined_trips StringToNumber {lru} lru_get lru_set lru_size q db st.
Arguments provider_trips {lru} lru_get lru_set lru_size
  provider page_param limit_param db st.

End Server.

(* ================================================================= *)
(** ** migrateomio.js: the instrumented cache and /api/cache-stats *)

Module Instrumented.
Import Js Json Web.

Definition MAX_CACHE_ITEMS : Z := 50.
Definition MAX_CACHE_SIZE : Z := 20 * 1024 * 1024.

Record cacheStats : Type := {
  hits : Z;
  misses : Z;
  evictions : Z;
  currentSize : Z;
  lastEviction : option string
}.

Definition cacheStats0 : cacheStats :=
  {| hits := 0; misses := 0; evictions := 0; currentSize := 0; lastEviction := None |}.

(** [safeStringify]: a string as it is, anything else through
    JSON.stringify, which answers [undefined] for [undefined]. *)
Definition safeStringify (v : json) : option string :=
  match v with
  | JV (Str s) => Some s
  | JV Undefined => None
  | _ => Some (stringify v)
  end.

(** [calculateSize]: byte lengths of value and key; when the value has
    no text, [Buffer.byteLength] throws and the catch answers 0. *)
Definition calculateSize (value : json) (key : string) : Z :=
  match safeStringify value with
  | Some valueStr => Z.of_nat (String.length valueStr) + Z.of_nat (String.length key)
  | None => 0
  end.

(** The [dispose] callback handed to the cache; [now] is what
    [new Date().toISOString()] reads when it runs. *)
Definition dispose (now : string) (key : string) (value : json) (cs : cacheStats)
  : cacheStats :=
  {| hits := hits cs;
     misses := misses cs;
     evictions := evictions cs + 1;
     currentSize := Z.max 0 (currentSize cs - calculateSize value key);
     lastEviction := Some now |}.

(** The callback run once for each entry the cache lets go of. *)
Definition disposals (now : string) (gone : list (string * json)) (cs : cacheStats)
  : cacheStats :=
  fold_left (fun acc kv => dispose now (fst kv) (snd kv) acc) gone cs.

Section Cache.

(** The lru-cache instance: besides its answer, a call reports the
    entries it disposed of while it ran (capacity or size eviction,
    lazy expiry), in the order it called [dispose] on them. *)
Variable lru : Type.
Variable lru_get : lru -> string -> option json * lru * list (string * json).
Variable lru_set : lru -> string -> json -> lru * list (string * json).
Variable lru_size : lru -> Z.

(** [(a / b).toFixed(2)] and [((a / b) * 100).toFixed(2)]: floating-point
    formatting of the two read-outs. *)
Variable quotient_toFixed2 : Z -> Z -> string.
Variable percent_toFixed2 : Z -> Z -> string.

Record state : Type := { stats : cacheStats; cache : lru }.

Definition getFromCache (now key : string) (st : state) : option json * state :=
  let '(value, c, gone) := lru_get (cache st) key in
  let cs := disposals now gone (stats st) in
  match value with
  | Some v =>
      (Some v,
       {| stats := {| hits := hits cs + 1; misses := misses cs;
                      evictions := evictions cs; currentSize := currentSize cs;
                      lastEviction := lastEviction cs |};
          cache := c |})
  | None =>
      (None,
       {| stats := {| hits := hits cs; misses := misses cs + 1;
                      evictions := evictions cs; currentSize := currentSize cs;
                      lastEviction := lastEviction cs |};
          cache := c |})
  end.

Definition setInCache (now key : string) (value : json) (st : state) : state :=
  let size := calculateSize value key in
  let cs := {| hits := hits (stats st); misses := misses (stats st);
               evictions := evictions (stats st);
               currentSize := currentSize (stats st) + size;
               lastEviction := lastEviction (stats st) |} in
  let '(c, gone) := lru_set (cache st) key value in
  {| stats := disposals now gone cs; cache := c |}.

(** The handlers that call [lruCache.get] and [lruCache.set] directly. *)
Definition raw_get (now key : string) (st : state) : option json * state :=
  let '(value, c, gone) := lru_get (cache st) key in
  (value, {| stats := disposals now gone (stats st); cache := c |}).

Definition raw_set (now key : string) (value : json) (st : state) : state :=
  let '(c, gone) := lru_set (cache st) key value in
  {| stats := disposals now gone (stats st); cache := c |}.

(** GET /api/cache-stats. *)
Definition cache_stats (st : state) : response :=
  let cs := stats st in
  ok (JObj [ ("hits", JV (Number (Num (hits cs))));
             ("misses", JV (Number (Num (misses cs))));
             ("evictions", JV (Number (Num (evictions cs))));
             ("currentSize", JV (Number (Num (currentSize cs))));
             ("lastEviction",
              JV (match lastEviction cs with Some t => Str t | None => Null end));
             ("size", JV (Str (quotient_toFixed2 (currentSize cs) (1024 * 1024) ++ "MB")));
             ("maxSize", JV (Str (quotient_toFixed2 MAX_CACHE_SIZE (1024 * 1024) ++ "MB")));
             ("itemCount", JV (Number (Num (lru_size (cache st)))));
             ("maxItems", JV (Number (Num MAX_CACHE_ITEMS)));
             ("hitRate",
              JV (Str (if (hits cs + misses cs >? 0)%Z
                       then percent_toFixed2 (hits cs) (hits cs + misses cs) ++ "%"
                       else "0%"))) ]).

(** One use of the cache by a request, stamped with the clock reading
    of any [dispose] it triggers. *)
Inductive op : Type :=
| Get (key : string)
| Put (key : string) (value : json)
| RawGet (key : string)
| RawPut (key : string) (value : json)
| ReadStats.

Definition step (st : state) (e : string * op) : state :=
  match snd e with
  | Get key => snd (getFromCache (fst e) key st)
  | Put key value => setInCache (fst e) key value st
  | RawGet key => snd (raw_get (fst e) key st)
  | RawPut key value => raw_set (fst e) key value st
  | ReadStats => st
  end.

Definition run (trace : list (string * op)) (st : state) : state :=
  fold_left step trace st.

(** The entries the cache disposes of during one use. *)
Definition disposed_by (st : state) (o : op) : list (string * json) :=
  match o with
  | Get key | RawGet key => snd (lru_get (cache st) key)
  | Put key value | RawPut key value => snd (lru_set (cache st) key value)
  | ReadStats => []
  end.

End Cache.

Arguments stats {lru} s.
Arguments cache {lru} s.
Arguments getFromCache {lru} lru_get now key st.
Arguments setInCache {lru} lru_set now key value st.
Arguments raw_get {lru} lru_get now key st.
Arguments raw_set {lru} lru_set now key value st.
Arguments cache_stats {lru} lru_size quotient_toFixed2 percent_toFixed2 st.
Arguments step {lru} lru_get lru_set st e.
Arguments run {lru} lru_get lru_set trace st.
Arguments disposed_by {lru} lru_get lru_set st o.

(** A count-bounded cache for examples: most recent first, no expiry,
    overwriting a key disposes of nothing ([noDisposeOnSet]). *)
Definition bounded : Type := list (string * json).

Fixpoint find (key : string) (c : bounded) : option json :=
  match c with
  | [] => None
  | (k, v) :: r => if String.eqb key k then Some v else find key r
  end.

Definition drop (key : string) (c : bounded) : bounded :=
  filter (fun kv => negb (String.eqb key (fst kv))) c.

Definition bounded_get (c : bounded) (key : string)
  : option json * bounded * list (string * json) :=
  match find key c with
  | Some v => (Some v, (key, v) :: drop key c, [])
  | None => (None, c, [])
  end.

Definition bounded_set (max : nat) (c : bounded) (key : string) (value : json)
  : bounded * list (string * json) :=
  let c' := (key, value) :: drop key c in
  (firstn max c', rev (skipn max c')).

Definition bounded_size (c : bounded) : Z := Z.of_nat (List.length c).

End Instrumented.

(* ================================================================= *)
(** ** The single-provider server: trips by origin, destination, route *)

Module TripRoutes.
Import Js Json Web.

(** What a module-scope name is bound to, as far as the route handlers
    look: a Map of trip lists, or anything else. *)
Inductive binding : Type :=
| MapOf (entries : list (string * list row))
| Other.

(** Every [const], [let] and [function] declaration of the program, in
    source order (the standalone server first, then the names the
    instrumented variant adds), and the Node globals the program reads. *)
Definition module_scope : list (string * binding) :=
  [ ("express", Other); ("cors", Other); ("Pool", Other); ("dotenv", Other);
    ("LRUCache", Other); ("app", Other); ("port", Other); ("pool", Other);
    ("CACHE_DURATION", Other); ("MAX_CACHE_ITEMS", Other);
    ("MAX_CACHE_SIZE", Other); ("lruCache", Other);
    ("cacheStats", Other); ("safeStringify", Other); ("calculateSize", Other);
    ("getFromCache", Other); ("setInCache", Other);
    ("safeQuery", Other); ("maybeRunGC", Other);
    ("require", Other); ("process", Other); ("console", Other);
    ("Buffer", Other); ("JSON", Other); ("Math", Other); ("Number", Other);
    ("Set", Other); ("Date", Other); ("global", Other) ].

Inductive thrown : Type :=
| ReferenceError (name : string)
| TypeError (message : string).

(** A handler either sends a response or throws before sending one. *)
Inductive outcome : Type :=
| Responded (r : response)
| Threw (e : thrown).

(** Reading an identifier: its binding, or a ReferenceError when no
    declaration is in scope. *)
Definition resolve (name : string) : binding + thrown :=
  match assoc name module_scope with
  | Some b => inl b
  | None => inr (ReferenceError name)
  end.

(** [a === b] on primitives of the kinds a row holds. *)
Definition strict_eq (a b : prim) : bool :=
  match a, b with
  | Undefined, Undefined | Null, Null => true
  | Bool x, Bool y => Bool.eqb x y
  | Number (Num x), Number (Num y) => (x =? y)%Z
  | Str x, Str y => String.eqb x y
  | _, _ => false
  end.

(** [tripCacheMap.get('allTrips').filter(keep)], then [res.json]. *)
Definition from_map (b : binding) (keep : row -> bool) : outcome :=
  match b with
  | MapOf entries =>
      match assoc "allTrips" entries with
      | Some trips => Responded (ok (JArr (map row_json (filter keep trips))))
      | None => Threw (TypeError "Cannot read properties of undefined (reading 'filter')")
      end
  | Other => Threw (TypeError "tripCacheMap.get is not a function")
  end.

(** [tripCacheMap.has('allTrips')]. *)
Definition map_has (b : binding) : bool + thrown :=
  match b with
  | MapOf entries =>
      inl (match assoc "allTrips" entries with Some _ => true | None => false end)
  | Other => inr (TypeError "tripCacheMap.has is not a function")
  end.

(** The database branch shared by the three handlers. *)
Definition from_database (answer : dbresult) (not_found : string) : outcome :=
  match answer with
  | Rows [] => Responded (error_response 404 not_found)
  | Rows rows => Responded (ok (JArr (map row_json rows)))
  | Failed _ => Responded (error_response 500 "Failed to fetch trips")
  end.

Section Routes.

Variable lru : Type.
Variable lru_get : lru -> string -> option json * lru.

(** GET /api/trips/from/:origin *)
Definition trips_from (origin : string) (db : pool) (c : lru) : outcome :=
  let cacheKey := "trips_from_" ++ origin in
  let '(cachedTrips, _) := lru_get c cacheKey in
  match served cachedTrips with
  | Some _ =>
      match resolve "tripCacheMap" with
      | inr e => Threw e
      | inl m => from_map m (fun t => strict_eq (get "origin" t) (Str origin))
      end
  | None =>
      from_database (db "SELECT * FROM trips WHERE origin = $1" [Str origin])
        "No trips found for this origin"
  end.

End Routes.

Arguments trips_from {lru} lru_get origin db c.

(** GET /api/trips/to/:destination *)
Definition trips_to (destination : string) (db : pool) : outcome :=
  match resolve "tripCacheMap" with
  | inr e => Threw e
  | inl m =>
      match map_has m with
      | inr e => Threw e
      | inl true =>
          from_map m (fun t => strict_eq (get "destination" t) (Str destination))
      | inl false =>
          from_database
            (db "SELECT * FROM trips WHERE destination = $1" [Str destination])
            "No trips found for this destination"
      end
  end.

(** GET /api/trips/route/:from/:to *)
Definition trips_route (from to : string) (db : pool) : outcome :=
  match resolve "tripCacheMap" with
  | inr e => Threw e
  | inl m =>
      match map_has m with
      | inr e => Threw e
      | inl true =>
          from_map m (fun t => strict_eq (get "origin" t) (Str from)
                               && strict_eq (get "destination" t) (Str to))
      | inl false =>
          from_database
            (db "SELECT * FROM trips WHERE origin = $1 AND destination = $2"
                [Str from; Str to])
            ("No trips found from " ++ from ++ " to " ++ to)
      end
  end.

End TripRoutes.


(* ================================================================= *)
(** ** server.js: GET /api/combined-trips on the query as Express parses it *)

Module Raw.
Import Js Json Web.

(** A query parameter as [req.query] holds it: a string or, for a
    parameter that is repeated or written with brackets, an array or
    object (of such values), given here by its JSON value. *)
Inductive param : Type :=
| Text (s : string)
| Structured (v : json).

(** Arrays and objects are truthy, the empty string is not. *)
Definition truthy_param (o : option param) : bool :=
  match o with
  | Some (Text s) => truthy_str (Some s)
  | Some (Structured _) => true
  | None => false
  end.

(** [String(v)]: the elements of an array joined by commas, [null] and
    [undefined] as nothing; an object as "[object Object]". *)
Fixpoint String_of (v : json) : string :=
  match v with
  | JV p => to_string p
  | JArr items =>
      join ","
        ((fix each (l : list json) : list string :=
            match l with
            | [] => []
            | x :: r =>
                match x with
                | JV Undefined | JV Null => EmptyString :: each r
                | _ => String_of x :: each r
                end
            end) items)
  | JObj _ => "[object Object]"
  end.

Definition text_of (p : param) : string :=
  match p with
  | Text s => s
  | Structured v => String_of v
  end.

(** The parameter as a JavaScript value. *)
Definition value (p : param) : json :=
  match p with
  | Text s => JV (Str s)
  | Structured v => v
  end.

Definition optional (o : option param) : json :=
  match o with
  | Some p => value p
  | None => JV Undefined
  end.

Record query : Type := {
  q_origin : option param;
  q_destination : option param;
  q_operator_name : option param;
  q_transport_type : option param;
  q_timeline : option param;
  q_start_date : option param;
  q_end_date : option param;
  q_travel_date : option param;
  q_page : option param;
  q_limit : option param;
  q_sort_by : option param;
  q_sort_order : option param
}.

(** A destructuring default, [{ page = '1' } = req.query]. *)
Definition or_default (d : string) (o : option param) : param :=
  match o with Some p => p | None => Text d end.

(** [v ? v.split(',') : []]: an array or object has no [split], and
    the call throws a TypeError with this message. *)
Definition csv (name : string) (o : option param) : list string + string :=
  match o with
  | Some (Text s) => inl (Server.csv (Some s))
  | Some (Structured _) => inr (name ++ ".split is not a function")
  | None => inl []
  end.

Record locals : Type := {
  origins : list string;
  destinations : list string;
  transportTypes : list string;
  operatorNames : list string;
  timeline : option param;
  start_date : option param;
  end_date : option param;
  travel_date : option param;
  pageNum : num;
  limitNum : num;
  offset : num;
  sort_by : param;
  sort_order : param
}.

(** The handler's local variables, or what the first failing [split]
    throws. *)
Definition parse (q : query) : locals + string :=
  let pageNum := Math_max (Num 1) (parseInt (text_of (or_default "1" (q_page q)))) in
  let limitNum :=
    Math_min (Num 100) (Math_max (Num 1) (parseInt (text_of (or_default "50" (q_limit q))))) in
  match csv "origin" (q_origin q) with
  | inr e => inr e
  | inl origins =>
      match csv "destination" (q_destination q) with
      | inr e => inr e
      | inl destinations =>
          match csv "transport_type" (q_transport_type q) with
          | inr e => inr e
          | inl transportTypes =>
              match csv "operator_name" (q_operator_name q) with
              | inr e => inr e
              | inl operatorNames =>
                  inl {| origins := origins;
                         destinations := destinations;
                         transportTypes := transportTypes;
                         operatorNames := operatorNames;
                         timeline := q_timeline q;
                         start_date := q_start_date q;
                         end_date := q_end_date q;
                         travel_date := q_travel_date q;
                         pageNum := pageNum;
                         limitNum := limitNum;
                         offset := num_mul (num_sub pageNum (Num 1)) limitNum;
                         sort_by := or_default "departure_time" (q_sort_by q);
                         sort_order := or_default "ASC" (q_sort_order q) |}
              end
          end
      end
  end.

Definition cacheKey_object (l : locals) : json :=
  JObj [ ("origins", Server.strings (origins l));
         ("destinations", Server.strings (destinations l));
         ("operatorNames", Server.strings (operatorNames l));
         ("transportTypes", Server.strings (transportTypes l));
         ("timeline", optional (timeline l));
         ("start_date", optional (start_date l));
         ("end_date", optional (end_date l));
         ("travel_date", optional (travel_date l));
         ("pageNum", JV (Number (pageNum l)));
         ("limitNum", JV (Number (limitNum l)));
         ("sort_by", value (sort_by l));
         ("sort_order", value (sort_order l)) ].

Definition cacheKey (l : locals) : string :=
  "combined_trips_" ++ stringify (cacheKey_object l).

(** [['departure_time', ...].includes(sort_by)]: no array or object is
    in the list. *)
Definition safeSortBy (sort_by : param) : string :=
  match sort_by with
  | Text s => Server.safeSortBy s
  | Structured _ => "departure_time"
  end.

(** [sort_order.toUpperCase()]: an array or object has no such method. *)
Definition safeSortOrder (sort_order : param) : string + string :=
  match sort_order with
  | Text s => inl (Server.safeSortOrder s)
  | Structured _ => inr "sort_order.toUpperCase is not a function"
  end.

(** The [travel_date] filter: the [split] of an array or object throws
    inside the inner [try], which logs and goes on without the filter. *)
Definition add_travel_date (travel_date : option param) (b : Server.builder)
  : Server.builder :=
  match travel_date with
  | Some (Text d) => Server.add_travel_date (Some d) b
  | _ => b
  end.

Section Handler.

(** node-postgres's text for a bound value that is an array or object. *)
Variable prepareValue : json -> prim.

Definition bind (o : option param) : prim :=
  match o with
  | Some (Text s) => Str s
  | Some (Structured v) => prepareValue v
  | None => Undefined
  end.

(** The date filters: both dates, else the time line, whose
    [toLowerCase] an array or object does not have. *)
Definition add_dates (start_date end_date timeline : option param) (b : Server.builder)
  : Server.builder + string :=
  if truthy_param start_date && truthy_param end_date then
    inl {| Server.params := List.app (Server.params b) [bind start_date; bind end_date];
           Server.conditions :=
             List.app (Server.conditions b)
               ["travel_date BETWEEN $" ++ nat_to_string (Server.paramIndex b)
                  ++ " AND $" ++ nat_to_string (Server.paramIndex b + 1)];
           Server.paramIndex := Server.paramIndex b + 2 |}
  else if truthy_param timeline then
    match timeline with
    | Some (Text t) =>
        match Server.timeline_condition t with
        | Some c =>
            inl {| Server.params := Server.params b;
                   Server.conditions := List.app (Server.conditions b) [c];
                   Server.paramIndex := Server.paramIndex b |}
        | None => inl b
        end
    | _ => inr "timeline.toLowerCase is not a function"
    end
  else inl b.

Definition filters (l : locals) (tableName : string) : Server.builder + string :=
  add_dates (start_date l) (end_date l) (timeline l)
    (add_travel_date (travel_date l)
       (Server.add_in "operator_name" (operatorNames l)
          (Server.add_in "transport_type" (transportTypes l)
             (Server.add_in
                (if String.eqb tableName "trips" then "destination" else "to_location")
                (destinations l)
                (Server.add_in
                   (if String.eqb tableName "trips" then "origin" else "from_location")
                   (origins l) Server.builder0))))).

(** [buildQuery]: the statement and its values, or what it throws. *)
Definition buildQuery (l : locals) (tableName : string) : Server.built + string :=
  match filters l tableName with
  | inr e => inr e
  | inl b =>
      let query :=
        "SELECT *, (SELECT COUNT(*) FROM " ++ tableName ++ " "
          ++ Server.where_clause (Server.conditions b) ++ ") as total_count FROM "
          ++ tableName in
      let query :=
        match Server.conditions b with
        | [] => query
        | _ :: _ => query ++ " WHERE " ++ join " AND " (Server.conditions b)
        end in
      match safeSortOrder (sort_order l) with
      | inr e => inr e
      | inl direction =>
          let query :=
            query ++ " ORDER BY " ++ safeSortBy (sort_by l) ++ " " ++ direction in
          inl {| Server.text :=
                   query ++ " LIMIT $" ++ nat_to_string (Server.paramIndex b)
                     ++ " OFFSET $" ++ nat_to_string (Server.paramIndex b + 1);
                 Server.values :=
                   List.app (Server.params b) [Number (limitNum l); Number (offset l)] |}
      end
  end.

Variable StringToNumber : string -> num.
Variable lru : Type.
Variable lru_get : lru -> string -> option json * lru.
Variable lru_set : lru -> string -> json -> lru.
Variable lru_size : lru -> Z.

Definition combinedResults (l : locals) (result12go resultBookaway : list row) : json :=
  let twelveGoData := Server.processResults result12go "12go" in
  let bookawayData := Server.processResults resultBookaway "bookaway" in
  let total :=
    js_add StringToNumber
      (prim_or (snd twelveGoData) (Number (Num 0)))
      (prim_or (snd bookawayData) (Number (Num 0))) in
  JObj [ ("data", JArr (map row_json (List.app (fst twelveGoData) (fst bookawayData))));
         ("pagination",
          JObj [ ("page", JV (Number (pageNum l)));
                 ("limit", JV (Number (limitNum l)));
                 ("total", JV total);
                 ("totalPages",
                  JV (Number (Math_ceil_div (to_number StringToNumber total) (limitNum l)))) ]) ].

(** The answer of the outer [catch]. *)
Definition failed (details : string) : response :=
  {| status := 500;
     body := JObj [ ("success", JV (Bool false));
                    ("error", JV (Str "Failed to fetch combined trips data"));
                    ("details", JV (Str details)) ] |}.

Definition combined_trips (q : query) (db : Server.pools) (st : Server.state lru)
  : response * Server.state lru :=
  match parse q with
  | inr e => (failed e, st)
  | inl l =>
      let '(cachedResult, st) := Server.getFromCache lru_get (cacheKey l) st in
      match served cachedResult with
      | Some c => (ok c, st)
      | None =>
          match buildQuery l "trips" with
          | inr e => (failed e, st)
          | inl twelveGoQuery =>
              match buildQuery l "bookaway_trips" with
              | inr e => (failed e, st)
              | inl bookawayQuery =>
                  let result12go :=
                    Server.rows_or_empty
                      (Server.pool_12go db (Server.text twelveGoQuery)
                         (Server.values twelveGoQuery)) in
                  let resultBookaway :=
                    Server.rows_or_empty
                      (Server.pool_bookaway db (Server.text bookawayQuery)
                         (Server.values bookawayQuery)) in
                  let doc := combinedResults l result12go resultBookaway in
                  (ok (Server.with_success doc),
                   Server.setInCache lru_set lru_size (cacheKey l) doc st)
              end
          end
      end
  end.

End Handler.

Arguments combined_trips prepareValue StringToNumber {lru} lru_get lru_set lru_size q db st.

(** A request all of whose parameters are strings. *)
Definition texts (q : Server.query) : query :=
  {| q_origin := option_map Text (Server.q_origin q);
     q_destination := option_map Text (Server.q_destination q);
     q_operator_name := option_map Text (Server.q_operator_name q);
     q_transport_type := option_map Text (Server.q_transport_type q);
     q_timeline := option_map Text (Server.q_timeline q);
     q_start_date := option_map Text (Server.q_start_date q);
     q_end_date := option_map Text (Server.q_end_date q);
     q_travel_date := option_map Text (Server.q_travel_date q);
     q_page := option_map Text (Server.q_page q);
     q_limit := option_map Text (Server.q_limit q);
     q_sort_by := option_map Text (Server.q_sort_by q);
     q_sort_order := option_map Text (Server.q_sort_order q) |}.

End Raw.

(* ================================================================= *)
(** ** server.js: search, filter lists and metric filters *)

Module Endpoints.
Import Js Json Web.

Definition nl : string := Server.nl.

(** [safeQuery] resolves with [result.rows], an array; reading [.rows]
    off that array again finds no such property. *)
Definition rows_of_array (result : list row) : option (list row) := None.

(** *** GET /api/transport-types *)

Definition transport_types_cacheKey : string := "transport_types".

Definition transport_types_query12go : string :=
  "SELECT DISTINCT transport_type FROM trips;".

Definition transport_types_queryBookaway : string :=
  "SELECT DISTINCT transport_type FROM bookaway_trips;".

(** An element inside [join]: [null] and [undefined] print as nothing. *)
Definition join_text (p : prim) : string :=
  match p with
  | Undefined | Null => EmptyString
  | _ => to_string p
  end.

(** [result.map(row => row.transport_type).join(', ')]. *)
Definition types_of (result : list row) : string :=
  join ", " (map (fun r => join_text (get "transport_type" r)) result).

Definition transport_types_response (now types12go typesBookaway : string) : json :=
  JObj [ ("12go", JObj [("routes", JV (Str types12go))]);
         ("bookaway", JObj [("routes", JV (Str typesBookaway))]);
         ("success", JV (Bool true));
         ("timestamp", JV (Str now)) ].

Definition transport_types_failed (details : string) : response :=
  {| status := 500;
     body := JObj [ ("success", JV (Bool false));
                    ("error", JV (Str "Failed to fetch transport types"));
                    ("details", JV (Str details)) ] |}.

(** *** GET /api/:provider/search *)

Definition validFields : list string :=
  ["origin"; "destination"; "transport_type"; "operator_name"].

Definition search_cacheKey (provider field q : string) : string :=
  provider ++ "_search_" ++ field ++ "_" ++ toLowerCase q.

Definition route_search_statement (tableName field : string) : string :=
  nl
  ++ "        SELECT DISTINCT " ++ nl
  ++ "          origin, " ++ nl
  ++ "          destination, " ++ nl
  ++ "          transport_type," ++ nl
  ++ "          operator_name" ++ nl
  ++ "        FROM " ++ tableName ++ nl
  ++ "        WHERE " ++ field ++ " ILIKE $1" ++ nl
  ++ "        ORDER BY " ++ field ++ nl
  ++ "        LIMIT 50" ++ nl
  ++ "      ".

Definition value_search_statement (tableName field : string) : string :=
  nl
  ++ "        SELECT DISTINCT " ++ field ++ " as value" ++ nl
  ++ "        FROM " ++ tableName ++ nl
  ++ "        WHERE " ++ field ++ " ILIKE $1" ++ nl
  ++ "        ORDER BY " ++ field ++ nl
  ++ "        LIMIT 10" ++ nl
  ++ "      ".

Definition is_route_field (field : string) : bool :=
  String.eqb field "origin" || String.eqb field "destination".

Definition search_statement (tableName field : string) : string :=
  if is_route_field field then route_search_statement tableName field
  else value_search_statement tableName field.

(** [`%${q}%`]. *)
Definition like_pattern (q : string) : string := "%" ++ q ++ "%".

Definition route_object (r : row) : json :=
  JObj [ ("origin", JV (get "origin" r));
         ("destination", JV (get "destination" r));
         ("transport_type", JV (get "transport_type" r));
         ("operator_name", JV (get "operator_name" r)) ].

Definition search_results (field : string) (result : list row) : json :=
  if is_route_field field then JArr (map route_object result)
  else JArr (map (fun r => JV (get "value" r)) result).

Definition search_failed (field details : string) : response :=
  {| status := 500;
     body := JObj [ ("error", JV (Str ("Error searching " ++ field ++ "s")));
                    ("details", JV (Str details)) ] |}.

(** *** GET /api/filters *)

(** SameValueZero, the equality of Set. *)
Definition same_value_zero (a b : prim) : bool :=
  match a, b with
  | Undefined, Undefined | Null, Null => true
  | Bool x, Bool y => Bool.eqb x y
  | Number NaN, Number NaN => true
  | Number (Num x), Number (Num y) => (x =? y)%Z
  | Str x, Str y => String.eqb x y
  | _, _ => false
  end.

(** A Set as the list of its elements in insertion order. *)
Definition set_has (s : list prim) (x : prim) : bool := existsb (same_value_zero x) s.

Definition set_add (s : list prim) (x : prim) : list prim :=
  if set_has s x then s else List.app s [x].

(** [rows.forEach(row => row.k && set.add(row.k))]. *)
Definition add_column (k : string) (rows : list row) (s : list prim) : list prim :=
  fold_left (fun acc r => if truthy (get k r) then set_add acc (get k r) else acc) rows s.

(** [Array.from(set).join(',')]. *)
Definition joined (s : list prim) : string := join "," (map join_text s).

Definition distinct_statement (column tableName : string) : string :=
  "SELECT DISTINCT " ++ column ++ " FROM " ++ tableName
    ++ " WHERE " ++ column ++ " IS NOT NULL".

(** The four Sets the loop fills. *)
Record filter_sets : Type := {
  set_origin : list prim;
  set_destination : list prim;
  set_transport_type : list prim;
  set_operator_name : list prim
}.

Definition no_filters : filter_sets :=
  {| set_origin := []; set_destination := [];
     set_transport_type := []; set_operator_name := [] |}.

(** One turn of the loop over the providers: four queries in sequence,
    the first failure aborts, then the four Sets grow. *)
Definition collect_provider (p : pool) (tableName : string) (acc : filter_sets)
  : filter_sets + string :=
  match p (distinct_statement "origin" tableName) [] with
  | Failed m => inr m
  | Rows origins =>
      match p (distinct_statement "destination" tableName) [] with
      | Failed m => inr m
      | Rows destinations =>
          match p (distinct_statement "transport_type" tableName) [] with
          | Failed m => inr m
          | Rows transportTypes =>
              match p (distinct_statement "operator_name" tableName) [] with
              | Failed m => inr m
              | Rows operators =>
                  inl {| set_origin := add_column "origin" origins (set_origin acc);
                         set_destination :=
                           add_column "destination" destinations (set_destination acc);
                         set_transport_type :=
                           add_column "transport_type" transportTypes
                             (set_transport_type acc);
                         set_operator_name :=
                           add_column "operator_name" operators (set_operator_name acc) |}
              end
          end
      end
  end.

(** [Object.entries(pools)]: 12go, then bookaway. *)
Definition collect_filters (db : Server.pools) : filter_sets + string :=
  match collect_provider (Server.pool_12go db) "trips" no_filters with
  | inr m => inr m
  | inl acc => collect_provider (Server.pool_bookaway db) "bookaway_trips" acc
  end.

Definition filters_cacheKey : string := "filters_data".

Definition filters_response (s : filter_sets) : json :=
  JObj [ ("origin", JV (Str (joined (set_origin s))));
         ("destination", JV (Str (joined (set_destination s))));
         ("transport_type", JV (Str (joined (set_transport_type s))));
         ("operator_name", JV (Str (joined (set_operator_name s)))) ].

(** *** GET /api/filters/search *)

Definition filter_search_statement (tableName columnName : string) : string :=
  "SELECT DISTINCT " ++ columnName ++ " as value " ++ nl
  ++ "         FROM " ++ tableName ++ " " ++ nl
  ++ "         WHERE " ++ columnName ++ " ILIKE $1 " ++ nl
  ++ "         LIMIT 50".

(** The [switch (field)] of the loop body; no case, [continue]. *)
Definition columnName (field : string) : option string :=
  if String.eqb field "From" then Some "origin"
  else if String.eqb field "To" then Some "destination"
  else if String.eqb field "Transport Type" then Some "transport_type"
  else if String.eqb field "Operator" then Some "operator_name"
  else None.

(** One turn of the loop: the values pushed to [results], or what was
    thrown. *)
Definition search_provider (p : pool) (tableName field searchQuery : string)
    (results : list prim) : list prim + string :=
  match columnName field with
  | None => inl results
  | Some column =>
      match p (filter_search_statement tableName column) [Str searchQuery] with
      | Failed m => inr m
      | Rows result =>
          match rows_of_array result with
          | Some rows => inl (List.app results (map (get "value") rows))
          | None => inr "Cannot read properties of undefined (reading 'map')"
          end
      end
  end.

(** Insertion into a list kept in the order of [Array.prototype.sort]
    without comparator: by the texts of the elements, [undefined] last. *)
Definition sorts_before (a b : prim) : bool :=
  match a, b with
  | Undefined, _ => false
  | _, Undefined => true
  | _, _ => String.ltb (to_string a) (to_string b)
  end.

Fixpoint insert_sorted (x : prim) (l : list prim) : list prim :=
  match l with
  | [] => [x]
  | y :: r => if sorts_before y x || negb (sorts_before x y)
              then y :: insert_sorted x r else x :: l
  end.

Definition sorted (l : list prim) : list prim := fold_right insert_sorted [] (rev l).

(** [[...new Set(results)].sort()]. *)
Definition uniqueResults (results : list prim) : list prim :=
  sorted (fold_left set_add results []).

Definition filters_search (field query : option string) (db : Server.pools) : response :=
  if negb (truthy_str field) || negb (truthy_str query) then
    error_response 400 "Field and query parameters are required"
  else
    let field := Server.or_default EmptyString field in
    let searchQuery := like_pattern (Server.or_default EmptyString query) in
    let failed :=
      {| status := 500;
         body := JObj [ ("success", JV (Bool false));
                        ("error", JV (Str "Failed to search filters")) ] |} in
    match search_provider (Server.pool_12go db) "trips" field searchQuery [] with
    | inr _ => failed
    | inl results =>
        match search_provider (Server.pool_bookaway db) "bookaway_trips"
                field searchQuery results with
        | inr _ => failed
        | inl results =>
            ok (JObj [ ("success", JV (Bool true));
                       ("data", JArr (map JV (uniqueResults results))) ])
        end
    end.

(** *** Filters of the metrics endpoints *)

Record metric_query : Type := {
  m_from : option string;
  m_to : option string;
  m_transportType : option string
}.

Record metric_filters : Type := {
  m_params : list prim;
  m_conditions : list string
}.

Definition no_metric_filters : metric_filters := {| m_params := []; m_conditions := [] |}.

(** lowest-price, unique-routes, unique-providers, cheapest-carriers:
    the condition first, numbered [params.length + 1], then the value. *)
Definition add_lower (column : string) (v : option string) (s : metric_filters)
  : metric_filters :=
  if truthy_str v then
    {| m_conditions :=
         List.app (m_conditions s)
           ["LOWER(" ++ column ++ ") = LOWER($"
              ++ nat_to_string (List.length (m_params s) + 1) ++ ")"];
       m_params := List.app (m_params s) [Str (Server.or_default EmptyString v)] |}
  else s.

Definition lower_filters (q : metric_query) : metric_filters :=
  add_lower "transport_type" (m_transportType q)
    (add_lower "destination" (m_to q)
       (add_lower "origin" (m_from q) no_metric_filters)).

(** highest-price: the value first, then the condition numbered
    [params.length]. *)
Definition add_exact (column : string) (v : option string) (s : metric_filters)
  : metric_filters :=
  if truthy_str v then
    let params := List.app (m_params s) [Str (Server.or_default EmptyString v)] in
    {| m_params := params;
       m_conditions :=
         List.app (m_conditions s)
           [column ++ " = $" ++ nat_to_string (List.length params)] |}
  else s.

Definition exact_filters (q : metric_query) : metric_filters :=
  add_exact "transport_type" (m_transportType q)
    (add_exact "destination" (m_to q)
       (add_exact "origin" (m_from q) no_metric_filters)).

(** [query += ' WHERE ' + conditions.join(' AND ')] when there are conditions. *)
Definition with_where (query : string) (conditions : list string) : string :=
  match conditions with
  | [] => query
  | _ :: _ => query ++ " WHERE " ++ join " AND " conditions
  end.

(** [result.rows[0]?.k]. *)
Definition first_cell (k : string) (rows : list row) : prim :=
  match rows with
  | [] => Undefined
  | r :: _ => get k r
  end.

(** The helpers that run one aggregate on one table: the value they
    return, or what [pool.query] rejected with. *)
Definition aggregate (p : pool) (select : string) (params : list prim)
    (conditions : list string) (k : string) : prim + string :=
  match p (with_where select conditions) params with
  | Failed m => inr m
  | Rows rows => inl (first_cell k rows)
  end.

Definition getUniqueRoutes (p : pool) (tableName : string) (params : list prim)
    (conditions : list string) : num + string :=
  match aggregate p ("SELECT COUNT(DISTINCT (origin, destination)) as unique_routes FROM "
                       ++ tableName) params conditions "unique_routes" with
  | inr m => inr m
  | inl v => inl (parseInt (to_string (prim_or v (Number (Num 0)))))
  end.

Definition getLowestPrice (p : pool) (tableName : string) (params : list prim)
    (conditions : list string) : prim + string :=
  match aggregate p ("SELECT MIN(price_inr) as lowest_price FROM " ++ tableName)
          params conditions "lowest_price" with
  | inr m => inr m
  | inl v => inl (prim_or v (Str "0.00"))
  end.

Definition getHighestPrice (p : pool) (tableName : string) (params : list prim)
    (conditions : list string) : prim + string :=
  match aggregate p ("SELECT MAX(price_inr) as highest_price FROM " ++ tableName)
          params conditions "highest_price" with
  | inr m => inr m
  | inl v => inl (prim_or v (Str "0.00"))
  end.

Definition getUniqueProviders (p : pool) (tableName : string) (params : list prim)
    (conditions : list string) : num + string :=
  match aggregate p ("SELECT COUNT(DISTINCT operator_name) as unique_providers FROM "
                       ++ tableName) params conditions "unique_providers" with
  | inr m => inr m
  | inl v => inl (parseInt (to_string (prim_or v (Number (Num 0)))))
  end.

(** [Promise.all] of the two helper calls: both values, or the
    rejection (of the 12go call when both reject). *)
Definition both {A : Type} (a b : A + string) : (A * A) + string :=
  match a, b with
  | inl x, inl y => inl (x, y)
  | inr m, _ => inr m
  | _, inr m => inr m
  end.

Definition failed_with_details (error details : string) : response :=
  {| status := 500;
     body := JObj [("error", JV (Str error)); ("details", JV (Str details))] |}.

(** GET /api/metrics/highest-price: one provider after the other. *)
Definition highest_price (q : metric_query) (db : Server.pools) : response :=
  let f := exact_filters q in
  match getHighestPrice (Server.pool_12go db) "trips" (m_params f) (m_conditions f) with
  | inr _ => error_response 500 "Internal server error"
  | inl a =>
      match getHighestPrice (Server.pool_bookaway db) "bookaway_trips"
              (m_params f) (m_conditions f) with
      | inr _ => error_response 500 "Internal server error"
      | inl b =>
          ok (JObj [ ("12go", JObj [("highest_price", JV a)]);
                     ("bookaway", JObj [("highest_price", JV b)]) ])
      end
  end.

(** GET /api/metrics/lowest-price. *)
Definition lowest_price (now : string) (q : metric_query) (db : Server.pools) : response :=
  let f := lower_filters q in
  match both (getLowestPrice (Server.pool_12go db) "trips" (m_params f) (m_conditions f))
             (getLowestPrice (Server.pool_bookaway db) "bookaway_trips"
                (m_params f) (m_conditions f)) with
  | inr m => failed_with_details "Failed to fetch lowest prices" m
  | inl (twelveGoPrice, bookawayPrice) =>
      ok (JObj [ ("12go", JObj [ ("lowest_price", JV (Str (to_string twelveGoPrice)));
                                 ("timestamp", JV (Str now)) ]);
                 ("bookaway", JObj [ ("lowest_price", JV (Str (to_string bookawayPrice)));
                                     ("timestamp", JV (Str now)) ]) ])
  end.

(** GET /api/metrics/unique-routes. *)
Definition unique_routes (now : string) (q : metric_query) (db : Server.pools) : response :=
  let f := lower_filters q in
  match both (getUniqueRoutes (Server.pool_12go db) "trips" (m_params f) (m_conditions f))
             (getUniqueRoutes (Server.pool_bookaway db) "bookaway_trips"
                (m_params f) (m_conditions f)) with
  | inr m => failed_with_details "Failed to fetch unique routes" m
  | inl (twelveGoCount, bookawayCount) =>
      ok (JObj [ ("12go", JObj [ ("unique_routes", JV (Number twelveGoCount));
                                 ("timestamp", JV (Str now)) ]);
                 ("bookaway", JObj [ ("unique_routes", JV (Number bookawayCount));
                                     ("timestamp", JV (Str now)) ]) ])
  end.

(** GET /api/metrics/unique-providers. *)
Definition unique_providers (now : string) (q : metric_query) (db : Server.pools)
  : response :=
  let f := lower_filters q in
  match both (getUniqueProviders (Server.pool_12go db) "trips" (m_params f) (m_conditions f))
             (getUniqueProviders (Server.pool_bookaway db) "bookaway_trips"
                (m_params f) (m_conditions f)) with
  | inr m => failed_with_details "Failed to fetch unique providers" m
  | inl (twelveGoCount, bookawayCount) =>
      ok (JObj [ ("12go", JObj [ ("unique_providers", JV (Number twelveGoCount));
                                 ("timestamp", JV (Str now)) ]);
                 ("bookaway", JObj [ ("unique_providers", JV (Number bookawayCount));
                                     ("timestamp", JV (Str now)) ]) ])
  end.

(** *** GET /api/filter/date *)

Record date_query : Type := {
  d_provider : option string;
  d_range : option string;
  d_startDate : option string;
  d_endDate : option string
}.

(** [provider === '12go' ? 'trips' : 'trips']. *)
Definition date_tableName (provider : string) : string :=
  if String.eqb provider "12go" then "trips" else "trips".

(** The cases of [switch (range.toLowerCase())] that bind nothing. *)
Definition date_statement (tableName range : string) : option string :=
  let select := "SELECT * FROM " ++ tableName ++ " WHERE " in
  if String.eqb range "today" then
    Some (select ++ "departure_time::date = CURRENT_DATE")
  else if String.eqb range "tomorrow" then
    Some (select ++ "departure_time::date = CURRENT_DATE + INTERVAL '1 day'")
  else if String.eqb range "next 7 days" then
    Some (select ++ "departure_time::date BETWEEN CURRENT_DATE AND CURRENT_DATE + INTERVAL '7 days'")
  else if String.eqb range "next 14 days" then
    Some (select ++ "departure_time::date BETWEEN CURRENT_DATE AND CURRENT_DATE + INTERVAL '14 days'")
  else if String.eqb range "this month" then
    Some (select ++ "departure_time::date >= date_trunc('month', CURRENT_DATE)::date AND departure_time::date < date_trunc('month', CURRENT_DATE)::date + INTERVAL '1 month'")
  else if String.eqb range "this year" then
    Some (select ++ "departure_time::date >= date_trunc('year', CURRENT_DATE)::date AND departure_time::date < date_trunc('year', CURRENT_DATE)::date + INTERVAL '1 year'")
  else None.

Definition custom_date_statement (tableName : string) : string :=
  "SELECT * FROM " ++ tableName ++ " WHERE departure_time::date BETWEEN $1 AND $2".

Definition filter_failed (details : string) : response :=
  {| status := 500;
     body := JObj [ ("success", JV (Bool false));
                    ("error", JV (Str "Failed to filter trips"));
                    ("details", JV (Str details)) ] |}.

(** [pool.query(query, params)] on what [pools[provider]] gave, and the
    response to its outcome. *)
Definition filtered (ref : Server.pool_ref) (query : string) (params : list prim)
  : response :=
  match ref with
  | Server.IsPool p =>
      match p query params with
      | Failed m => filter_failed m
      | Rows rows =>
          ok (JObj [ ("success", JV (Bool true));
                     ("count", JV (Number (Num (Z.of_nat (List.length rows)))));
                     ("data", JArr (map row_json rows)) ])
      end
  | _ => filter_failed "pool.query is not a function"
  end.

Definition filter_date (q : date_query) (db : Server.pools) : response :=
  if negb (truthy_str (d_provider q)) || negb (truthy_str (d_range q)) then
    error_response 400 "Provider and range parameters are required"
  else
    let provider := Server.or_default EmptyString (d_provider q) in
    let range := Server.or_default EmptyString (d_range q) in
    match Server.lookup_pool db provider with
    | Server.NoSuchKey => error_response 400 "Invalid provider"
    | ref =>
        let tableName := date_tableName provider in
        if String.eqb (toLowerCase range) "custom" then
          if negb (truthy_str (d_startDate q)) || negb (truthy_str (d_endDate q)) then
            error_response 400 "startDate and endDate are required for custom range"
          else
            filtered ref (custom_date_statement tableName)
              [ Str (Server.or_default EmptyString (d_startDate q));
                Str (Server.or_default EmptyString (d_endDate q)) ]
        else
          match date_statement tableName (toLowerCase range) with
          | Some query => filtered ref query []
          | None => error_response 400 "Invalid date range specified"
          end
    end.

Section Cached.

Variable lru : Type.
Variable lru_get : lru -> string -> option json * lru.
Variable lru_set : lru -> string -> json -> lru.
Variable lru_size : lru -> Z.

Definition search (provider : string) (field q : option string)
    (db : Server.pools) (st : Server.state lru) : response * Server.state lru :=
  match Server.lookup_pool db provider with
  | Server.NoSuchKey =>
      (error_response 400
         ("Invalid provider. Use either " ++ in_dquotes "12go"
            ++ " or " ++ in_dquotes "bookaway"),
       st)
  | ref =>
      if negb (truthy_str field) || negb (truthy_str q) then
        (error_response 400 "Both field and q parameters are required", st)
      else
        let field := Server.or_default EmptyString field in
        let q := Server.or_default EmptyString q in
        if negb (includes validFields field) then
          (error_response 400 ("Field must be one of: " ++ join ", " validFields), st)
        else
          let key := search_cacheKey provider field q in
          let '(cachedResults, st) := Server.getFromCache lru_get key st in
          match served cachedResults with
          | Some c => (ok (JObj [("results", c)]), st)
          | None =>
              match ref with
              | Server.IsPool p =>
                  let tableName :=
                    if String.eqb provider "bookaway" then "bookaway_trips" else "trips" in
                  match p (search_statement tableName field) [Str (like_pattern q)] with
                  | Failed m => (search_failed field m, st)
                  | Rows result =>
                      let results := search_results field result in
                      (ok (JObj [("results", results)]),
                       Server.setInCache lru_set lru_size key results st)
                  end
              | _ => (search_failed field "pool.connect is not a function", st)
              end
          end
  end.

(** GET /api/transport-types; [now] is what [new Date().toISOString()]
    reads when the response is built. *)
Definition transport_types (now : string) (db : Server.pools) (st : Server.state lru)
  : response * Server.state lru :=
  let '(cachedData, st) := Server.getFromCache lru_get transport_types_cacheKey st in
  match served cachedData with
  | Some c => (ok c, st)
  | None =>
      match Server.pool_12go db transport_types_query12go [] with
      | Failed m => (transport_types_failed m, st)
      | Rows result12go =>
          match Server.pool_bookaway db transport_types_queryBookaway [] with
          | Failed m => (transport_types_failed m, st)
          | Rows resultBookaway =>
              let response :=
                transport_types_response now (types_of result12go) (types_of resultBookaway) in
              (ok response, Server.setInCache lru_set lru_size transport_types_cacheKey response st)
          end
      end
  end.

Definition filters (db : Server.pools) (st : Server.state lru)
  : response * Server.state lru :=
  let '(cachedData, st) := Server.getFromCache lru_get filters_cacheKey st in
  match served cachedData with
  | Some c => (ok c, st)
  | None =>
      match collect_filters db with
      | inr _ => (error_response 500 "Failed to fetch filters", st)
      | inl sets =>
          let response := filters_response sets in
          (ok response, Server.setInCache lru_set lru_size filters_cacheKey response st)
      end
  end.

End Cached.

Arguments transport_types {lru} lru_get lru_set lru_size now db st.
Arguments search {lru} lru_get lru_set lru_size provider field q db st.
Arguments filters {lru} lru_get lru_set lru_size db st.

End Endpoints.

(* ================================================================= *)
(** ** server.js: the routes, in the order they are registered *)

Module Router.
Import Js.

(** A segment of a path pattern: literal text, or [:name]. *)
Inductive segment : Type :=
| Lit (text : string)
| Param (name : string).

Inductive handler : Type :=
| Root
| TransportTypes
| HighestPrice
| LowestPrice
| UniqueRoutes
| UniqueProviders
| CheapestCarriers
| ProviderTrips
| ProviderSearch
| FilterDate
| FiltersSearch
| Filters
| CombinedTrips.

(** The [app.get] calls of server.js, top to bottom. *)
Definition routes : list (list segment * handler) :=
  [ ([], Root);
    ([Lit "api"; Lit "transport-types"], TransportTypes);
    ([Lit "api"; Lit "metrics"; Lit "highest-price"], HighestPrice);
    ([Lit "api"; Lit "metrics"; Lit "lowest-price"], LowestPrice);
    ([Lit "api"; Lit "metrics"; Lit "unique-routes"], UniqueRoutes);
    ([Lit "api"; Lit "metrics"; Lit "unique-providers"], UniqueProviders);
    ([Lit "api"; Lit "metrics"; Lit "cheapest-carriers"], CheapestCarriers);
    ([Lit "api"; Param "provider"; Lit "trips"], ProviderTrips);
    ([Lit "api"; Param "provider"; Lit "search"], ProviderSearch);
    ([Lit "api"; Lit "filter"; Lit "date"], FilterDate);
    ([Lit "api"; Lit "filters"; Lit "search"], FiltersSearch);
    ([Lit "api"; Lit "filters"], Filters);
    ([Lit "api"; Lit "combined-trips"], CombinedTrips) ].

(** Express matches the segments of a request path against a pattern:
    literal text ignoring letter case, a parameter against any one
    segment that is not empty.  The answer is [req.params]. *)
Fixpoint matches (pattern : list segment) (path : list string)
  : option (list (string * string)) :=
  match pattern, path with
  | [], [] => Some []
  | Lit text :: pattern', x :: path' =>
      if String.eqb (toLowerCase x) (toLowerCase text) then matches pattern' path' else None
  | Param name :: pattern', String c x :: path' =>
      match matches pattern' path' with
      | Some params => Some ((name, String c x) :: params)
      | None => None
      end
  | _, _ => None
  end.

(** The first registered route that matches handles the request: every
    handler of server.js answers without calling [next]. *)
Fixpoint dispatch (table : list (list segment * handler)) (path : list string)
  : option (handler * list (string * string)) :=
  match table with
  | [] => None
  | (pattern, h) :: table' =>
      match matches pattern path with
      | Some params => Some (h, params)
      | None => dispatch table' path
      end
  end.

End Router.

(* ================================================================= *)
(** ** migrateomio.js: the older GET /api/combined-trips *)

Module Legacy.
Import Js Json Web.

Definition nl : string := Server.nl.

Record query : Type := {
  origin : option string;
  destination : option string;
  operator_name : option string;
  transport_type : option string;
  timeline : option string;
  start_date : option string;
  end_date : option string
}.

Definition query12go_base : string :=
  nl
  ++ "      SELECT '12go' as provider, * FROM trips " ++ nl
  ++ "      WHERE 1=1" ++ nl
  ++ "    ".

Definition queryBookaway_base : string :=
  nl
  ++ "      SELECT 'bookaway' as provider, * FROM bookaway_trips " ++ nl
  ++ "      WHERE 1=1" ++ nl
  ++ "    ".

(** [params] and [paramIndex], shared by every call of [addFilter]. *)
Record binder : Type := {
  params : list prim;
  paramIndex : nat
}.

Definition binder0 : binder := {| params := []; paramIndex := 1 |}.

(** [addFilter(field, value, query)]: the grown statement and the
    shared variables after the call. *)
Definition addFilter (field : string) (value : option string) (s : string * binder)
  : string * binder :=
  let '(query, b) := s in
  if truthy_str value then
    (query ++ " AND " ++ field ++ " = $" ++ nat_to_string (paramIndex b),
     {| params := List.app (params b) [Str (Server.or_default EmptyString value)];
        paramIndex := paramIndex b + 1 |})
  else (query, b).

Definition four_filters (q : query) (s : string * binder) : string * binder :=
  addFilter "transport_type" (transport_type q)
    (addFilter "operator_name" (operator_name q)
       (addFilter "destination" (destination q)
          (addFilter "origin" (origin q) s))).

(** The [switch (timeline)], on the exact spelling. *)
Definition dateCondition (timeline : string) : string :=
  if String.eqb timeline "Today" then "travel_date = CURRENT_DATE"
  else if String.eqb timeline "Yesterday"
  then "travel_date = CURRENT_DATE - INTERVAL '1 day'"
  else if String.eqb timeline "Last 7 Days"
  then "travel_date >= CURRENT_DATE - INTERVAL '7 days'"
  else if String.eqb timeline "Last 14 Days"
  then "travel_date >= CURRENT_DATE - INTERVAL '14 days'"
  else if String.eqb timeline "Last 28 Days"
  then "travel_date >= CURRENT_DATE - INTERVAL '28 days'"
  else if String.eqb timeline "Last 30 Days"
  then "travel_date >= CURRENT_DATE - INTERVAL '30 days'"
  else if String.eqb timeline "Last 90 Days"
  then "travel_date >= CURRENT_DATE - INTERVAL '90 days'"
  else if String.eqb timeline "This Month"
  then "travel_date >= date_trunc('month', CURRENT_DATE) AND travel_date < date_trunc('month', CURRENT_DATE) + INTERVAL '1 month'"
  else if String.eqb timeline "This Year"
  then "travel_date >= date_trunc('year', CURRENT_DATE) AND travel_date < date_trunc('year', CURRENT_DATE) + INTERVAL '1 year'"
  else EmptyString.

Definition is_empty (s : string) : bool :=
  match s with EmptyString => true | _ => false end.

Record statements : Type := {
  query12go : string;
  queryBookaway : string;
  values : list prim
}.

(** Everything up to the two [safeQuery] calls. *)
Definition build (q : query) : statements :=
  let '(query12go, b) := four_filters q (query12go_base, binder0) in
  let '(queryBookaway, b) := four_filters q (queryBookaway_base, b) in
  if String.eqb (Server.or_default EmptyString (timeline q)) "Custom"
     && truthy_str (timeline q)
     && truthy_str (start_date q) && truthy_str (end_date q) then
    let between :=
      " AND travel_date BETWEEN $" ++ nat_to_string (paramIndex b)
        ++ " AND $" ++ nat_to_string (paramIndex b + 1) in
    {| query12go := query12go ++ between;
       queryBookaway := queryBookaway ++ between;
       values :=
         List.app (params b)
           [Str (Server.or_default EmptyString (start_date q));
            Str (Server.or_default EmptyString (end_date q))] |}
  else if truthy_str (timeline q) then
    let condition := dateCondition (Server.or_default EmptyString (timeline q)) in
    if is_empty condition then
      {| query12go := query12go; queryBookaway := queryBookaway; values := params b |}
    else
      {| query12go := query12go ++ " AND " ++ condition;
         queryBookaway := queryBookaway ++ " AND " ++ condition;
         values := params b |}
  else {| query12go := query12go; queryBookaway := queryBookaway; values := params b |}.

(** [...(result.rows || [])] on what [safeQuery] resolved with. *)
Definition spread_rows (result : list row) : list row :=
  match Endpoints.rows_of_array result with
  | Some rows => rows
  | None => []
  end.

Definition combined_trips (q : query) (db : Server.pools) : response :=
  let s := build q in
  match Server.pool_12go db (query12go s) (values s),
        Server.pool_bookaway db (queryBookaway s) (values s) with
  | Rows result12go, Rows resultBookaway =>
      let combinedResults := List.app (spread_rows result12go) (spread_rows resultBookaway) in
      ok (JObj [ ("success", JV (Bool true));
                 ("data", JArr (map row_json combinedResults));
                 ("count", JV (Number (Num (Z.of_nat (List.length combinedResults))))) ])
  | _, _ =>
      {| status := 500;
         body := JObj [ ("success", JV (Bool false));
                        ("error", JV (Str "Failed to fetch combined trips data")) ] |}
  end.

End Legacy.

(* ================================================================= *)
(** ** The import scripts: batches of 400 rows, 13 columns each *)

Module Importer.
Import Js Json Web.

Definition BATCH_SIZE : nat := 400.

(** [`($${base + 1},$${base + 2},...,$${base + 13})`] for the row at
    [idx] of its batch. *)
Definition row_placeholders (idx : nat) : string :=
  let base := idx * 13 in
  "($" ++ nat_to_string (base + 1) ++ ",$" ++ nat_to_string (base + 2)
  ++ ",$" ++ nat_to_string (base + 3) ++ ",$" ++ nat_to_string (base + 4)
  ++ ",$" ++ nat_to_string (base + 5) ++ ",$" ++ nat_to_string (base + 6)
  ++ ",$" ++ nat_to_string (base + 7) ++ ",$" ++ nat_to_string (base + 8)
  ++ ",$" ++ nat_to_string (base + 9) ++ ",$" ++ nat_to_string (base + 10)
  ++ ",$" ++ nat_to_string (base + 11) ++ ",$" ++ nat_to_string (base + 12)
  ++ ",$" ++ nat_to_string (base + 13) ++ ")".

(** [batch.map((_, idx) => ...).join(',')]. *)
Definition values_clause {A : Type} (batch : list A) : string :=
  join "," (map row_placeholders (seq 0 (List.length batch))).

(** [xs.slice(i, i + BATCH_SIZE)]. *)
Definition slice {A : Type} (i : nat) (xs : list A) : list A :=
  firstn BATCH_SIZE (skipn i xs).

Section Script.

(** The helpers that go through floating point, dates and patterns:
    [parseFloat(v) > 0], [parseTimestamp], [parseDate],
    [parseDurationMinutes], [parsePriceNumber] and
    [Math.round(price * THB_TO_INR)]. *)
Variable positive_price : prim -> bool.
Variable parseTimestamp : prim -> prim.
Variable parseDate : prim -> prim.
Variable parseDurationMinutes : prim -> prim.
Variable parsePriceNumber : prim -> prim.
Variable to_inr : prim -> prim.

(** [client.query({ text, values })]: resolves, or rejects and ends the
    script. *)
Variable insert : string -> list prim -> bool.

(** A record of the JSON file. *)
Definition trip : Type := row.

Definition defined (p : prim) : bool :=
  match p with
  | Undefined | Null => false
  | _ => true
  end.

(** The filter that skips records without price, times or URL. *)
Definition kept (t : trip) : bool :=
  defined (get "Price" t)
  && positive_price (get "Price" t)
  && truthy (get "Departure Time" t)
  && truthy (get "Arrival Time" t)
  && truthy (get "route_url" t).

(** The thirteen bound values of one record. *)
Definition columns (t : trip) : list prim :=
  let priceThb := prim_or (parsePriceNumber (get "Price" t)) (Number (Num 0)) in
  [ get "route_url" t;
    get "From" t;
    get "To" t;
    parseTimestamp (get "Departure Time" t);
    parseTimestamp (get "Arrival Time" t);
    get "Transport Type" t;
    prim_or (parseDurationMinutes (get "Duration" t)) (Number (Num 0));
    priceThb;
    to_inr priceThb;
    prim_or (get "currency" t) (Str "THB");
    parseDate (get "Date" t);
    prim_or (get "Operator" t) Null;
    get "provider" t ].

Definition validTrips (trips : list trip) : list trip := filter kept trips.

Definition insert_statement (batch : list trip) : string :=
  Server.nl ++ "        INSERT INTO trips (" ++ Server.nl
  ++ "          route_url, origin, destination," ++ Server.nl
  ++ "          departure_time, arrival_time, transport_type," ++ Server.nl
  ++ "          duration_min, price, price_inr, currency," ++ Server.nl
  ++ "          travel_date, operator_name, provider" ++ Server.nl
  ++ "        ) VALUES " ++ values_clause batch ++ Server.nl
  ++ "      ".

Definition flatParams (batch : list trip) : list prim := flat_map columns batch.

(** The columns the INSERT names, in the order of its values. *)
Definition column_names : list string :=
  [ "route_url"; "origin"; "destination"; "departure_time"; "arrival_time";
    "transport_type"; "duration_min"; "price"; "price_inr"; "currency";
    "travel_date"; "operator_name"; "provider" ].

(** How the loop ends: every batch written, or a rejected insert after
    [imported] rows. *)
Inductive outcome : Type :=
| Completed (imported : nat)
| Rejected (imported : nat).

(** The [for (let i = 0; i < validTrips.length; i += BATCH_SIZE)] loop,
    with the turns left as fuel; [None] when the fuel runs out.  [sent]
    are the batches whose insert resolved, oldest first. *)
Fixpoint loop (fuel : nat) (valid : list trip) (i imported : nat) (sent : list (list trip))
  : option (outcome * list (list trip)) :=
  if Nat.ltb i (List.length valid) then
    match fuel with
    | O => None
    | S fuel' =>
        let batch := slice i valid in
        if insert (insert_statement batch) (flatParams batch)
        then loop fuel' valid (i + BATCH_SIZE) (imported + List.length batch)
               (List.app sent [batch])
        else Some (Rejected imported, sent)
    end
  else Some (Completed imported, sent).

Definition run (trips : list trip) : option (outcome * list (list trip)) :=
  let valid := validTrips trips in
  loop (List.length valid) valid 0 0 [].

End Script.

End Importer.

(* ================================================================= *)
(** ** The standalone single-provider server: who writes to the cache *)

Module Standalone.
Import Js Json Web.

(** The routes of the server. *)
Inductive request : Type :=
| Root
| TripsAll
| Trips
| TripsFrom (origin : string)
| TripsTo (destination : string)
| TripsRoute (from to : string)
| Stats
| Origins
| Destinations
| StatsRoutes.

Section Cache.

Variable lru : Type.
Variable lru_get : lru -> string -> option json * lru.
Variable lru_set : lru -> string -> json -> lru.

(** GET /api/trips/all *)
Definition trips_all (db : pool) (c : lru) : response * lru :=
  let '(cachedTrips, c) := lru_get c "allTrips" in
  match served cachedTrips with
  | Some v => (ok v, c)
  | None =>
      match db "SELECT * FROM trips" [] with
      | Rows trips =>
          let doc := JArr (map row_json trips) in
          (ok doc, lru_set c "allTrips" doc)
      | Failed _ => (error_response 500 "Failed to fetch trips", c)
      end
  end.

(** GET /api/destinations *)
Definition destinations (db : pool) (c : lru) : response * lru :=
  let '(cachedDestinations, c) := lru_get c "destinations" in
  match served cachedDestinations with
  | Some v => (ok v, c)
  | None =>
      match db "SELECT DISTINCT destination FROM trips ORDER BY destination" [] with
      | Rows rows =>
          let doc := JArr (map (fun row => JV (get "destination" row)) rows) in
          (ok doc, lru_set c "destinations" doc)
      | Failed message =>
          ({| status := 500;
              body := JObj [ ("error", JV (Str "Failed to fetch destinations"));
                             ("details", JV (Str message)) ] |}, c)
      end
  end.

(** The cache as a request leaves it.  GET /api/trips only reads
    [allTrips] and GET /api/trips/from/:origin only its own key; the
    destination, route, stats and origins handlers stop at their first
    statement, the read of [tripCacheMap]; the root and the route
    statistics never touch the cache. *)
Definition cache_after (r : request) (db : pool) (c : lru) : lru :=
  match r with
  | TripsAll => snd (trips_all db c)
  | Destinations => snd (destinations db c)
  | Trips => snd (lru_get c "allTrips")
  | TripsFrom origin => snd (lru_get c ("trips_from_" ++ origin))
  | Root | TripsTo _ | TripsRoute _ _ | Stats | Origins | StatsRoutes => c
  end.

(** The cache after a sequence of requests, each with the database as
    it answers at the time. *)
Definition cache_after_all (requests : list (request * pool)) (c : lru) : lru :=
  fold_left (fun c rq => cache_after (fst rq) (snd rq) c) requests c.

End Cache.

Arguments trips_all {lru} lru_get lru_set db c.
Arguments destinations {lru} lru_get lru_set db c.
Arguments cache_after {lru} lru_get lru_set r db c.
Arguments cache_after_all {lru} lru_get lru_set requests c.

End Standalone.

(* ================================================================= *)
(** * Vocabulary of the properties, sample requests and sample stores *)

Import Js Json Web.

(** Pagination is clamped when the page is a number at least 1 and the
    page size a number at most the maximum. *)
Definition clamped (maximum : Z) (page limit : num) : Prop :=
  exists p l, page = Num p /\ limit = Num l /\ (1 <= p)%Z /\ (l <= maximum)%Z.

(** A request with nothing but the given page and limit. *)
Definition paged (page limit : option string) : Server.query :=
  {| Server.q_origin := None; Server.q_destination := None;
     Server.q_operator_name := None; Server.q_transport_type := None;
     Server.q_timeline := None; Server.q_start_date := None;
     Server.q_end_date := None; Server.q_travel_date := None;
     Server.q_page := page; Server.q_limit := limit;
     Server.q_sort_by := None; Server.q_sort_order := None |}.

(** The ORDER BY clause [buildQuery] appends. *)
Definition order_by (l : Server.locals) : string :=
  " ORDER BY " ++ Server.safeSortBy (Server.sort_by l) ++ " "
    ++ Server.safeSortOrder (Server.sort_order l).

(** A request with nothing but the given sort column and direction. *)
Definition sorted_request (sort_by sort_order : option string) : Server.query :=
  {| Server.q_origin := None; Server.q_destination := None;
     Server.q_operator_name := None; Server.q_transport_type := None;
     Server.q_timeline := None; Server.q_start_date := None;
     Server.q_end_date := None; Server.q_travel_date := None;
     Server.q_page := None; Server.q_limit := None;
     Server.q_sort_by := sort_by; Server.q_sort_order := sort_order |}.

(** A cache that holds nothing: every read misses. *)
Definition always_miss_get (c : unit) (key : string) : option json * unit := (None, tt).

Definition always_miss_set (c : unit) (key : string) (value : json) : unit := tt.

Definition always_miss_size (c : unit) : Z := 0.

Definition fresh_state : Server.state unit :=
  {| Server.stats := {| Server.hits := 0; Server.misses := 0;
                        Server.currentSize := None |};
     Server.cache := tt |}.

(** A request with no parameter at all. *)
Definition bare_request : Server.query := paged None None.

(** Reading a response: the names and the members of its pagination
    object, and its data array. *)
Definition pagination_keys (r : response) : list string :=
  match prop "pagination" (body r) with
  | Some j => keys j
  | None => []
  end.

Definition pagination_field (k : string) (r : response) : option json :=
  match prop "pagination" (body r) with
  | Some j => prop k j
  | None => None
  end.

Definition data_of (r : response) : option json := prop "data" (body r).

Definition six_fields : list string :=
  ["total"; "page"; "limit"; "totalPages"; "hasNextPage"; "hasPrevPage"].

(** The request misses the cache: the read answers nothing the handler
    would serve. *)
Definition misses_cache {lru : Type} (lru_get : lru -> string -> option json * lru)
    (st : Server.state lru) (key : string) : Prop :=
  served (fst (lru_get (Server.cache st) key)) = None.

(** What PostgreSQL answers to the statement [buildQuery] writes, when
    [matching] lists the rows of the table that satisfy its WHERE clause,
    in its ORDER BY order: the page cut out by LIMIT and OFFSET, each row
    extended with the count of all matching rows as total_count.  The
    driver hands the count over as [count_cell] makes it (a number, or
    the decimal text of a bigint).  A LIMIT or OFFSET that is not a
    non-negative number is rejected. *)
Definition paged_answer (count_cell : Z -> prim) (matching : list row)
    (limit offset : num) : dbresult :=
  match limit, offset with
  | Num l, Num o =>
      if (0 <=? l)%Z && (0 <=? o)%Z then
        Rows (map (fun r =>
                     List.app (without "total_count" r)
                       [("total_count", count_cell (Z.of_nat (List.length matching)))])
                  (firstn (Z.to_nat l) (skipn (Z.to_nat o) matching)))
      else Failed "LIMIT and OFFSET must not be negative"
  | _, _ => Failed "invalid input syntax for type bigint"
  end.

Definition as_number (n : Z) : prim := Number (Num n).

Definition as_text (n : Z) : prim := Str (Z_to_string n).

(** The total a provider reports for a page that starts at [offset]. *)
Definition reported (count_cell : Z -> prim) (matching : list row) (offset : Z) : prim :=
  if (offset <? Z.of_nat (List.length matching))%Z
  then count_cell (Z.of_nat (List.length matching)) else Number (Num 0).

(** Sample rows of the two providers. *)
Definition row_12go (id : Z) (total_count : Z) : row :=
  [("id", Number (Num id)); ("origin", Str "Bangkok"); ("destination", Str "Phuket");
   ("total_count", Number (Num total_count))].

Definition row_bookaway (id : Z) (total_count : Z) : row :=
  [("id", Number (Num id)); ("from_location", Str "Bangkok");
   ("to_location", Str "Krabi"); ("total_count", Number (Num total_count))].

(** Pools that answer every statement the same way. *)
Definition answering (rows : list row) : pool := fun _ _ => Rows rows.

Definition failing (message : string) : pool := fun _ _ => Failed message.

(** A pool over a table whose matching rows are [matching]: LIMIT and
    OFFSET are the last two bound values. *)
Definition table (matching : list row) : pool :=
  fun _ values =>
    match rev values with
    | Number offset :: Number limit :: _ => paged_answer as_number matching limit offset
    | _ => Failed "bind message supplies too few parameters"
    end.

(** The scenario of the aggregation property: provider A answers three
    rows, each carrying total_count 10, and provider B fails. *)
Definition three_of_ten : list row := [row_12go 1 10; row_12go 2 10; row_12go 3 10].

Definition one_provider_down : Server.pools :=
  {| Server.pool_12go := answering three_of_ten;
     Server.pool_bookaway := failing "connection refused" |}.

(** The same rows with the count as text. *)
Definition text_count (r : row) : row :=
  List.app (without "total_count" r) [("total_count", Str "10")].

Definition one_provider_down_text : Server.pools :=
  {| Server.pool_12go := answering (map text_count three_of_ten);
     Server.pool_bookaway := failing "connection refused" |}.

(** Both providers answer one row each. *)
Definition both_providers_up : Server.pools :=
  {| Server.pool_12go := answering [row_12go 1 1];
     Server.pool_bookaway := answering [row_bookaway 7 1] |}.

(** Three matching trips in a provider's table. *)
Definition three_trips : list row :=
  [ [("id", Number (Num 1))]; [("id", Number (Num 2))]; [("id", Number (Num 3))] ].

Definition one_table : Server.pools :=
  {| Server.pool_12go := table three_trips; Server.pool_bookaway := table [] |}.

(** A store that answers from a fixed list of entries. *)
Definition holding_get (c : list (string * json)) (key : string)
  : option json * list (string * json) :=
  (assoc key c, c).

(** A cache of capacity two, observed by the instrumented helpers. *)
Definition two_slots : Instrumented.state Instrumented.bounded :=
  {| Instrumented.stats := Instrumented.cacheStats0; Instrumented.cache := [] |}.

Definition sample_trace : list (string * Instrumented.op) :=
  [ ("2024-01-01T00:00:01.000Z", Instrumented.Put "a" (JArr []));
    ("2024-01-01T00:00:02.000Z", Instrumented.Put "b" (JArr []));
    ("2024-01-01T00:00:03.000Z", Instrumented.Get "a");
    ("2024-01-01T00:00:04.000Z", Instrumented.Put "c" (JArr []));
    ("2024-01-01T00:00:05.000Z", Instrumented.Get "b");
    ("2024-01-01T00:00:06.000Z", Instrumented.ReadStats) ].



(** A request that filters on everything, with hostile values. *)
Definition hostile_request : Server.query :=
  {| Server.q_origin := Some "'; DROP TABLE trips; --,Bangkok";
     Server.q_destination := Some "x') OR 1=1 --";
     Server.q_operator_name := Some "Robert'); DROP TABLE bookaway_trips;--";
     Server.q_transport_type := Some "bus,ferry";
     Server.q_timeline := Some "Last 7 Days";
     Server.q_start_date := Some "2024-01-01' OR '1'='1";
     Server.q_end_date := Some "2024-12-31";
     Server.q_travel_date := Some "25-12-2024; DELETE FROM trips";
     Server.q_page := Some "2"; Server.q_limit := Some "10";
     Server.q_sort_by := Some "price_inr"; Server.q_sort_order := Some "desc" |}.



(** [c] occurs in [s]; every character of [s] is taken from [alphabet]. *)
Fixpoint occurs (c : ascii) (s : string) : bool :=
  match s with
  | EmptyString => false
  | String x r => Ascii.eqb c x || occurs c r
  end.

Fixpoint within (alphabet s : string) : bool :=
  match s with
  | EmptyString => true
  | String x r => occurs x alphabet && within alphabet r
  end.



(** [req.query] for a query string given as its name=value pairs in the
    order they were written, each name at most once. *)
Definition query_of (pairs : list (string * string)) : Server.query :=
  {| Server.q_origin := assoc "origin" pairs;
     Server.q_destination := assoc "destination" pairs;
     Server.q_operator_name := assoc "operator_name" pairs;
     Server.q_transport_type := assoc "transport_type" pairs;
     Server.q_timeline := assoc "timeline" pairs;
     Server.q_start_date := assoc "start_date" pairs;
     Server.q_end_date := assoc "end_date" pairs;
     Server.q_travel_date := assoc "travel_date" pairs;
     Server.q_page := assoc "page" pairs;
     Server.q_limit := assoc "limit" pairs;
     Server.q_sort_by := assoc "sort_by" pairs;
     Server.q_sort_order := assoc "sort_order" pairs |}.

(** The JSON text of an array of strings. *)
Definition array_text (xs : list string) : string :=
  "[" ++ join "," (map quote xs) ++ "]".

(** Reading back the first character of an escaped text; nothing at a
    closing double quote. *)
Definition hex_value (c : ascii) : nat :=
  let n := nat_of_ascii c in
  if (97 <=? n)%nat then n - 87 else n - 48.

Definition unescape_char (s : string) : option (ascii * string) :=
  match s with
  | EmptyString => None
  | String c r =>
      if Ascii.eqb c dquote then None
      else if Ascii.eqb c backslash then
        match r with
        | String "b" r' => Some (ascii_of_nat 8, r')
        | String "t" r' => Some (ascii_of_nat 9, r')
        | String "n" r' => Some (ascii_of_nat 10, r')
        | String "f" r' => Some (ascii_of_nat 12, r')
        | String "r" r' => Some (ascii_of_nat 13, r')
        | String "u" (String _ (String _ (String h (String l r')))) =>
            Some (ascii_of_nat (16 * hex_value h + hex_value l), r')
        | String x r' => Some (x, r')
        | EmptyString => None
        end
      else Some (c, r)
  end.

(** Two requests for the same origins in a different order. *)
Definition origin_A_B : Server.query :=
  {| Server.q_origin := Some "A,B"; Server.q_destination := None;
     Server.q_operator_name := None; Server.q_transport_type := None;
     Server.q_timeline := None; Server.q_start_date := None;
     Server.q_end_date := None; Server.q_travel_date := None;
     Server.q_page := None; Server.q_limit := None;
     Server.q_sort_by := None; Server.q_sort_order := None |}.

Definition origin_B_A : Server.query :=
  {| Server.q_origin := Some "B,A"; Server.q_destination := None;
     Server.q_operator_name := None; Server.q_transport_type := None;
     Server.q_timeline := None; Server.q_start_date := None;
     Server.q_end_date := None; Server.q_travel_date := None;
     Server.q_page := None; Server.q_limit := None;
     Server.q_sort_by := None; Server.q_sort_order := None |}.

(** The multi-value selections of [b] are those of [a] in some order,
    and everything else is the same. *)
Definition same_selections (a b : Server.locals) : Prop :=
  Permutation (Server.origins a) (Server.origins b) /\
  Permutation (Server.destinations a) (Server.destinations b) /\
  Permutation (Server.operatorNames a) (Server.operatorNames b) /\
  Permutation (Server.transportTypes a) (Server.transportTypes b) /\
  Server.timeline a = Server.timeline b /\
  Server.start_date a = Server.start_date b /\
  Server.end_date a = Server.end_date b /\
  Server.travel_date a = Server.travel_date b /\
  Server.pageNum a = Server.pageNum b /\
  Server.limitNum a = Server.limitNum b /\
  Server.sort_by a = Server.sort_by b /\
  Server.sort_order a = Server.sort_order b.

(** The texts of the members of an object, as [stringify] lists them. *)
Fixpoint members_text (fs : list (string * json)) : list string :=
  match fs with
  | [] => []
  | (k, v) :: r =>
      match v with
      | JV Undefined => members_text r
      | _ => (quote k ++ ":" ++ stringify v) :: members_text r
      end
  end.

(** The elements of an array text after the first one, up to and
    including the closing bracket, followed by [rest]. *)
Definition more_elements (xs : list string) (rest : string) : string :=
  String.concat EmptyString (map (fun y => "," ++ y) (map quote xs)) ++ "]" ++ rest.

(** The key text after the four selections: the other members and the
    closing brace. *)
Definition key_rest (l : Server.locals) : string :=
  String.concat EmptyString
    (map (fun y => "," ++ y)
       (members_text
          [ ("timeline", Server.optional (Server.timeline l));
            ("start_date", Server.optional (Server.start_date l));
            ("end_date", Server.optional (Server.end_date l));
            ("travel_date", Server.optional (Server.travel_date l));
            ("pageNum", JV (Number (Server.pageNum l)));
            ("limitNum", JV (Number (Server.limitNum l)));
            ("sort_by", JV (Str (Server.sort_by l)));
            ("sort_order", JV (Str (Server.sort_order l))) ]))
  ++ "}".

(** One query string written in two parameter orders. *)
Definition origin_first : list (string * string) :=
  [("origin", "A,B"); ("destination", "C"); ("page", "2")].

Definition page_first : list (string * string) :=
  [("page", "2"); ("destination", "C"); ("origin", "A,B")].

(* ================================================================= *)
(** * Further vocabulary *)

(** Characters of the decimal text of an integer. *)
Definition decimal_alphabet : string := "-0123456789".

(** No character of [s] is [c]. *)
Definition free_of (c : ascii) (s : string) : Prop := occurs c s = false.
(** The cache keeps what is written: a read of [key] right after a
    write under [key] returns the written value (no expiry in between,
    capacity at least one). *)
Definition retains {lru : Type} (lru_get : lru -> string -> option json * lru)
    (lru_set : lru -> string -> json -> lru) : Prop :=
  forall c key value, fst (lru_get (lru_set c key value) key) = Some value.

(** The handler did not write to the cache: the store is as it was, or
    as one read left it. *)
Definition only_read {lru : Type} (lru_get : lru -> string -> option json * lru)
    (before after : Server.state lru) : Prop :=
  Server.currentSize (Server.stats after) = Server.currentSize (Server.stats before) /\
  (Server.cache after = Server.cache before \/
   exists key, Server.cache after = snd (lru_get (Server.cache before) key)).

(** A store without expiry, newest entry first. *)
Definition keeping : Type := list (string * json).

Definition keeping_get (c : keeping) (key : string) : option json * keeping :=
  (assoc key c, c).

Definition keeping_set (c : keeping) (key : string) (value : json) : keeping :=
  (key, value) :: filter (fun kv => negb (String.eqb key (fst kv))) c.

Definition keeping_size (c : keeping) : Z := Z.of_nat (List.length c).

Definition nothing_kept : Server.state keeping :=
  {| Server.stats := {| Server.hits := 0; Server.misses := 0; Server.currentSize := None |};
     Server.cache := [] |}.

(** Both providers down, both providers up. *)
Definition both_providers_down : Server.pools :=
  {| Server.pool_12go := failing "connection refused";
     Server.pool_bookaway := failing "connection refused" |}.

(** A provider table with a count of 25 and one listed trip. *)
Definition counted : pool :=
  fun text _ =>
    if String.eqb text (Server.count_statement "trips")
    then Rows [[("count", Str "25")]]
    else Rows [[("id", Number (Num 1)); ("From", Str "Bangkok")]].

Definition counted_pools : Server.pools :=
  {| Server.pool_12go := counted; Server.pool_bookaway := failing "connection refused" |}.

(** The document the combined-trips handler builds from the answers of
    the two providers. *)
Definition merged (StringToNumber : string -> num) (q : Server.query) (db : Server.pools)
  : json :=
  let l := Server.parse q in
  Server.combinedResults StringToNumber l
    (Server.rows_or_empty
       (Server.pool_12go db (Server.text (Server.buildQuery l "trips"))
          (Server.values (Server.buildQuery l "trips"))))
    (Server.rows_or_empty
       (Server.pool_bookaway db (Server.text (Server.buildQuery l "bookaway_trips"))
          (Server.values (Server.buildQuery l "bookaway_trips")))).

(** A provider whose searches answer two places. *)
Definition two_places : Server.pools :=
  {| Server.pool_12go := answering [[("value", Str "Bus")]; [("value", Str "Ferry")]];
     Server.pool_bookaway := failing "connection refused" |}.

(** The users of the response cache and the key each one reads and
    writes. *)
Inductive cache_user : Type :=
| TransportTypes
| ProviderTrips (provider : string) (page limit : num)
| Search (provider field q : string)
| Filters
| CombinedTrips (l : Server.locals).

Definition key_of (u : cache_user) : string :=
  match u with
  | TransportTypes => Endpoints.transport_types_cacheKey
  | ProviderTrips provider page limit => Server.provider_cacheKey provider page limit
  | Search provider field q => Endpoints.search_cacheKey provider field q
  | Filters => Endpoints.filters_cacheKey
  | CombinedTrips l => Server.cacheKey l
  end.

(** The request gets as far as the cache: its provider is a property
    of [pools], its search field a valid one. *)
Definition reaches_cache (db : Server.pools) (u : cache_user) : Prop :=
  match u with
  | ProviderTrips provider _ _ => Server.lookup_pool db provider <> Server.NoSuchKey
  | Search provider field _ =>
      Server.lookup_pool db provider <> Server.NoSuchKey /\
      includes Endpoints.validFields field = true
  | _ => True
  end.

Definition same_handler (a b : cache_user) : Prop :=
  match a, b with
  | TransportTypes, TransportTypes
  | ProviderTrips _ _ _, ProviderTrips _ _ _
  | Search _ _ _, Search _ _ _
  | Filters, Filters
  | CombinedTrips _, CombinedTrips _ => True
  | _, _ => False
  end.

(** The property names [pools[provider]] finds. *)
Definition provider_names : list string :=
  "12go" :: "bookaway" :: Server.object_prototype_keys.

(** The Set the filters handler fills for a column. *)
Definition column_set (column : string) (s : Endpoints.filter_sets) : list prim :=
  if String.eqb column "origin" then Endpoints.set_origin s
  else if String.eqb column "destination" then Endpoints.set_destination s
  else if String.eqb column "transport_type" then Endpoints.set_transport_type s
  else if String.eqb column "operator_name" then Endpoints.set_operator_name s
  else [].

(** A provider answered the DISTINCT query on [column] with a row that
    holds [v]. *)
Definition reported_by (db : Server.pools) (column : string) (v : prim) : Prop :=
  exists rows r,
    (Server.pool_12go db (Endpoints.distinct_statement column "trips") [] = Rows rows \/
     Server.pool_bookaway db (Endpoints.distinct_statement column "bookaway_trips") []
     = Rows rows) /\
    In r rows /\ get column r = v.

(** Two providers that report the same place, and a null. *)
Definition overlapping : Server.pools :=
  {| Server.pool_12go :=
       answering [ [("origin", Str "Bangkok"); ("destination", Str "Phuket")];
                   [("origin", Str "Chiang Mai"); ("destination", Null)] ];
     Server.pool_bookaway :=
       answering [ [("origin", Str "Bangkok"); ("destination", Str "Krabi")] ] |}.

(** The pattern of the route that GET /api/filters/search is
    registered under. *)
Definition filters_search_pattern : list Router.segment :=
  [Router.Lit "api"; Router.Lit "filters"; Router.Lit "search"].

Definition invalid_provider : response :=
  error_response 400
    ("Invalid provider. Use either " ++ in_dquotes "12go" ++ " or " ++ in_dquotes "bookaway").

(** A filter of the older combined-trips handler as it takes part in
    the statements: its column and value when the value is truthy. *)
Definition entry (field : string) (value : option string) : list (string * string) :=
  if truthy_str value then [(field, Server.or_default EmptyString value)] else [].

(** The filters a request sets, in the order [addFilter] is called. *)
Definition present (q : Legacy.query) : list (string * string) :=
  List.app (entry "origin" (Legacy.origin q))
    (List.app (entry "destination" (Legacy.destination q))
       (List.app (entry "operator_name" (Legacy.operator_name q))
          (entry "transport_type" (Legacy.transport_type q)))).

(** The conditions of [filters], with placeholders numbered from [from]. *)
Fixpoint numbered (from : nat) (filters : list (string * string)) : string :=
  match filters with
  | [] => EmptyString
  | (field, _) :: rest =>
      " AND " ++ field ++ " = $" ++ nat_to_string from ++ numbered (S from) rest
  end.

Definition bound (filters : list (string * string)) : list prim :=
  map (fun fv => Str (snd fv)) filters.

(** A request of the older handler with an origin and a transport type. *)
Definition by_origin_and_type : Legacy.query :=
  {| Legacy.origin := Some "Bangkok"; Legacy.destination := None;
     Legacy.operator_name := None; Legacy.transport_type := Some "Bus";
     Legacy.timeline := None; Legacy.start_date := None; Legacy.end_date := None |}.

(** The lookups of a trace that go through [getFromCache]. *)
Definition counted_lookups (trace : list (string * Instrumented.op)) : Z :=
  Z.of_nat (List.length
              (filter (fun e => match snd e with Instrumented.Get _ => true | _ => false end)
                 trace)).

(** A batch of the import holds between one and BATCH_SIZE records. *)
Definition batch_sized (batch : list Importer.trip) : Prop :=
  1 <= List.length batch <= Importer.BATCH_SIZE.

(** Sample records of the JSON file: one complete, one without price. *)
Definition complete_record : Importer.trip :=
  [ ("route_url", Str "https://example.com/r/1"); ("From", Str "Bangkok");
    ("To", Str "Phuket"); ("Departure Time", Str "2024-01-01T08:00:00Z");
    ("Arrival Time", Str "2024-01-01T20:00:00Z"); ("Transport Type", Str "Bus");
    ("Duration", Str "12h"); ("Price", Str "850"); ("Date", Str "2024-01-01");
    ("provider", Str "12go") ].

Definition unpriced_record : Importer.trip :=
  [ ("route_url", Str "https://example.com/r/2"); ("From", Str "Bangkok");
    ("To", Str "Krabi"); ("Departure Time", Str "2024-01-01T08:00:00Z");
    ("Arrival Time", Str "2024-01-01T20:00:00Z") ].

(** Stand-ins for the helpers of the script, good enough to run it on
    the sample records. *)
Definition any_price (p : prim) : bool := truthy p.

Definition as_it_is (p : prim) : prim := p.

Definition accepting (text : string) (values : list prim) : bool := true.

(** What the import loop has done when it stops, having started at
    record [i] with [imported] rows on record: [chunks] are the batches
    it wrote, [rest] the records it did not get to. *)
Definition stopped (insert : string -> list prim -> bool)
    (flatParams : list Importer.trip -> list prim)
    (valid : list Importer.trip) (i imported : nat)
    (o : Importer.outcome) (chunks : list (list Importer.trip)) : Prop :=
  exists rest,
    skipn i valid = List.app (List.concat chunks) rest /\
    Forall batch_sized chunks /\
    match o with
    | Importer.Completed n =>
        n = imported + List.length (List.concat chunks) /\ rest = []
    | Importer.Rejected n =>
        n = imported + List.length (List.concat chunks) /\ rest <> [] /\
        insert (Importer.insert_statement (firstn Importer.BATCH_SIZE rest))
          (flatParams (firstn Importer.BATCH_SIZE rest)) = false
    end.

(** The filters a metrics request sets, in the order the handlers
    look at them. *)
Definition metric_present (q : Endpoints.metric_query) : list (string * string) :=
  List.app (entry "origin" (Endpoints.m_from q))
    (List.app (entry "destination" (Endpoints.m_to q))
       (entry "transport_type" (Endpoints.m_transportType q))).

(** One condition per filter, written by [template] on the column and
    the running placeholder number. *)
Fixpoint conditions_from (template : string -> nat -> string) (from : nat)
    (filters : list (string * string)) : list string :=
  match filters with
  | [] => []
  | (column, _) :: rest => template column from :: conditions_from template (S from) rest
  end.

Definition lower_condition (column : string) (n : nat) : string :=
  "LOWER(" ++ column ++ ") = LOWER($" ++ nat_to_string n ++ ")".

Definition exact_condition (column : string) (n : nat) : string :=
  column ++ " = $" ++ nat_to_string n.

(** A pool is down: it rejects whatever it is asked. *)
Definition down (p : pool) : Prop := forall text values, exists m, p text values = Failed m.

Definition no_metric_query : Endpoints.metric_query :=
  {| Endpoints.m_from := None; Endpoints.m_to := None; Endpoints.m_transportType := None |}.

Definition bangkok_by_bus : Endpoints.metric_query :=
  {| Endpoints.m_from := Some "Bangkok"; Endpoints.m_to := None;
     Endpoints.m_transportType := Some "Bus" |}.

(** Every statement text the handlers below can send, whatever the
    request: listing and count of a provider, the searches, the filter
    lists, the transport types, the filter search and the date ranges. *)
Definition fixed_statements : list string :=
  List.app
    [ Server.count_statement "trips"; Server.listing_statement "trips" "12go";
      Server.count_statement "bookaway_trips";
      Server.listing_statement "bookaway_trips" "bookaway";
      Endpoints.transport_types_query12go; Endpoints.transport_types_queryBookaway;
      Endpoints.custom_date_statement "trips" ]
    (List.app
       (flat_map (fun column =>
                    [ Endpoints.search_statement "trips" column;
                      Endpoints.search_statement "bookaway_trips" column;
                      Endpoints.distinct_statement column "trips";
                      Endpoints.distinct_statement column "bookaway_trips";
                      Endpoints.filter_search_statement "trips" column;
                      Endpoints.filter_search_statement "bookaway_trips" column ])
          Endpoints.validFields)
       (flat_map (fun range =>
                    match Endpoints.date_statement "trips" range with
                    | Some text => [text]
                    | None => []
                    end)
          ["today"; "tomorrow"; "next 7 days"; "next 14 days"; "this month"; "this year"])).

(** Two databases answer alike on the statements of [texts]. *)
Definition agree_on (texts : list string) (db db' : Server.pools) : Prop :=
  forall text values,
    In text texts ->
    Server.pool_12go db text values = Server.pool_12go db' text values /\
    Server.pool_bookaway db text values = Server.pool_bookaway db' text values.

(** A database that answers the fixed statements like [both_providers_up]
    and rejects every other text. *)
Definition only_fixed (p : pool) : pool :=
  fun text values =>
    if includes fixed_statements text then p text values
    else Failed "syntax error".

Definition strict_providers : Server.pools :=
  {| Server.pool_12go := only_fixed (Server.pool_12go both_providers_up);
     Server.pool_bookaway := only_fixed (Server.pool_bookaway both_providers_up) |}.

(** The cache holds nothing it would answer under [key]. *)
Definition absent {lru : Type} (lru_get : lru -> string -> option json * lru)
    (key : string) (c : lru) : Prop :=
  fst (lru_get c key) = None.

(** The cache makes nothing up: a key that is absent stays absent
    through reads and through writes under other keys. *)
Definition adds_only_what_is_written {lru : Type}
    (lru_get : lru -> string -> option json * lru)
    (lru_set : lru -> string -> json -> lru) : Prop :=
  (forall c key other, absent lru_get key c -> absent lru_get key (snd (lru_get c other))) /\
  (forall c key other value,
     key <> other -> absent lru_get key c -> absent lru_get key (lru_set c other value)).

(** A morning of requests against one table. *)
Definition some_requests : list (Standalone.request * pool) :=
  [ (Standalone.TripsAll, answering [row_12go 1 1]);
    (Standalone.TripsFrom "Bangkok", answering [row_12go 1 1]);
    (Standalone.Destinations, answering [row_12go 1 1]);
    (Standalone.Trips, answering [row_12go 1 1]);
    (Standalone.TripsAll, failing "connection refused") ].

(* ----------------------------------------------------------------- *)
(** ** Requests as Express parses them *)

(** The handler variables of a request whose parameters are strings,
    among those of all requests. *)
Definition as_raw (l : Server.locals) : Raw.locals :=
  {| Raw.origins := Server.origins l;
     Raw.destinations := Server.destinations l;
     Raw.transportTypes := Server.transportTypes l;
     Raw.operatorNames := Server.operatorNames l;
     Raw.timeline := option_map Raw.Text (Server.timeline l);
     Raw.start_date := option_map Raw.Text (Server.start_date l);
     Raw.end_date := option_map Raw.Text (Server.end_date l);
     Raw.travel_date := option_map Raw.Text (Server.travel_date l);
     Raw.pageNum := Server.pageNum l;
     Raw.limitNum := Server.limitNum l;
     Raw.offset := Server.offset l;
     Raw.sort_by := Raw.Text (Server.sort_by l);
     Raw.sort_order := Raw.Text (Server.sort_order l) |}.

(** The ORDER BY clause of a request with the direction [direction]. *)
Definition raw_order_by (l : Raw.locals) (direction : string) : string :=
  " ORDER BY " ++ Raw.safeSortBy (Raw.sort_by l) ++ " " ++ direction.

(** A request with nothing but a sort direction. *)
Definition sorted_by_direction (sort_order : Raw.param) : Raw.query :=
  {| Raw.q_origin := None; Raw.q_destination := None;
     Raw.q_operator_name := None; Raw.q_transport_type := None;
     Raw.q_timeline := None; Raw.q_start_date := None;
     Raw.q_end_date := None; Raw.q_travel_date := None;
     Raw.q_page := None; Raw.q_limit := None;
     Raw.q_sort_by := None; Raw.q_sort_order := Some sort_order |}.

(** [?sort_order=asc&sort_order=desc]: the parameter arrives as an array. *)
Definition repeated_sort_order : Raw.query :=
  sorted_by_direction (Raw.Structured (JArr [JV (Str "asc"); JV (Str "desc")])).

(** A stand-in for node-postgres's text of an array or object. *)
Definition as_json_text (v : json) : prim := Str (stringify v).

(* ----------------------------------------------------------------- *)
(** ** Rows as the import writes them *)

(** A bound value as the table then holds it: node-postgres sends
    [undefined] as NULL. *)
Definition as_stored (p : prim) : prim :=
  match p with Undefined => Null | _ => p end.

(** A row of [trips] as the table holds it: its [id] and the thirteen
    columns of the import with the values bound for them. *)
Definition stored (id : Z) (bound : list prim) : row :=
  ("id", Number (Num id)) :: combine Importer.column_names (map as_stored bound).

(** The row as the combined-trips statement selects it: followed by
    the count of the matching rows, which node-postgres hands over as
    text. *)
Definition selected (id : Z) (bound : list prim) (total_count : string) : row :=
  List.app (stored id bound) [("total_count", Str total_count)].

(** The bound values of a trip from Bangkok to Phuket. *)
Definition bangkok_phuket (provider : prim) : list prim :=
  [ Str "https://12go.asia/en/travel/bangkok/phuket"; Str "Bangkok"; Str "Phuket";
    Str "2024-01-01T08:00:00.000Z"; Str "2024-01-01T20:00:00.000Z"; Str "Bus";
    Number (Num 720); Number (Num 850); Number (Num 1972); Str "THB";
    Str "2024-01-01"; Null; provider ].

(** Provider A answers three rows, each carrying the count of ten
    matching rows as text, and provider B fails. *)
Definition three_of_ten_selected : list row :=
  [ selected 1 (bangkok_phuket (Str "12go")) "10";
    selected 2 (bangkok_phuket (Str "12go")) "10";
    selected 3 (bangkok_phuket (Str "12go")) "10" ].

Definition one_provider_down_selected : Server.pools :=
  {| Server.pool_12go := answering three_of_ten_selected;
     Server.pool_bookaway := failing "connection refused" |}.

(** The 12go table as the per-provider listing sees it: the count of
    ten matching rows, as text, and the three rows of the page. *)
Definition ten_counted : Server.pools :=
  {| Server.pool_12go :=
       fun text _ =>
         if String.eqb text (Server.count_statement "trips")
         then Rows [[("count", Str "10")]]
         else Rows (map (without "total_count") three_of_ten_selected);
     Server.pool_bookaway := failing "connection refused" |}.

(** A record of the import file that names no provider. *)
Definition unlabelled_record : Importer.trip :=
  [ ("route_url", Str "https://12go.asia/en/travel/bangkok/phuket");
    ("From", Str "Bangkok"); ("To", Str "Phuket");
    ("Departure Time", Str "2024-01-01 08:00");
    ("Arrival Time", Str "2024-01-01 20:00");
    ("Transport Type", Str "Bus"); ("Duration", Str "12h");
    ("Price", Str "850"); ("Date", Str "2024-01-01") ].

(** The row says which provider it came from: it has a [provider]
    property (as the older handler selects one) or a [source] property
    (as the per-provider listing does) that is not null. *)
Definition names_provider (r : json) : bool :=
  match r with
  | JObj fields =>
      existsb (fun kv =>
                 (String.eqb (fst kv) "provider" || String.eqb (fst kv) "source")
                 && truthy_json (snd kv))
        fields
  | _ => false
  end.

Definition some_row_names_provider (r : response) : bool :=
  match data_of r with
  | Some (JArr items) => existsb names_provider items
  | _ => false
  end.

(* ----------------------------------------------------------------- *)
(** ** Placeholders, exact page numbers, an unobserved cache *)

(** A decimal digit, as [parseInt] reads it. *)
Definition is_digit (c : ascii) : bool :=
  match digit_value 10 c with Some _ => true | None => false end.

(** The longest prefix of digits. *)
Fixpoint leading_digits (s : string) : string :=
  match s with
  | EmptyString => EmptyString
  | String c r => if is_digit c then String c (leading_digits r) else EmptyString
  end.

(** The placeholders of a statement, each by the digits that follow
    its [$], in the order they are written. *)
Fixpoint placeholders (s : string) : list string :=
  match s with
  | EmptyString => []
  | String c r =>
      if Ascii.eqb c "$" then leading_digits r :: placeholders r else placeholders r
  end.


(** The cache as server.js configures it: bounded, and with no
    [dispose] callback, so what it lets go of is reported to nobody. *)
Definition unobserved_get (c : Instrumented.bounded) (key : string)
  : option json * Instrumented.bounded :=
  fst (Instrumented.bounded_get c key).

Definition unobserved_set (max : nat) (c : Instrumented.bounded) (key : string)
    (value : json) : Instrumented.bounded :=
  fst (Instrumented.bounded_set max c key value).

(** A cache of capacity two that is full: "a" was written, then "b". *)
Definition two_held : Server.state Instrumented.bounded :=
  Server.setInCache (unobserved_set 2) Instrumented.bounded_size "b" (JArr [])
    (Server.setInCache (unobserved_set 2) Instrumented.bounded_size "a" (JArr [])
       {| Server.stats := {| Server.hits := 0; Server.misses := 0;
                             Server.currentSize := None |};
          Server.cache := [] |}).

(* ================================================================= *)
(** * Properties *)

(* ----------------------------------------------------------------- *)
(** ** Pagination parameters *)

Lemma limitNum_not_zero (q : Server.query) :
  Server.limitNum (Server.parse q) <> Num 0.
Proof.
  unfold Server.parse, Server.parse_limitNum; simpl.
  destruct (parseInt _) as [|n]; simpl; [discriminate|].
  intros H; injection H; lia.
Qed.

Lemma provider_limit_not_zero (limit : option string) :
  Server.provider_limit limit <> Num 0.
Proof.
  unfold Server.provider_limit, num_or.
  destruct (parseInt_opt limit) as [|z]; [discriminate|].
  destruct (z =? 0)%Z eqn:E; [discriminate|].
  intros H; injection H as ->; discriminate.
Qed.

(** C5, as stated, fails on GET /api/:provider/trips: page=0 and
    limit=1000 leave the page size at 1000. *)
Lemma provider_trips_limit_unclamped :
  Server.provider_page (Some "0") = Num 1 /\
  Server.provider_limit (Some "1000") = Num 1000 /\
  ~ clamped 100 (Server.provider_page (Some "0")) (Server.provider_limit (Some "1000")).
Proof.
  split; [reflexivity|]. split; [reflexivity|].
  intros (p & l & _ & Hl & _ & Hmax).
  vm_compute in Hl. injection Hl as <-. lia.
Qed.

(** C5 (amended).  GET /api/combined-trips clamps a page and a limit
    that parse as numbers: the page becomes max(1, page), the limit
    min(100, max(1, limit)), so the pair is clamped at 100.  GET
    /api/:provider/trips does not clamp: a page or limit that parses
    as a number other than 0 is used as it is, and only a missing,
    unparseable or zero value is replaced, by 1 and by 10. *)
Theorem pagination_clamping (q : Server.query) (p n : Z) :
  parseInt (Server.or_default "1" (Server.q_page q)) = Num p ->
  parseInt (Server.or_default "50" (Server.q_limit q)) = Num n ->
  Server.pageNum (Server.parse q) = Num (Z.max 1 p) /\
  Server.limitNum (Server.parse q) = Num (Z.min 100 (Z.max 1 n)) /\
  clamped 100 (Server.pageNum (Server.parse q)) (Server.limitNum (Server.parse q)) /\
  (forall s z, parseInt s = Num z -> z <> 0%Z ->
     Server.provider_page (Some s) = Num z /\ Server.provider_limit (Some s) = Num z) /\
  (forall s, parseInt s = NaN \/ parseInt s = Num 0 ->
     Server.provider_page (Some s) = Num 1 /\ Server.provider_limit (Some s) = Num 10) /\
  Server.provider_page None = Num 1 /\ Server.provider_limit None = Num 10.
Proof.
  intros Hp Hn.
  assert (P : Server.pageNum (Server.parse q) = Num (Z.max 1 p)).
  { simpl. unfold Server.parse_pageNum. now rewrite Hp. }
  assert (L : Server.limitNum (Server.parse q) = Num (Z.min 100 (Z.max 1 n))).
  { simpl. unfold Server.parse_limitNum. now rewrite Hn. }
  repeat split; try assumption; try reflexivity.
  - rewrite P, L. exists (Z.max 1 p), (Z.min 100 (Z.max 1 n)).
    repeat split; lia.
  - unfold Server.provider_page; simpl. rewrite H. unfold num_or.
    destruct (z =? 0)%Z eqn:E; [apply Z.eqb_eq in E; contradiction | reflexivity].
  - unfold Server.provider_limit; simpl. rewrite H. unfold num_or.
    destruct (z =? 0)%Z eqn:E; [apply Z.eqb_eq in E; contradiction | reflexivity].
  - unfold Server.provider_page; simpl. destruct H as [-> | ->]; reflexivity.
  - unfold Server.provider_limit; simpl. destruct H as [-> | ->]; reflexivity.
Qed.

(** The clamp scenario: page=0, limit=1000 on GET /api/combined-trips. *)
Lemma pagination_clamping_witness :
  parseInt "0" = Num 0 /\ parseInt "1000" = Num 1000 /\
  Server.pageNum (Server.parse (paged (Some "0") (Some "1000"))) = Num 1 /\
  Server.limitNum (Server.parse (paged (Some "0") (Some "1000"))) = Num 100.
Proof.
  split; [reflexivity|]. split; [reflexivity|].
  pose proof (pagination_clamping (paged (Some "0") (Some "1000")) 0 1000
                eq_refl eq_refl) as H.
  split; [exact (proj1 H) | exact (proj1 (proj2 H))].
Defined.

(* ----------------------------------------------------------------- *)
(** ** Sort column and direction *)

Lemma append_assoc (a b c : string) : (a ++ b) ++ c = a ++ (b ++ c).
Proof. induction a as [|x a IH]; simpl; [reflexivity | now rewrite IH]. Qed.

Lemma append_empty_r (a : string) : a ++ EmptyString = a.
Proof. induction a as [|x a IH]; simpl; [reflexivity | now rewrite IH]. Qed.

Lemma buildQuery_order_by (l : Server.locals) (tableName : string) :
  exists select_where,
    Server.text (Server.buildQuery l tableName) =
      select_where ++ order_by l
        ++ " LIMIT $" ++ nat_to_string (Server.paramIndex (Server.filters l tableName))
        ++ " OFFSET $" ++ nat_to_string (Server.paramIndex (Server.filters l tableName) + 1).
Proof.
  unfold Server.buildQuery, order_by. cbv zeta.
  set (b := Server.filters l tableName).
  match goal with
  | |- context [match Server.conditions b with [] => ?x | _ :: _ => ?y end] =>
      exists (match Server.conditions b with [] => x | _ :: _ => y end)
  end.
  cbn [Server.text]. now rewrite !append_assoc.
Qed.

Lemma includes_In (xs : list string) (x : string) :
  includes xs x = true <-> In x xs.
Proof.
  unfold includes. rewrite existsb_exists. split.
  - intros (y & Hy & E). apply String.eqb_eq in E. now subst.
  - intros H. exists x. split; [assumption | apply String.eqb_refl].
Qed.

Lemma safeSortBy_whitelisted (sort_by : string) :
  In (Server.safeSortBy sort_by) Server.sort_columns.
Proof.
  unfold Server.safeSortBy.
  destruct (includes Server.sort_columns sort_by) eqn:E.
  - now apply includes_In.
  - simpl; auto.
Qed.

Lemma safeSortOrder_whitelisted (sort_order : string) :
  In (Server.safeSortOrder sort_order) Server.sort_directions.
Proof.
  unfold Server.safeSortOrder.
  destruct (includes Server.sort_directions (toUpperCase sort_order)) eqn:E.
  - now apply includes_In.
  - simpl; auto.
Qed.

(** The two fall-backs are not joint: a sort column outside the
    whitelist with direction DESC sorts by departure_time descending,
    not by the default sort. *)
Lemma sort_fallback_is_not_joint :
  ~ (forall sort_by sort_order,
       includes Server.sort_columns sort_by = false \/
       includes Server.sort_directions (toUpperCase sort_order) = false ->
       Server.safeSortBy sort_by = "departure_time" /\
       Server.safeSortOrder sort_order = "ASC").
Proof.
  intros H.
  destruct (H "; DROP TABLE trips" "DESC" (or_introl eq_refl)) as [_ E].
  vm_compute in E. discriminate.
Qed.

Lemma safeSortBy_given (s : string) :
  In s Server.sort_columns -> Server.safeSortBy s = s.
Proof.
  intros Hs. unfold Server.safeSortBy. now rewrite (proj2 (includes_In _ _) Hs).
Qed.

Lemma safeSortBy_default (s : string) :
  ~ In s Server.sort_columns -> Server.safeSortBy s = "departure_time".
Proof.
  intros Hs. unfold Server.safeSortBy.
  destruct (includes Server.sort_columns s) eqn:E; [|reflexivity].
  apply includes_In in E. contradiction.
Qed.

Lemma safeSortOrder_given (s : string) :
  In (toUpperCase s) Server.sort_directions -> Server.safeSortOrder s = toUpperCase s.
Proof.
  intros Hs. unfold Server.safeSortOrder. now rewrite (proj2 (includes_In _ _) Hs).
Qed.

Lemma safeSortOrder_default (s : string) :
  ~ In (toUpperCase s) Server.sort_directions -> Server.safeSortOrder s = "ASC".
Proof.
  intros Hs. unfold Server.safeSortOrder.
  destruct (includes Server.sort_directions (toUpperCase s)) eqn:E; [|reflexivity].
  apply includes_In in E. contradiction.
Qed.

(* ----------------------------------------------------------------- *)
(** ** The two trip-listing handlers *)

Section HandlerFacts.

Variable StringToNumber : string -> num.
Variable lru : Type.
Variable lru_get : lru -> string -> option json * lru.
Variable lru_set : lru -> string -> json -> lru.
Variable lru_size : lru -> Z.

Local Abbreviation combined_trips :=
  (Server.combined_trips StringToNumber lru_get lru_set lru_size).
Local Abbreviation provider_trips := (Server.provider_trips lru_get lru_set lru_size).
Local Abbreviation combinedResults := (Server.combinedResults StringToNumber).

Lemma getFromCache_value (key : string) (st : Server.state lru) :
  fst (Server.getFromCache lru_get key st) = fst (lru_get (Server.cache st) key).
Proof.
  unfold Server.getFromCache.
  destruct (lru_get (Server.cache st) key) as [[v|] c]; reflexivity.
Qed.

(** On a cache miss the handler answers 200 with the freshly merged
    document, marked as a success. *)
Lemma combined_trips_miss (q : Server.query) (db : Server.pools) (st : Server.state lru) :
  misses_cache lru_get st (Server.cacheKey (Server.parse q)) ->
  fst (combined_trips q db st) =
    ok (Server.with_success
          (combinedResults (Server.parse q)
             (Server.rows_or_empty
                (Server.pool_12go db
                   (Server.text (Server.buildQuery (Server.parse q) "trips"))
                   (Server.values (Server.buildQuery (Server.parse q) "trips"))))
             (Server.rows_or_empty
                (Server.pool_bookaway db
                   (Server.text (Server.buildQuery (Server.parse q) "bookaway_trips"))
                   (Server.values (Server.buildQuery (Server.parse q) "bookaway_trips")))))).
Proof.
  unfold misses_cache. intros M.
  unfold Server.combined_trips. cbv zeta.
  rewrite <- getFromCache_value in M.
  destruct (Server.getFromCache lru_get _ st) as [cached st'].
  simpl in M. rewrite M. reflexivity.
Qed.

Lemma pagination_keys_combined (l : Server.locals) (a b : list row) :
  pagination_keys (ok (Server.with_success (combinedResults l a b)))
  = ["page"; "limit"; "total"; "totalPages"].
Proof. reflexivity. Qed.

Lemma provider_trips_miss_keys (provider : string) (page limit : option string)
    (db : Server.pools) (st : Server.state lru) :
  misses_cache lru_get st
    (Server.provider_cacheKey provider (Server.provider_page page)
       (Server.provider_limit limit)) ->
  status (fst (provider_trips provider page limit db st)) = 200%Z ->
  pagination_keys (fst (provider_trips provider page limit db st)) = six_fields.
Proof.
  unfold misses_cache. intros M.
  rewrite <- getFromCache_value in M.
  unfold Server.provider_trips. cbv zeta.
  destruct (Server.lookup_pool db provider) as [p| |];
    [ | | simpl; discriminate ];
    destruct (Server.getFromCache lru_get _ st) as [cached st'];
    simpl in M; rewrite M; [ | simpl; discriminate ].
  match goal with
  | |- context [p ?a []] => destruct (p a []) as [[|first rest]|message]
  end;
    try (simpl; discriminate);
    match goal with
    | |- context [p ?a ?b] => destruct (p a b) as [trips|message']
    end;
    simpl; try discriminate; reflexivity.
Qed.

End HandlerFacts.

(** C7, as stated, fails on GET /api/combined-trips: a successful
    response carries neither hasNextPage nor hasPrevPage. *)
Lemma combined_trips_lacks_page_flags :
  let r := fst (Server.combined_trips (fun _ => NaN)
                  always_miss_get always_miss_set always_miss_size
                  bare_request
                  {| Server.pool_12go := answering [row_12go 1 1];
                     Server.pool_bookaway := answering [] |}
                  fresh_state) in
  status r = 200%Z /\
  prop "success" (body r) = Some (JV (Bool true)) /\
  pagination_keys r = ["page"; "limit"; "total"; "totalPages"] /\
  ~ In "hasNextPage" (pagination_keys r) /\
  ~ In "hasPrevPage" (pagination_keys r).
Proof.
  vm_compute. repeat split; intros H; repeat destruct H as [H|H]; try discriminate H; exact H.
Qed.

(* ----------------------------------------------------------------- *)
(** ** Fan-in of the provider answers *)

Lemma processResults_items (rows : list row) (source : string) :
  fst (Server.processResults rows source) = map (without "total_count") rows.
Proof. destruct rows; reflexivity. Qed.

Lemma processResults_source (rows : list row) (s1 s2 : string) :
  Server.processResults rows s1 = Server.processResults rows s2.
Proof. reflexivity. Qed.

Lemma data_of_combined (S : string -> num) (l : Server.locals) (a b : list row) :
  data_of (ok (Server.with_success (Server.combinedResults S l a b)))
  = Some (JArr (map row_json
                  (List.app (map (without "total_count") a)
                            (map (without "total_count") b)))).
Proof.
  unfold Server.combinedResults. cbv zeta.
  rewrite !processResults_items. reflexivity.
Qed.

Lemma total_of_combined (S : string -> num) (l : Server.locals) (a b : list row) :
  pagination_field "total" (ok (Server.with_success (Server.combinedResults S l a b)))
  = Some (JV (js_add S
                (prim_or (snd (Server.processResults a "12go")) (Number (Num 0)))
                (prim_or (snd (Server.processResults b "bookaway")) (Number (Num 0))))).
Proof. reflexivity. Qed.

Lemma totalPages_of_combined (S : string -> num) (l : Server.locals) (a b : list row) :
  pagination_field "totalPages"
    (ok (Server.with_success (Server.combinedResults S l a b)))
  = Some (JV (Number (Math_ceil_div
       (to_number S
          (js_add S
             (prim_or (snd (Server.processResults a "12go")) (Number (Num 0)))
             (prim_or (snd (Server.processResults b "bookaway")) (Number (Num 0)))))
       (Server.limitNum l)))).
Proof. reflexivity. Qed.

Lemma number_or_zero (n : Z) :
  prim_or (Number (Num n)) (Number (Num 0)) = Number (Num n).
Proof.
  unfold prim_or; simpl. destruct (Z.eqb_spec n 0) as [->|]; reflexivity.
Qed.

(** When a request misses the cache, one provider's query fails and
    the other answers rows whose total is the number n, the handler
    answers 200 with success: the failed provider contributes no row
    and total 0, the data are all the rows of the surviving provider
    (without their total_count column), and pagination.total is n. *)
Theorem one_provider_failure_degrades
    (StringToNumber : string -> num) (lru : Type)
    (lru_get : lru -> string -> option json * lru)
    (lru_set : lru -> string -> json -> lru) (lru_size : lru -> Z)
    (q : Server.query) (db : Server.pools) (st : Server.state lru)
    (rows : list row) (message : string) (n : Z) :
  let twelveGoQuery := Server.buildQuery (Server.parse q) "trips" in
  let bookawayQuery := Server.buildQuery (Server.parse q) "bookaway_trips" in
  let answer12go :=
    Server.pool_12go db (Server.text twelveGoQuery) (Server.values twelveGoQuery) in
  let answerBookaway :=
    Server.pool_bookaway db (Server.text bookawayQuery) (Server.values bookawayQuery) in
  let r := fst (Server.combined_trips StringToNumber lru_get lru_set lru_size q db st) in
  misses_cache lru_get st (Server.cacheKey (Server.parse q)) ->
  (answer12go = Rows rows /\ answerBookaway = Failed message /\
   snd (Server.processResults rows "12go") = Number (Num n)) \/
  (answer12go = Failed message /\ answerBookaway = Rows rows /\
   snd (Server.processResults rows "bookaway") = Number (Num n)) ->
  status r = 200%Z /\
  prop "success" (body r) = Some (JV (Bool true)) /\
  Server.processResults (Server.rows_or_empty (Failed message)) "12go"
    = ([], Number (Num 0)) /\
  data_of r = Some (JArr (map row_json (map (without "total_count") rows))) /\
  pagination_field "total" r = Some (JV (Number (Num n))).
Proof.
  intros twelveGoQuery bookawayQuery answer12go answerBookaway r M H.
  subst r. rewrite (combined_trips_miss _ _ _ _ _ _ _ _ M).
  fold twelveGoQuery bookawayQuery. fold answer12go answerBookaway.
  split; [reflexivity|]. split; [reflexivity|]. split; [reflexivity|].
  rewrite data_of_combined, total_of_combined.
  destruct H as [(-> & -> & T) | (-> & -> & T)]; simpl Server.rows_or_empty.
  - rewrite T. cbn [map]. rewrite app_nil_r. split; [reflexivity|].
    rewrite number_or_zero. simpl. now rewrite Z.add_0_r.
  - rewrite T. split; [reflexivity|].
    rewrite number_or_zero. simpl. reflexivity.
Qed.

(** Provider A answers 3 rows carrying total_count 10 and provider B
    fails: exactly 3 data rows and total 10. *)
Lemma one_provider_failure_degrades_witness :
  let r := fst (Server.combined_trips (fun _ => NaN)
                  always_miss_get always_miss_set always_miss_size
                  bare_request one_provider_down fresh_state) in
  misses_cache always_miss_get fresh_state (Server.cacheKey (Server.parse bare_request)) /\
  snd (Server.processResults three_of_ten "12go") = Number (Num 10) /\
  status r = 200%Z /\
  data_of r = Some (JArr (map row_json (map (without "total_count") three_of_ten))) /\
  List.length (map (without "total_count") three_of_ten) = 3 /\
  pagination_field "total" r = Some (JV (Number (Num 10))).
Proof.
  intros r.
  assert (M : misses_cache always_miss_get fresh_state
                (Server.cacheKey (Server.parse bare_request))) by reflexivity.
  assert (T : snd (Server.processResults three_of_ten "12go") = Number (Num 10))
    by reflexivity.
  pose proof (one_provider_failure_degrades (fun _ => NaN) unit
                always_miss_get always_miss_set always_miss_size
                bare_request one_provider_down fresh_state
                three_of_ten "connection refused" 10 M
                (or_introl (conj eq_refl (conj eq_refl T)))) as H.
  split; [exact M|]. split; [exact T|]. split; [exact (proj1 H)|].
  split; [exact (proj1 (proj2 (proj2 (proj2 H))))|].
  split; [reflexivity|].
  exact (proj2 (proj2 (proj2 (proj2 H)))).
Defined.

(** C4.  The rows GET /api/combined-trips returns are the database
    rows less their total_count column, whatever the provider: the
    source name handed to [processResults] never reaches them.  A
    record of the import file that names no provider passes the
    import's filter as far as its price does and is written with no
    provider; when the 12go table answers that row, the data row of
    the response has a null [provider] and no [source]: nothing says
    which provider it came from. *)
Theorem combined_rows_carry_no_provider_tag
    (positive_price : prim -> bool)
    (parseTimestamp parseDate parseDurationMinutes parsePriceNumber to_inr : prim -> prim)
    (prepareValue : json -> prim) (StringToNumber : string -> num) :
  let bound := Importer.columns parseTimestamp parseDate parseDurationMinutes
                 parsePriceNumber to_inr unlabelled_record in
  let db := {| Server.pool_12go := answering [selected 1 bound "1"];
               Server.pool_bookaway := answering [] |} in
  let r := fst (Raw.combined_trips prepareValue StringToNumber
                  always_miss_get always_miss_set always_miss_size
                  (Raw.texts bare_request) db fresh_state) in
  (forall rows source1 source2,
     Server.processResults rows source1 = Server.processResults rows source2) /\
  (forall rows source,
     fst (Server.processResults rows source) = map (without "total_count") rows) /\
  Importer.kept positive_price unlabelled_record = positive_price (Str "850") /\
  nth 12 bound Null = Undefined /\
  status r = 200%Z /\
  data_of r = Some (JArr [row_json (stored 1 bound)]) /\
  get "provider" (stored 1 bound) = Null /\
  get "source" (stored 1 bound) = Undefined /\
  some_row_names_provider r = false.
Proof.
  intros bound db r.
  split; [intros; reflexivity|].
  split; [apply processResults_items|].
  split; [unfold Importer.kept; simpl; now rewrite !andb_true_r|].
  repeat split; reflexivity.
Qed.

(** When the driver hands the count over as text, [+] concatenates:
    three rows carrying total_count "10" and a failed provider report
    the total "100". *)
Example text_counts_concatenate :
  pagination_field "total"
    (fst (Server.combined_trips (fun _ => NaN)
            always_miss_get always_miss_set always_miss_size
            bare_request one_provider_down_text fresh_state))
  = Some (JV (Str "100")).
Proof. reflexivity. Qed.

(** C3.  On the aggregation scenario as the database answers it, provider
    A returning 3 rows that carry the count of 10 matching rows
    (handed over as the text "10", as node-postgres does for COUNT)
    and provider B failing, the handler answers 200 with success and
    exactly the 3 rows, but pagination.total is the text "100", the
    concatenation of "10" and 0, not the sum 10.  The per-provider
    listing reads the same text with [parseInt] and reports 10. *)
Theorem degraded_total_concatenates
    (prepareValue : json -> prim) (StringToNumber : string -> num) :
  let r := fst (Raw.combined_trips prepareValue StringToNumber
                  always_miss_get always_miss_set always_miss_size
                  (Raw.texts bare_request) one_provider_down_selected fresh_state) in
  status r = 200%Z /\
  prop "success" (body r) = Some (JV (Bool true)) /\
  data_of r
  = Some (JArr (map row_json [ stored 1 (bangkok_phuket (Str "12go"));
                               stored 2 (bangkok_phuket (Str "12go"));
                               stored 3 (bangkok_phuket (Str "12go")) ])) /\
  Server.processResults three_of_ten_selected "12go"
  = (map (without "total_count") three_of_ten_selected, Str "10") /\
  Server.processResults (Server.rows_or_empty (Failed "connection refused")) "bookaway"
  = ([], Number (Num 0)) /\
  pagination_field "total" r = Some (JV (Str "100")) /\
  pagination_field "total" r <> Some (JV (Number (Num 10))) /\
  pagination_field "total"
    (fst (Server.provider_trips always_miss_get always_miss_set always_miss_size
            "12go" None None ten_counted fresh_state))
  = Some (JV (Number (Num 10))).
Proof.
  intros r. repeat split; try reflexivity. discriminate.
Qed.

(* ----------------------------------------------------------------- *)
(** ** The reported total follows the requested page *)

Lemma get_appended_total_count (r : row) (v : prim) :
  get "total_count" (List.app (without "total_count" r) [("total_count", v)]) = v.
Proof.
  unfold without.
  induction r as [|[k x] r IH]; [reflexivity|].
  cbn [filter fst].
  destruct (String.eqb "total_count" k) eqn:E; cbn [negb]; [exact IH|].
  cbn [List.app get]. rewrite E. exact IH.
Qed.

Lemma reported_or_zero (count_cell : Z -> prim) (matching : list row) (o : Z) :
  (forall n, (0 < n)%Z -> truthy (count_cell n) = true) ->
  (0 <= o)%Z ->
  prim_or (reported count_cell matching o) (Number (Num 0))
  = reported count_cell matching o.
Proof.
  intros C Ho. unfold reported, prim_or.
  destruct (Z.ltb_spec o (Z.of_nat (List.length matching))); [|reflexivity].
  rewrite C by lia. reflexivity.
Qed.

Lemma reported_total (count_cell : Z -> prim) (matching : list row) (l o : Z)
    (source : string) :
  (forall n, (0 < n)%Z -> truthy (count_cell n) = true) ->
  (1 <= l)%Z -> (0 <= o)%Z ->
  snd (Server.processResults
         (Server.rows_or_empty (paged_answer count_cell matching (Num l) (Num o))) source)
  = reported count_cell matching o.
Proof.
  intros C Hl Ho. unfold paged_answer, reported.
  replace (0 <=? l)%Z with true by (symmetry; apply Z.leb_le; lia).
  replace (0 <=? o)%Z with true by (symmetry; apply Z.leb_le; lia).
  simpl Server.rows_or_empty.
  pose proof (length_skipn (Z.to_nat o) matching) as L.
  destruct (skipn (Z.to_nat o) matching) as [|first rest] eqn:E.
  - rewrite firstn_nil. simpl.
    replace (o <? Z.of_nat (List.length matching))%Z with false; [reflexivity|].
    symmetry. apply Z.ltb_ge. simpl in L. lia.
  - destruct (Z.to_nat l) as [|k] eqn:K; [lia|].
    cbn [firstn map Server.processResults snd].
    rewrite get_appended_total_count.
    replace (o <? Z.of_nat (List.length matching))%Z with true
      by (symmetry; apply Z.ltb_lt; simpl in L; lia).
    unfold prim_or. rewrite C; [reflexivity|]. simpl in L. lia.
Qed.

Lemma clamped_limit_offset (q : Server.query) (l o : Z) :
  Server.limitNum (Server.parse q) = Num l ->
  Server.offset (Server.parse q) = Num o ->
  (1 <= l <= 100)%Z /\ (0 <= o)%Z.
Proof.
  simpl. unfold Server.parse_limitNum, Server.parse_pageNum.
  destruct (parseInt (Server.or_default "50" _)) as [|n]; [discriminate|].
  destruct (parseInt (Server.or_default "1" _)) as [|p]; [discriminate|].
  simpl. intros [= <-] [= <-]. split; [lia | nia].
Qed.

(** C10.  A provider's total is the total_count of the first row its
    page query answers, and 0 when the page is empty.  Over tables
    whose matching rows are [m12go] and [mBookaway], a request that
    misses the cache reports, for a page starting at [offset], the
    count of a provider's matching rows only if [offset] lies within
    them: pagination.total adds up the two reported counts and
    totalPages is its quotient by the limit, rounded up; past the last
    matching row of both providers both are 0, whatever the filters
    match. *)
Theorem total_follows_requested_page
    (StringToNumber : string -> num) (lru : Type)
    (lru_get : lru -> string -> option json * lru)
    (lru_set : lru -> string -> json -> lru) (lru_size : lru -> Z)
    (q : Server.query) (db : Server.pools) (st : Server.state lru)
    (count_cell : Z -> prim) (m12go mBookaway : list row) (limit offset : Z) :
  let twelveGoQuery := Server.buildQuery (Server.parse q) "trips" in
  let bookawayQuery := Server.buildQuery (Server.parse q) "bookaway_trips" in
  let r := fst (Server.combined_trips StringToNumber lru_get lru_set lru_size q db st) in
  let total :=
    js_add StringToNumber (reported count_cell m12go offset)
      (reported count_cell mBookaway offset) in
  (forall n, (0 < n)%Z -> truthy (count_cell n) = true) ->
  misses_cache lru_get st (Server.cacheKey (Server.parse q)) ->
  Server.limitNum (Server.parse q) = Num limit ->
  Server.offset (Server.parse q) = Num offset ->
  Server.pool_12go db (Server.text twelveGoQuery) (Server.values twelveGoQuery)
    = paged_answer count_cell m12go (Num limit) (Num offset) ->
  Server.pool_bookaway db (Server.text bookawayQuery) (Server.values bookawayQuery)
    = paged_answer count_cell mBookaway (Num limit) (Num offset) ->
  (forall first rest source,
     snd (Server.processResults (first :: rest) source)
     = prim_or (get "total_count" first) (Number (Num 0))) /\
  (forall source, snd (Server.processResults [] source) = Number (Num 0)) /\
  pagination_field "total" r = Some (JV total) /\
  pagination_field "totalPages" r
    = Some (JV (Number (Math_ceil_div (to_number StringToNumber total) (Num limit)))) /\
  ((Z.of_nat (List.length m12go) <= offset)%Z ->
   (Z.of_nat (List.length mBookaway) <= offset)%Z ->
   pagination_field "total" r = Some (JV (Number (Num 0))) /\
   pagination_field "totalPages" r = Some (JV (Number (Num 0)))).
Proof.
  intros twelveGoQuery bookawayQuery r total C M L O A B.
  destruct (clamped_limit_offset q limit offset L O) as [Hl Ho].
  assert (T : pagination_field "total" r = Some (JV total)).
  { subst r. rewrite (combined_trips_miss _ _ _ _ _ _ _ _ M).
    fold twelveGoQuery bookawayQuery. rewrite A, B, total_of_combined.
    rewrite !reported_total by (assumption || lia).
    now rewrite !reported_or_zero by (assumption || lia). }
  assert (P : pagination_field "totalPages" r
              = Some (JV (Number (Math_ceil_div (to_number StringToNumber total)
                                                (Num limit))))).
  { subst r. rewrite (combined_trips_miss _ _ _ _ _ _ _ _ M).
    fold twelveGoQuery bookawayQuery. rewrite A, B, totalPages_of_combined.
    rewrite !reported_total by (assumption || lia).
    rewrite !reported_or_zero by (assumption || lia). now rewrite L. }
  split; [reflexivity|]. split; [reflexivity|].
  split; [exact T|]. split; [exact P|].
  intros H1 H2. rewrite T, P. subst total. unfold reported.
  replace (offset <? Z.of_nat (List.length m12go))%Z with false
    by (symmetry; apply Z.ltb_ge; lia).
  replace (offset <? Z.of_nat (List.length mBookaway))%Z with false
    by (symmetry; apply Z.ltb_ge; lia).
  split; [reflexivity|]. simpl.
  destruct (Z.eqb_spec limit 0); [lia|]. reflexivity.
Qed.

Lemma as_number_truthy (n : Z) : (0 < n)%Z -> truthy (as_number n) = true.
Proof. intros H. simpl. destruct (Z.eqb_spec n 0); [lia | reflexivity]. Qed.

(** Three matching trips, limit 50: page 1 reports total 3 and one
    page, page 2 of the same request reports total 0 and no page. *)
Lemma total_follows_requested_page_witness :
  let page1 := fst (Server.combined_trips (fun _ => NaN)
                      always_miss_get always_miss_set always_miss_size
                      (paged (Some "1") None) one_table fresh_state) in
  let page2 := fst (Server.combined_trips (fun _ => NaN)
                      always_miss_get always_miss_set always_miss_size
                      (paged (Some "2") None) one_table fresh_state) in
  Server.offset (Server.parse (paged (Some "2") None)) = Num 50 /\
  pagination_field "total" page1 = Some (JV (Number (Num 3))) /\
  pagination_field "totalPages" page1 = Some (JV (Number (Num 1))) /\
  pagination_field "total" page2 = Some (JV (Number (Num 0))) /\
  pagination_field "totalPages" page2 = Some (JV (Number (Num 0))).
Proof.
  intros page1 page2.
  pose proof (total_follows_requested_page (fun _ => NaN) unit
                always_miss_get always_miss_set always_miss_size
                (paged (Some "1") None) one_table fresh_state
                as_number three_trips [] 50 0
                as_number_truthy eq_refl eq_refl eq_refl eq_refl eq_refl) as H1.
  pose proof (total_follows_requested_page (fun _ => NaN) unit
                always_miss_get always_miss_set always_miss_size
                (paged (Some "2") None) one_table fresh_state
                as_number three_trips [] 50 50
                as_number_truthy eq_refl eq_refl eq_refl eq_refl eq_refl) as H2.
  split; [reflexivity|].
  split; [exact (proj1 (proj2 (proj2 H1)))|].
  split; [exact (proj1 (proj2 (proj2 (proj2 H1))))|].
  destruct (proj2 (proj2 (proj2 (proj2 H2)))) as [T P]; [simpl; lia | simpl; lia |].
  split; [exact T | exact P].
Defined.

(* ----------------------------------------------------------------- *)
(** ** The undefined tripCacheMap *)

Lemma tripCacheMap_unbound :
  TripRoutes.resolve "tripCacheMap" = inr (TripRoutes.ReferenceError "tripCacheMap").
Proof. reflexivity. Qed.

(** C9.  No declaration binds tripCacheMap.  GET /api/trips/from/:origin
    throws a ReferenceError whenever the cache holds a value it would
    serve under trips_from_<origin>, and the destination and route
    handlers throw it on every request, before any cached or database
    answer is sent. *)
Theorem tripCacheMap_reads_throw :
  assoc "tripCacheMap" TripRoutes.module_scope = None /\
  (forall (lru : Type) (lru_get : lru -> string -> option json * lru)
          (origin : string) (db : pool) (c : lru) (cachedTrips : json),
     fst (lru_get c ("trips_from_" ++ origin)) = Some cachedTrips ->
     truthy_json cachedTrips = true ->
     TripRoutes.trips_from lru_get origin db c
     = TripRoutes.Threw (TripRoutes.ReferenceError "tripCacheMap")) /\
  (forall destination db,
     TripRoutes.trips_to destination db
     = TripRoutes.Threw (TripRoutes.ReferenceError "tripCacheMap")) /\
  (forall from to db,
     TripRoutes.trips_route from to db
     = TripRoutes.Threw (TripRoutes.ReferenceError "tripCacheMap")).
Proof.
  split; [reflexivity|]. split; [|split; intros; reflexivity].
  intros lru lru_get origin db c cachedTrips H T.
  unfold TripRoutes.trips_from.
  destruct (lru_get c ("trips_from_" ++ origin)) as [v c'].
  simpl in H. subst v. unfold served. rewrite T.
  now rewrite tripCacheMap_unbound.
Qed.

(** The cache holds a list of trips under trips_from_Bangkok. *)
Lemma tripCacheMap_reads_throw_witness :
  fst (holding_get [("trips_from_Bangkok", JArr [row_json (row_12go 1 1)])]
         ("trips_from_" ++ "Bangkok"))
  = Some (JArr [row_json (row_12go 1 1)]) /\
  TripRoutes.trips_from holding_get "Bangkok" (answering [row_12go 1 1])
    [("trips_from_Bangkok", JArr [row_json (row_12go 1 1)])]
  = TripRoutes.Threw (TripRoutes.ReferenceError "tripCacheMap").
Proof.
  split; [reflexivity|].
  exact (proj1 (proj2 tripCacheMap_reads_throw) _ holding_get "Bangkok"
           (answering [row_12go 1 1])
           [("trips_from_Bangkok", JArr [row_json (row_12go 1 1)])]
           (JArr [row_json (row_12go 1 1)]) eq_refl eq_refl).
Defined.

(* ----------------------------------------------------------------- *)
(** ** Cache statistics *)

Section StatsFacts.

Variable lru : Type.
Variable lru_get : lru -> string -> option json * lru * list (string * json).
Variable lru_set : lru -> string -> json -> lru * list (string * json).

Local Abbreviation step := (Instrumented.step lru_get lru_set).
Local Abbreviation run := (Instrumented.run lru_get lru_set).
Local Abbreviation disposed_by := (Instrumented.disposed_by lru_get lru_set).

Lemma disposals_counts (now : string) (gone : list (string * json))
    (cs : Instrumented.cacheStats) :
  Instrumented.hits (Instrumented.disposals now gone cs) = Instrumented.hits cs /\
  Instrumented.misses (Instrumented.disposals now gone cs) = Instrumented.misses cs /\
  Instrumented.evictions (Instrumented.disposals now gone cs)
  = (Instrumented.evictions cs + Z.of_nat (List.length gone))%Z.
Proof.
  unfold Instrumented.disposals. revert cs.
  induction gone as [|[k v] gone IH]; intros cs.
  - simpl. repeat split. lia.
  - cbn [fold_left List.length]. destruct (IH (Instrumented.dispose now k v cs))
      as (H & M & E).
    cbn [fst snd] in *. rewrite H, M, E. simpl. repeat split. lia.
Qed.

Lemma disposals_stamp (now : string) (gone : list (string * json))
    (cs : Instrumented.cacheStats) :
  gone <> [] ->
  Instrumented.lastEviction (Instrumented.disposals now gone cs) = Some now.
Proof.
  unfold Instrumented.disposals.
  destruct gone as [|kv gone] using rev_ind; [congruence|].
  intros _. rewrite fold_left_app. reflexivity.
Qed.

(** One use of the cache adds to [evictions] the number of entries the
    cache disposed of, stamps [lastEviction] if there was one, and
    lowers neither [hits] nor [misses]. *)
Lemma step_counts (st : Instrumented.state lru) (now : string) (o : Instrumented.op) :
  let st' := step st (now, o) in
  Instrumented.evictions (Instrumented.stats st')
  = (Instrumented.evictions (Instrumented.stats st)
     + Z.of_nat (List.length (disposed_by st o)))%Z /\
  (disposed_by st o <> [] ->
   Instrumented.lastEviction (Instrumented.stats st') = Some now) /\
  (Instrumented.hits (Instrumented.stats st)
   <= Instrumented.hits (Instrumented.stats st'))%Z /\
  (Instrumented.misses (Instrumented.stats st)
   <= Instrumented.misses (Instrumented.stats st'))%Z.
Proof.
  destruct o as [key|key value|key|key value|]; cbv zeta;
    unfold Instrumented.step, Instrumented.disposed_by; cbn [fst snd].
  - unfold Instrumented.getFromCache.
    destruct (lru_get (Instrumented.cache st) key) as [[v c] gone]. cbn [snd].
    destruct (disposals_counts now gone (Instrumented.stats st)) as (H & M & E).
    pose proof (disposals_stamp now gone (Instrumented.stats st)) as S.
    destruct v; cbn; rewrite ?H, ?M, ?E; repeat split; try lia; exact S.
  - unfold Instrumented.setInCache. cbv zeta.
    destruct (lru_set (Instrumented.cache st) key value) as [c gone]. cbn [snd].
    match goal with
    | |- context [Instrumented.disposals now gone ?cs] =>
        destruct (disposals_counts now gone cs) as (H & M & E);
        pose proof (disposals_stamp now gone cs) as S
    end.
    cbn in *. rewrite ?H, ?M, ?E. repeat split; try lia; exact S.
  - unfold Instrumented.raw_get.
    destruct (lru_get (Instrumented.cache st) key) as [[v c] gone]. cbn [snd].
    destruct (disposals_counts now gone (Instrumented.stats st)) as (H & M & E).
    pose proof (disposals_stamp now gone (Instrumented.stats st)) as S.
    cbn. rewrite ?H, ?M, ?E. repeat split; try lia; exact S.
  - unfold Instrumented.raw_set.
    destruct (lru_set (Instrumented.cache st) key value) as [c gone]. cbn [snd].
    destruct (disposals_counts now gone (Instrumented.stats st)) as (H & M & E).
    pose proof (disposals_stamp now gone (Instrumented.stats st)) as S.
    cbn. rewrite ?H, ?M, ?E. repeat split; try lia; exact S.
  - cbn. repeat split; try lia. congruence.
Qed.

(** Along any sequence of uses the three counters never decrease. *)
Lemma run_monotone (trace : list (string * Instrumented.op)) (st : Instrumented.state lru) :
  (Instrumented.hits (Instrumented.stats st)
   <= Instrumented.hits (Instrumented.stats (run trace st)))%Z /\
  (Instrumented.misses (Instrumented.stats st)
   <= Instrumented.misses (Instrumented.stats (run trace st)))%Z /\
  (Instrumented.evictions (Instrumented.stats st)
   <= Instrumented.evictions (Instrumented.stats (run trace st)))%Z.
Proof.
  unfold Instrumented.run. revert st.
  induction trace as [|[now o] trace IH]; intros st; cbn [fold_left].
  - lia.
  - destruct (step_counts st now o) as (E & _ & H & M).
    destruct (IH (step st (now, o))) as (H' & M' & E'). cbv zeta in *.
    repeat split; lia.
Qed.

End StatsFacts.

Lemma server_stats_monotone (lru : Type)
    (lru_get : lru -> string -> option json * lru)
    (lru_set : lru -> string -> json -> lru) (lru_size : lru -> Z)
    (key : string) (value : json) (st : Server.state lru) :
  let read := snd (Server.getFromCache lru_get key st) in
  let written := Server.setInCache lru_set lru_size key value st in
  (Server.hits (Server.stats st) <= Server.hits (Server.stats read))%Z /\
  (Server.misses (Server.stats st) <= Server.misses (Server.stats read))%Z /\
  Server.hits (Server.stats written) = Server.hits (Server.stats st) /\
  Server.misses (Server.stats written) = Server.misses (Server.stats st).
Proof.
  cbv zeta. unfold Server.getFromCache, Server.setInCache.
  destruct (lru_get (Server.cache st) key) as [[v|] c]; cbn; repeat split; lia.
Qed.

(** C8, as stated, fails on the cache of server.js: when a full cache
    of capacity two is written under a third key, the oldest entry is
    evicted, and no counter or time stamp changes: [cacheStats] is
    what it was before the write, and it has no member for evictions.
    Nor does server.js route a stats query. *)
Lemma server_evictions_leave_no_trace :
  let after := Server.setInCache (unobserved_set 2) Instrumented.bounded_size
                 "c" (JArr []) two_held in
  Instrumented.find "a" (Server.cache two_held) = Some (JArr []) /\
  Instrumented.find "a" (Server.cache after) = None /\
  snd (Instrumented.bounded_set 2 (Server.cache two_held) "c" (JArr [])) = [("a", JArr [])] /\
  Server.stats after = Server.stats two_held /\
  Router.dispatch Router.routes ["api"; "cache-stats"] = None.
Proof. repeat split; reflexivity. Qed.

(** C8 (amended).  In the instrumented cache of migrateomio.js every
    entry the cache disposes of runs [dispose], which adds one to
    [evictions] and records the time as [lastEviction]; so each use of
    the cache raises [evictions] by the number of entries evicted
    during it.  GET /api/cache-stats
    answers the counters and the timestamp and changes nothing.  Along
    any sequence of reads and writes [hits], [misses] and [evictions]
    never decrease; the [hits] and [misses] of server.js never decrease
    either. *)
Theorem eviction_bookkeeping (lru : Type)
    (lru_get : lru -> string -> option json * lru * list (string * json))
    (lru_set : lru -> string -> json -> lru * list (string * json))
    (lru_size : lru -> Z) (quotient_toFixed2 percent_toFixed2 : Z -> Z -> string) :
  (forall now key value cs,
     Instrumented.evictions (Instrumented.dispose now key value cs)
     = (Instrumented.evictions cs + 1)%Z /\
     Instrumented.lastEviction (Instrumented.dispose now key value cs) = Some now) /\
  (forall st now o,
     let st' := Instrumented.step lru_get lru_set st (now, o) in
     Instrumented.evictions (Instrumented.stats st')
     = (Instrumented.evictions (Instrumented.stats st)
        + Z.of_nat (List.length (Instrumented.disposed_by lru_get lru_set st o)))%Z /\
     (Instrumented.disposed_by lru_get lru_set st o <> [] ->
      Instrumented.lastEviction (Instrumented.stats st') = Some now)) /\
  (forall trace st,
     let st' := Instrumented.run lru_get lru_set trace st in
     (Instrumented.hits (Instrumented.stats st)
      <= Instrumented.hits (Instrumented.stats st'))%Z /\
     (Instrumented.misses (Instrumented.stats st)
      <= Instrumented.misses (Instrumented.stats st'))%Z /\
     (Instrumented.evictions (Instrumented.stats st)
      <= Instrumented.evictions (Instrumented.stats st'))%Z) /\
  (forall st now,
     let r := Instrumented.cache_stats lru_size quotient_toFixed2 percent_toFixed2 st in
     status r = 200%Z /\
     prop "hits" (body r) = Some (JV (Number (Num (Instrumented.hits (Instrumented.stats st))))) /\
     prop "misses" (body r)
     = Some (JV (Number (Num (Instrumented.misses (Instrumented.stats st))))) /\
     prop "evictions" (body r)
     = Some (JV (Number (Num (Instrumented.evictions (Instrumented.stats st))))) /\
     prop "lastEviction" (body r)
     = Some (JV (match Instrumented.lastEviction (Instrumented.stats st) with
                 | Some t => Str t
                 | None => Null
                 end)) /\
     Instrumented.step lru_get lru_set st (now, Instrumented.ReadStats) = st) /\
  (forall (lru' : Type) (get : lru' -> string -> option json * lru')
          (set : lru' -> string -> json -> lru') (size : lru' -> Z)
          key value (st : Server.state lru'),
     (Server.hits (Server.stats st)
      <= Server.hits (Server.stats (snd (Server.getFromCache get key st))))%Z /\
     (Server.misses (Server.stats st)
      <= Server.misses (Server.stats (snd (Server.getFromCache get key st))))%Z /\
     Server.hits (Server.stats (Server.setInCache set size key value st))
     = Server.hits (Server.stats st) /\
     Server.misses (Server.stats (Server.setInCache set size key value st))
     = Server.misses (Server.stats st)).
Proof.
  split; [intros; split; reflexivity|].
  split.
  { intros st now o. destruct (step_counts lru lru_get lru_set st now o) as (E & S & _).
    split; assumption. }
  split; [intros trace st; apply run_monotone|].
  split; [intros st now; repeat split; reflexivity|].
  intros lru' get set size key value st.
  apply (server_stats_monotone lru' get set size key value st).
Qed.

(** A cache of two slots: writing a third key evicts the least recently
    used one, counted once and stamped with the time of that write. *)
Example two_slot_trace :
  let st := Instrumented.run Instrumented.bounded_get (Instrumented.bounded_set 2)
              sample_trace two_slots in
  map fst (Instrumented.cache st) = ["c"; "a"] /\
  Instrumented.hits (Instrumented.stats st) = 1%Z /\
  Instrumented.misses (Instrumented.stats st) = 1%Z /\
  Instrumented.evictions (Instrumented.stats st) = 1%Z /\
  Instrumented.lastEviction (Instrumented.stats st) = Some "2024-01-01T00:00:04.000Z".
Proof. vm_compute. repeat split. Qed.

(** The third write of the sample trace evicts one entry. *)
Lemma eviction_bookkeeping_witness :
  let st := Instrumented.run Instrumented.bounded_get (Instrumented.bounded_set 2)
              (firstn 3 sample_trace) two_slots in
  let now := "2024-01-01T00:00:04.000Z" in
  let write := Instrumented.Put "c" (JArr []) in
  Instrumented.disposed_by Instrumented.bounded_get (Instrumented.bounded_set 2) st write
    <> [] /\
  Instrumented.lastEviction
    (Instrumented.stats
       (Instrumented.step Instrumented.bounded_get (Instrumented.bounded_set 2)
          st (now, write)))
  = Some now.
Proof.
  intros st now write.
  assert (N : Instrumented.disposed_by Instrumented.bounded_get
                (Instrumented.bounded_set 2) st write <> []) by (vm_compute; discriminate).
  split; [exact N|].
  exact (proj2 (proj1 (proj2
           (eviction_bookkeeping Instrumented.bounded
              Instrumented.bounded_get (Instrumented.bounded_set 2)
              Instrumented.bounded_size (fun _ _ => "0.00") (fun _ _ => "0.00")))
           st now write) N).
Defined.

(* ----------------------------------------------------------------- *)
(** ** buildQuery binds every filter value *)























(** The statement written for the hostile request. *)
Example hostile_statement :
  Server.text (Server.buildQuery (Server.parse hostile_request) "bookaway_trips")
  = "SELECT *, (SELECT COUNT(*) FROM bookaway_trips WHERE (from_location IN ($1,$2)) AND (to_location IN ($3)) AND (transport_type IN ($4,$5)) AND (operator_name IN ($6)) AND DATE(travel_date) = $7 AND travel_date BETWEEN $8 AND $9) as total_count FROM bookaway_trips WHERE (from_location IN ($1,$2)) AND (to_location IN ($3)) AND (transport_type IN ($4,$5)) AND (operator_name IN ($6)) AND DATE(travel_date) = $7 AND travel_date BETWEEN $8 AND $9 ORDER BY price_inr DESC LIMIT $10 OFFSET $11".
Proof. reflexivity. Qed.

(* ----------------------------------------------------------------- *)
(** ** The cache key of GET /api/combined-trips *)

(** C2, as stated, fails: origin A,B and origin B,A are the same
    selection in two orders and get two keys. *)
Lemma cacheKey_depends_on_value_order :
  same_selections (Server.parse origin_A_B) (Server.parse origin_B_A) /\
  Server.cacheKey (Server.parse origin_A_B) <> Server.cacheKey (Server.parse origin_B_A).
Proof.
  split.
  - repeat split; try reflexivity; try apply perm_nil. apply perm_swap.
  - vm_compute. discriminate.
Qed.

(** Quoting can be read back, so quoted texts are told apart. *)
Lemma unescape_escape_char (c : ascii) (r : string) :
  unescape_char (escape_char c ++ r) = Some (c, r).
Proof. destruct c as [[] [] [] [] [] [] [] []]; reflexivity. Qed.

Lemma unescape_closing (r : string) : unescape_char (String dquote r) = None.
Proof. reflexivity. Qed.

Lemma escape_prefix_free (s1 s2 r1 r2 : string) :
  escape s1 ++ String dquote r1 = escape s2 ++ String dquote r2 ->
  s1 = s2 /\ r1 = r2.
Proof.
  revert s2. induction s1 as [|c1 s1 IH]; intros [|c2 s2] H; cbn [escape] in H.
  - simpl in H. injection H as ->. now split.
  - rewrite append_assoc in H. apply (f_equal unescape_char) in H.
    rewrite unescape_escape_char in H. simpl in H. discriminate.
  - rewrite append_assoc in H. apply (f_equal unescape_char) in H.
    rewrite unescape_escape_char in H. simpl in H. discriminate.
  - rewrite !append_assoc in H. apply (f_equal unescape_char) in H.
    rewrite !unescape_escape_char in H. injection H as -> H.
    destruct (IH _ H) as [-> ->]. now split.
Qed.

Lemma quote_prefix_free (s1 s2 r1 r2 : string) :
  quote s1 ++ r1 = quote s2 ++ r2 -> s1 = s2 /\ r1 = r2.
Proof.
  unfold quote. cbn [append]. rewrite !append_assoc. cbn [append].
  intros [= H]. now apply escape_prefix_free.
Qed.

Lemma concat_cons (x : string) (xs : list string) :
  String.concat EmptyString (x :: xs) = x ++ String.concat EmptyString xs.
Proof. destruct xs; simpl; [now rewrite append_empty_r | reflexivity]. Qed.

Lemma append_inj_l (a x y : string) : a ++ x = a ++ y -> x = y.
Proof. induction a as [|c a IH]; simpl; [auto | intros [= H]; auto]. Qed.

Lemma more_elements_cons (x : string) (xs : list string) (rest : string) :
  more_elements (x :: xs) rest = "," ++ quote x ++ more_elements xs rest.
Proof.
  unfold more_elements. cbn [map]. rewrite concat_cons.
  now rewrite !append_assoc.
Qed.

Lemma more_elements_inj (xs ys : list string) (r1 r2 : string) :
  more_elements xs r1 = more_elements ys r2 -> xs = ys /\ r1 = r2.
Proof.
  revert ys. induction xs as [|x xs IH]; intros [|y ys] H;
    rewrite ?more_elements_cons in H.
  - unfold more_elements in H. simpl in H. injection H as ->. now split.
  - unfold more_elements in H at 1. simpl in H. discriminate.
  - unfold more_elements in H at 2. simpl in H. discriminate.
  - apply append_inj_l in H. apply quote_prefix_free in H as [-> H].
    destruct (IH _ H) as [-> ->]. now split.
Qed.

Lemma array_text_elements (xs : list string) (rest : string) :
  array_text xs ++ rest
  = "[" ++ match xs with
           | [] => "]" ++ rest
           | x :: xs' => quote x ++ more_elements xs' rest
           end.
Proof.
  unfold array_text, join, more_elements. destruct xs as [|x xs]; cbn [map].
  - reflexivity.
  - now rewrite !append_assoc.
Qed.

(** The text of an array of strings tells where it ends and what its
    elements are, in order. *)
Lemma array_text_prefix_free (xs ys : list string) (r1 r2 : string) :
  array_text xs ++ r1 = array_text ys ++ r2 -> xs = ys /\ r1 = r2.
Proof.
  rewrite !array_text_elements. intros H. apply append_inj_l in H.
  destruct xs as [|x xs], ys as [|y ys].
  - simpl in H. injection H as ->. now split.
  - unfold quote in H. simpl in H. discriminate.
  - unfold quote in H. simpl in H. discriminate.
  - apply quote_prefix_free in H as [-> H].
    apply more_elements_inj in H as [-> ->]. now split.
Qed.

Lemma stringify_strings (xs : list string) :
  stringify (Server.strings xs) = array_text xs.
Proof.
  unfold Server.strings, array_text.
  change (stringify (JArr ?items)) with ("[" ++ join "," (map stringify items) ++ "]").
  rewrite map_map. reflexivity.
Qed.

Lemma stringify_object (fs : list (string * json)) :
  stringify (JObj fs) = "{" ++ join "," (members_text fs) ++ "}".
Proof. reflexivity. Qed.

Lemma members_text_array (k : string) (xs : list string) (r : list (string * json)) :
  members_text ((k, Server.strings xs) :: r)
  = (quote k ++ ":" ++ array_text xs) :: members_text r.
Proof. rewrite <- stringify_strings. reflexivity. Qed.

(** The key spelled out: prefix, the four selections in the order of
    the object literal, then the rest. *)
Lemma cacheKey_text (l : Server.locals) :
  Server.cacheKey l
  = "combined_trips_" ++ "{"
      ++ quote "origins" ++ ":" ++ array_text (Server.origins l)
      ++ "," ++ quote "destinations" ++ ":" ++ array_text (Server.destinations l)
      ++ "," ++ quote "operatorNames" ++ ":" ++ array_text (Server.operatorNames l)
      ++ "," ++ quote "transportTypes" ++ ":" ++ array_text (Server.transportTypes l)
      ++ key_rest l.
Proof.
  unfold Server.cacheKey, Server.cacheKey_object, key_rest.
  rewrite stringify_object, !members_text_array.
  unfold join. cbn [map]. rewrite !concat_cons.
  now rewrite !append_assoc.
Qed.

Lemma assoc_permutation {A : Type} (k : string) (l1 l2 : list (string * A)) :
  NoDup (map fst l1) -> Permutation l1 l2 -> assoc k l1 = assoc k l2.
Proof.
  intros N P. induction P as [|[k1 v1] l l' P IH|[k1 v1] [k2 v2] l|l l' l'' P1 IH1 P2 IH2].
  - reflexivity.
  - cbn [assoc]. inversion N; subst. now rewrite IH.
  - cbn [assoc].
    destruct (String.eqb_spec k k2) as [->|]; [|reflexivity].
    destruct (String.eqb_spec k2 k1) as [->|]; [|reflexivity].
    inversion N as [|? ? Hin _]; subst. exfalso. apply Hin. now left.
  - rewrite IH1 by assumption. apply IH2.
    apply (Permutation_NoDup (Permutation_map fst P1) N).
Qed.

Lemma query_of_permutation (pairs1 pairs2 : list (string * string)) :
  NoDup (map fst pairs1) -> Permutation pairs1 pairs2 ->
  query_of pairs1 = query_of pairs2.
Proof.
  intros N P. unfold query_of.
  now rewrite !(assoc_permutation _ pairs1 pairs2 N P).
Qed.

(** C2 (amended).  The cache key does not depend on the order in which
    the query parameters are written, but it spells out every
    multi-value selection in the order of the request: two requests
    have the same key only if origins, destinations, operator names
    and transport types each list the same values in the same order. *)
Theorem cacheKey_order_sensitivity
    (pairs1 pairs2 : list (string * string)) (a b : Server.locals) :
  (NoDup (map fst pairs1) -> Permutation pairs1 pairs2 ->
   Server.cacheKey (Server.parse (query_of pairs1))
   = Server.cacheKey (Server.parse (query_of pairs2))) /\
  (Server.cacheKey a = Server.cacheKey b ->
   Server.origins a = Server.origins b /\
   Server.destinations a = Server.destinations b /\
   Server.operatorNames a = Server.operatorNames b /\
   Server.transportTypes a = Server.transportTypes b).
Proof.
  split.
  - intros N P. now rewrite (query_of_permutation _ _ N P).
  - rewrite !cacheKey_text. intros H.
    do 4 apply append_inj_l in H.
    apply array_text_prefix_free in H as [O H].
    do 3 apply append_inj_l in H.
    apply array_text_prefix_free in H as [D H].
    do 3 apply append_inj_l in H.
    apply array_text_prefix_free in H as [N H].
    do 3 apply append_inj_l in H.
    apply array_text_prefix_free in H as [T _].
    now repeat split.
Qed.

(** The same parameters written in two orders get one key, and that
    key pins the origins to A then B. *)
Lemma cacheKey_order_sensitivity_witness :
  NoDup (map fst origin_first) /\
  Permutation origin_first page_first /\
  Server.cacheKey (Server.parse (query_of origin_first))
  = Server.cacheKey (Server.parse (query_of page_first)) /\
  Server.origins (Server.parse (query_of page_first)) = ["A"; "B"].
Proof.
  assert (N : NoDup (map fst origin_first)).
  { repeat constructor; simpl; intuition discriminate. }
  assert (P : Permutation origin_first page_first).
  { unfold origin_first, page_first.
    eapply perm_trans; [apply perm_swap|].
    eapply perm_trans; [apply perm_skip, perm_swap|].
    apply perm_swap. }
  pose proof (cacheKey_order_sensitivity origin_first page_first
                (Server.parse (query_of origin_first))
                (Server.parse (query_of page_first))) as [K O].
  split; [exact N|]. split; [exact P|]. split; [exact (K N P)|].
  destruct (O (K N P)) as [<- _]. reflexivity.
Defined.

(* ================================================================= *)
(** * Further properties *)

(* ----------------------------------------------------------------- *)
(** ** Texts: separators, decimal numbers *)

Lemma occurs_app (c : ascii) (x y : string) :
  occurs c (x ++ y) = occurs c x || occurs c y.
Proof.
  induction x as [|a x IH]; [reflexivity|].
  simpl. rewrite IH. now rewrite orb_assoc.
Qed.

Lemma within_free (A s : string) (c : ascii) :
  within A s = true -> occurs c A = false -> free_of c s.
Proof.
  unfold free_of. intros W N. induction s as [|a s IH]; [reflexivity|].
  simpl in *. apply andb_true_iff in W as [Wa Ws].
  rewrite (IH Ws), orb_false_r.
  destruct (Ascii.eqb_spec c a) as [->|]; [congruence | reflexivity].
Qed.


Lemma within_decimal_uint (d : Decimal.uint) :
  within decimal_alphabet (NilEmpty.string_of_uint d) = true.
Proof. induction d; simpl; try exact IHd; reflexivity. Qed.

Lemma within_decimal (z : Z) : within decimal_alphabet (Z_to_string z) = true.
Proof.
  unfold Z_to_string, NilZero.string_of_int, NilZero.string_of_uint.
  destruct (Z.to_int z) as [d|d]; destruct d eqn:U; try reflexivity;
    rewrite <- U; try (cbn [within]; rewrite <- U); try apply within_decimal_uint.
  all: apply andb_true_iff; split; [reflexivity | apply within_decimal_uint].
Qed.

Lemma to_int_not_nil (z : Z) : Z.to_int z <> Decimal.Pos Decimal.Nil /\ Z.to_int z <> Decimal.Neg Decimal.Nil.
Proof.
  destruct z as [|p|p]; simpl; split; try discriminate;
    intros [= H]; now apply (DecimalPos.Unsigned.to_uint_nonnil p).
Qed.

(** The decimal text of an integer tells the integer. *)
Lemma Z_to_string_inj (a b : Z) : Z_to_string a = Z_to_string b -> a = b.
Proof.
  unfold Z_to_string. intros H.
  apply DecimalZ.to_int_inj.
  destruct (to_int_not_nil a) as [A1 A2], (to_int_not_nil b) as [B1 B2].
  pose proof (NilZero.isi _ A1 A2) as Ia. pose proof (NilZero.isi _ B1 B2) as Ib.
  rewrite H in Ia. rewrite Ia in Ib. now injection Ib.
Qed.


(* ----------------------------------------------------------------- *)
(** ** The combined-trips cache key identifies the filter spec *)






(* ----------------------------------------------------------------- *)
(** ** split and join *)

Lemma split_nonempty (sep : ascii) (s : string) : split sep s <> [].
Proof.
  destruct s as [|c r]; simpl; [discriminate|].
  destruct (Ascii.eqb c sep); [discriminate|].
  destruct (split sep r); discriminate.
Qed.

Lemma join_cons2 (sep x y : string) (ys : list string) :
  join sep (x :: y :: ys) = x ++ sep ++ join sep (y :: ys).
Proof.
  unfold join. cbn [map]. rewrite concat_cons. now rewrite append_assoc.
Qed.

(** Joining what [split] cut gives the text back. *)
Lemma join_split (sep : ascii) (s : string) :
  join (String sep EmptyString) (split sep s) = s.
Proof.
  induction s as [|c r IH]; [reflexivity|].
  cbn [split]. pose proof (split_nonempty sep r) as N.
  destruct (Ascii.eqb_spec c sep) as [->|_];
    destruct (split sep r) as [|h t]; try contradiction.
  - rewrite join_cons2, IH. reflexivity.
  - destruct t as [|y t].
    + simpl in *. now rewrite append_empty_r in *; subst.
    + rewrite join_cons2 in IH. rewrite join_cons2, <- IH. reflexivity.
Qed.

Lemma split_free (sep : ascii) (x : string) :
  free_of sep x -> split sep x = [x].
Proof.
  unfold free_of. induction x as [|c x IH]; [reflexivity|].
  simpl. intros F. apply orb_false_iff in F as [C F].
  rewrite Ascii.eqb_sym, C. now rewrite (IH F).
Qed.

Lemma split_app_sep (sep : ascii) (x r : string) :
  free_of sep x -> split sep (x ++ String sep r) = x :: split sep r.
Proof.
  unfold free_of. induction x as [|c x IH]; simpl.
  - now rewrite Ascii.eqb_refl.
  - intros F. apply orb_false_iff in F as [C F].
    rewrite Ascii.eqb_sym, C. now rewrite (IH F).
Qed.

(** Splitting what [join] glued gives the pieces back, when no piece
    holds the separator. *)
Lemma split_join (sep : ascii) (xs : list string) :
  xs <> [] -> Forall (free_of sep) xs ->
  split sep (join (String sep EmptyString) xs) = xs.
Proof.
  intros N F. induction F as [|x xs X F IH]; [contradiction|].
  destruct xs as [|y ys].
  - unfold join. simpl. rewrite append_empty_r. now apply split_free.
  - rewrite join_cons2. cbn [append]. rewrite split_app_sep by assumption.
    f_equal. apply IH. discriminate.
Qed.

Lemma split_pieces_free (sep : ascii) (s : string) : Forall (free_of sep) (split sep s).
Proof.
  induction s as [|c r IH]; [repeat constructor|].
  cbn [split]. destruct (Ascii.eqb_spec c sep) as [->|N].
  - constructor; [reflexivity | exact IH].
  - destruct (split sep r) as [|h t]; [repeat constructor|].
    + unfold free_of. simpl. apply orb_false_iff. split; [|reflexivity].
      apply Ascii.eqb_neq. congruence.
    + inversion IH; subst. constructor; [|assumption].
      unfold free_of in *. simpl. apply orb_false_iff. split; [|assumption].
      apply Ascii.eqb_neq. congruence.
Qed.

(** X12.  A travel date of three parts, day-month-year, is bound as
    year-month-day, and doing it twice gives the date back. *)
Theorem formattedDate_reverses (s day month year : string) :
  split "-" s = [day; month; year] ->
  Server.formattedDate s = year ++ "-" ++ month ++ "-" ++ day /\
  Server.formattedDate (Server.formattedDate s) = s.
Proof.
  intros E.
  assert (F : Server.formattedDate s = year ++ "-" ++ month ++ "-" ++ day).
  { unfold Server.formattedDate. now rewrite E. }
  split; [exact F|].
  pose proof (split_pieces_free "-" s) as P. rewrite E in P.
  inversion P as [|? ? Fd P1]; subst. inversion P1 as [|? ? Fm P2]; subst.
  inversion P2 as [|? ? Fy _]; subst.
  assert (E' : split "-" (Server.formattedDate s) = [year; month; day]).
  { rewrite F.
    change (year ++ "-" ++ month ++ "-" ++ day)
      with (year ++ String "-" (month ++ String "-" day)).
    rewrite !split_app_sep by assumption. now rewrite split_free. }
  unfold Server.formattedDate at 1. rewrite E'. cbn [nth].
  rewrite <- (join_split "-" s), E.
  rewrite !join_cons2. unfold join. simpl. now rewrite append_empty_r.
Qed.

Lemma formattedDate_reverses_witness :
  split "-" "25-12-2024" = ["25"; "12"; "2024"] /\
  Server.formattedDate "25-12-2024" = "2024-12-25" /\
  Server.formattedDate (Server.formattedDate "25-12-2024") = "25-12-2024".
Proof.
  split; [reflexivity|].
  exact (formattedDate_reverses "25-12-2024" "25" "12" "2024" eq_refl).
Defined.

(* ----------------------------------------------------------------- *)
(** ** The response cache as the handlers use it *)

Lemma keeping_retains : retains keeping_get keeping_set.
Proof.
  intros c key value. unfold keeping_get, keeping_set. simpl.
  now rewrite String.eqb_refl.
Qed.

Section CacheReplay.

Variable StringToNumber : string -> num.
Variable lru : Type.
Variable lru_get : lru -> string -> option json * lru.
Variable lru_set : lru -> string -> json -> lru.
Variable lru_size : lru -> Z.

Local Abbreviation combined_trips :=
  (Server.combined_trips StringToNumber lru_get lru_set lru_size).
Local Abbreviation provider_trips := (Server.provider_trips lru_get lru_set lru_size).
Local Abbreviation search := (Endpoints.search lru_get lru_set lru_size).
Local Abbreviation filters := (Endpoints.filters lru_get lru_set lru_size).
Local Abbreviation getFromCache := (Server.getFromCache lru_get).
Local Abbreviation setInCache := (Server.setInCache lru_set lru_size).

Lemma getFromCache_miss (key : string) (st : Server.state lru) :
  misses_cache lru_get st key ->
  served (fst (getFromCache key st)) = None /\
  Server.cache (snd (getFromCache key st)) = snd (lru_get (Server.cache st) key) /\
  Server.currentSize (Server.stats (snd (getFromCache key st)))
  = Server.currentSize (Server.stats st).
Proof.
  unfold misses_cache, Server.getFromCache.
  destruct (lru_get (Server.cache st) key) as [[v|] c]; simpl; auto.
Qed.

Lemma getFromCache_hit (key : string) (st : Server.state lru) (doc : json) :
  fst (lru_get (Server.cache st) key) = Some doc ->
  fst (getFromCache key st) = Some doc /\
  Server.hits (Server.stats (snd (getFromCache key st)))
  = (Server.hits (Server.stats st) + 1)%Z /\
  Server.misses (Server.stats (snd (getFromCache key st)))
  = Server.misses (Server.stats st).
Proof.
  unfold Server.getFromCache.
  destruct (lru_get (Server.cache st) key) as [[v|] c]; simpl; [|discriminate].
  intros [= ->]. auto.
Qed.

Lemma getFromCache_only_read (key : string) (st : Server.state lru) :
  only_read lru_get st (snd (getFromCache key st)).
Proof.
  unfold only_read, Server.getFromCache.
  destruct (lru_get (Server.cache st) key) as [[v|] c] eqn:E; simpl;
    (split; [reflexivity | right; exists key; now rewrite E]).
Qed.

Lemma only_read_refl (st : Server.state lru) : only_read lru_get st st.
Proof. split; [reflexivity | now left]. Qed.

(** What a handler does with a key it serves from: answer the cached
    document when the read finds a truthy one, else compute. *)
Lemma replay_after_store (key : string) (doc : json) (st : Server.state lru) :
  retains lru_get lru_set ->
  truthy_json doc = true ->
  let st' := snd (getFromCache key (setInCache key doc st)) in
  getFromCache key (setInCache key doc st) = (Some doc, st') /\
  served (Some doc) = Some doc /\
  Server.hits (Server.stats st') = (Server.hits (Server.stats st) + 1)%Z /\
  Server.misses (Server.stats st') = Server.misses (Server.stats st).
Proof.
  intros R T st'.
  assert (G : fst (lru_get (Server.cache (setInCache key doc st)) key) = Some doc)
    by apply R.
  destruct (getFromCache_hit key (setInCache key doc st) doc G) as (V & H & M).
  repeat split.
  - subst st'. destruct (getFromCache key (setInCache key doc st)); simpl in *.
    now subst.
  - simpl. now rewrite T.
  - exact H.
  - exact M.
Qed.

Lemma combined_trips_computes (q : Server.query) (db : Server.pools)
    (st : Server.state lru) :
  misses_cache lru_get st (Server.cacheKey (Server.parse q)) ->
  combined_trips q db st
  = (ok (Server.with_success (merged StringToNumber q db)),
     setInCache (Server.cacheKey (Server.parse q)) (merged StringToNumber q db)
       (snd (getFromCache (Server.cacheKey (Server.parse q)) st))).
Proof.
  intros M. destruct (getFromCache_miss _ _ M) as (S & _).
  unfold Server.combined_trips. cbv zeta.
  destruct (getFromCache (Server.cacheKey (Server.parse q)) st) as [cached st1].
  simpl in S. rewrite S. reflexivity.
Qed.

Lemma lookup_pool_db (db db' : Server.pools) (provider : string) (p : pool) :
  Server.lookup_pool db provider = Server.IsPool p ->
  exists p', Server.lookup_pool db' provider = Server.IsPool p'.
Proof.
  unfold Server.lookup_pool.
  destruct (String.eqb provider "12go"); [eauto|].
  destruct (String.eqb provider "bookaway"); [eauto|].
  destruct (includes Server.object_prototype_keys provider); discriminate.
Qed.

(** On a miss the listing handler either stores the document it
    answers with, or answers an error and writes nothing. *)
Lemma provider_trips_outcome (provider : string) (page limit : option string)
    (db : Server.pools) (st : Server.state lru) :
  let key := Server.provider_cacheKey provider (Server.provider_page page)
               (Server.provider_limit limit) in
  misses_cache lru_get st key ->
  (exists doc p,
     truthy_json doc = true /\
     Server.lookup_pool db provider = Server.IsPool p /\
     provider_trips provider page limit db st
     = (ok doc, setInCache key doc (snd (getFromCache key st)))) \/
  (status (fst (provider_trips provider page limit db st)) <> 200%Z /\
   only_read lru_get st (snd (provider_trips provider page limit db st))).
Proof.
  intros key M. destruct (getFromCache_miss _ _ M) as (S & _).
  pose proof (getFromCache_only_read key st) as O.
  unfold Server.provider_trips. cbv zeta. fold key.
  destruct (Server.lookup_pool db provider) as [p| |] eqn:L.
  - destruct (getFromCache key st) as [cached st1]. simpl in S, O. rewrite S.
    match goal with
    | |- context [p ?a []] => destruct (p a []) as [[|first rest]|message]
    end;
      try (right; split; [simpl; discriminate | exact O]);
      match goal with
      | |- context [p ?a ?b] => destruct (p a b) as [trips|message']
      end;
      try (right; split; [simpl; discriminate | exact O]).
    left. eexists. exists p. split; [|split; reflexivity]. reflexivity.
  - destruct (getFromCache key st) as [cached st1]. simpl in S, O. rewrite S.
    right; split; [simpl; discriminate | exact O].
  - right; split; [simpl; discriminate | apply only_read_refl].
Qed.

(** X3.  A provider listing is stored exactly when it is answered with 200:
    the repeated request then gets the very same response, whatever
    the database holds by then, and an error response leaves the cache
    unwritten. *)
Theorem provider_trips_caches_successes_only (provider : string)
    (page limit : option string) (db : Server.pools) (st : Server.state lru) :
  misses_cache lru_get st
    (Server.provider_cacheKey provider (Server.provider_page page)
       (Server.provider_limit limit)) ->
  let first := provider_trips provider page limit db st in
  (status (fst first) = 200%Z ->
   retains lru_get lru_set ->
   forall db',
     let second := provider_trips provider page limit db' (snd first) in
     fst second = fst first /\
     Server.hits (Server.stats (snd second))
     = (Server.hits (Server.stats (snd first)) + 1)%Z) /\
  (status (fst first) <> 200%Z -> only_read lru_get st (snd first)).
Proof.
  intros M first. subst first.
  destruct (provider_trips_outcome provider page limit db st M)
    as [(doc & p & T & L & E) | (N & O)].
  - split; [|rewrite E; simpl; congruence].
    intros _ R db' second. subst second. rewrite E. cbn [fst snd].
    set (key := Server.provider_cacheKey _ _ _) in *.
    set (st1 := snd (getFromCache key st)).
    destruct (replay_after_store key doc st1 R T) as (G & Sv & H & _).
    destruct (lookup_pool_db db db' provider p L) as (p' & L').
    unfold Server.provider_trips. cbv zeta. fold key. rewrite L', G, Sv.
    split; [reflexivity | exact H].
  - split; [intros E; contradiction | intros _; exact O].
Qed.

End CacheReplay.

(* ----------------------------------------------------------------- *)
(** ** Requests whose parameters are strings, among all requests *)

Section RawFacts.

Variable prepareValue : json -> prim.

Lemma parse_texts (q : Server.query) :
  Raw.parse (Raw.texts q) = inl (as_raw (Server.parse q)).
Proof.
  unfold Raw.parse, Raw.texts, as_raw, Server.parse, Server.parse_pageNum,
    Server.parse_limitNum.
  cbn [Raw.q_origin Raw.q_destination Raw.q_operator_name Raw.q_transport_type
       Raw.q_timeline Raw.q_start_date Raw.q_end_date Raw.q_travel_date
       Raw.q_page Raw.q_limit Raw.q_sort_by Raw.q_sort_order].
  destruct q as [o d n t tl sd ed td pg lm sb so].
  cbn [Server.q_origin Server.q_destination Server.q_operator_name
       Server.q_transport_type Server.q_timeline Server.q_start_date
       Server.q_end_date Server.q_travel_date Server.q_page Server.q_limit
       Server.q_sort_by Server.q_sort_order].
  destruct o, d, n, t, pg, lm, sb, so; reflexivity.
Qed.

Lemma cacheKey_as_raw (l : Server.locals) : Raw.cacheKey (as_raw l) = Server.cacheKey l.
Proof.
  unfold Raw.cacheKey, Server.cacheKey, Raw.cacheKey_object, Server.cacheKey_object, as_raw.
  cbn [Raw.origins Raw.destinations Raw.transportTypes Raw.operatorNames Raw.timeline
       Raw.start_date Raw.end_date Raw.travel_date Raw.pageNum Raw.limitNum
       Raw.sort_by Raw.sort_order Raw.value].
  assert (O : forall o, Raw.optional (option_map Raw.Text o) = Server.optional o)
    by (intros [s|]; reflexivity).
  now rewrite !O.
Qed.

Lemma filters_as_raw (l : Server.locals) (tableName : string) :
  Raw.filters prepareValue (as_raw l) tableName = inl (Server.filters l tableName).
Proof.
  unfold Raw.filters, Server.filters, as_raw.
  cbn [Raw.origins Raw.destinations Raw.transportTypes Raw.operatorNames Raw.timeline
       Raw.start_date Raw.end_date Raw.travel_date].
  assert (T : forall d b, Raw.add_travel_date (option_map Raw.Text d) b
                          = Server.add_travel_date d b).
  { intros [d|] b; [|reflexivity]. destruct d; reflexivity. }
  rewrite T.
  generalize (Server.add_travel_date (Server.travel_date l)
                (Server.add_in "operator_name" (Server.operatorNames l)
                   (Server.add_in "transport_type" (Server.transportTypes l)
                      (Server.add_in
                         (if String.eqb tableName "trips" then "destination"
                          else "to_location") (Server.destinations l)
                         (Server.add_in
                            (if String.eqb tableName "trips" then "origin"
                             else "from_location") (Server.origins l)
                            Server.builder0))))).
  intros b. unfold Raw.add_dates, Server.add_dates.
  destruct (Server.start_date l) as [[|c s]|], (Server.end_date l) as [[|c' e]|],
    (Server.timeline l) as [[|c'' t]|]; cbn; try reflexivity;
    destruct (Server.timeline_condition _); reflexivity.
Qed.

Lemma buildQuery_as_raw (l : Server.locals) (tableName : string) :
  Raw.buildQuery prepareValue (as_raw l) tableName = inl (Server.buildQuery l tableName).
Proof.
  unfold Raw.buildQuery. rewrite filters_as_raw. reflexivity.
Qed.

Variable StringToNumber : string -> num.
Variable lru : Type.
Variable lru_get : lru -> string -> option json * lru.
Variable lru_set : lru -> string -> json -> lru.
Variable lru_size : lru -> Z.

Local Abbreviation raw_combined_trips :=
  (Raw.combined_trips prepareValue StringToNumber lru_get lru_set lru_size).

(** On a request whose parameters are all strings the handler is the
    one of [Server]. *)
Lemma combined_trips_texts (q : Server.query) (db : Server.pools) (st : Server.state lru) :
  raw_combined_trips (Raw.texts q) db st
  = Server.combined_trips StringToNumber lru_get lru_set lru_size q db st.
Proof.
  unfold Raw.combined_trips, Server.combined_trips. cbv zeta.
  rewrite parse_texts, cacheKey_as_raw.
  destruct (Server.getFromCache lru_get _ st) as [cached st1].
  destruct (served cached); [reflexivity|].
  rewrite !buildQuery_as_raw. reflexivity.
Qed.

End RawFacts.

Section RawSort.

Variable prepareValue : json -> prim.

Lemma raw_safeSortBy_whitelisted (sort_by : Raw.param) :
  In (Raw.safeSortBy sort_by) Server.sort_columns.
Proof.
  destruct sort_by as [s|v]; [apply safeSortBy_whitelisted|simpl; auto].
Qed.

(** The statement text ends in the ORDER BY clause and the page. *)
Lemma raw_buildQuery_order_by (l : Raw.locals) (tableName direction : string)
    (b : Server.built) :
  Raw.safeSortOrder (Raw.sort_order l) = inl direction ->
  Raw.buildQuery prepareValue l tableName = inl b ->
  exists select_where limit_offset,
    Server.text b = select_where ++ raw_order_by l direction ++ limit_offset.
Proof.
  unfold Raw.buildQuery. intros D.
  destruct (Raw.filters prepareValue l tableName) as [f|e]; [|discriminate].
  rewrite D. cbv zeta.
  match goal with
  | |- inl ?x = inl b -> _ =>
      intros B; assert (E : b = x) by congruence; clear B; subst b
  end.
  cbn [Server.text]. unfold raw_order_by.
  match goal with
  | |- context [match Server.conditions f with [] => ?x | _ :: _ => ?y end] =>
      exists (match Server.conditions f with [] => x | _ :: _ => y end)
  end.
  exists (" LIMIT $" ++ nat_to_string (Server.paramIndex f)
          ++ " OFFSET $" ++ nat_to_string (Server.paramIndex f + 1)).
  now rewrite !append_assoc.
Qed.

(** [buildQuery] returns unless the direction or a lone timeline is an
    array or object. *)
Lemma raw_buildQuery_returns (l : Raw.locals) (tableName direction : string) :
  Raw.safeSortOrder (Raw.sort_order l) = inl direction ->
  (forall v, Raw.timeline l <> Some (Raw.Structured v)) ->
  exists b, Raw.buildQuery prepareValue l tableName = inl b.
Proof.
  intros D T. unfold Raw.buildQuery, Raw.filters.
  match goal with
  | |- context [Raw.add_dates _ ?s ?e ?t ?b] => generalize b; intros b0
  end.
  unfold Raw.add_dates.
  destruct (Raw.truthy_param (Raw.start_date l) && Raw.truthy_param (Raw.end_date l)).
  - rewrite D. eauto.
  - destruct (Raw.timeline l) as [[t|v]|] eqn:E.
    + destruct (Raw.truthy_param (Some (Raw.Text t)));
        [destruct (Server.timeline_condition t)|]; rewrite D; eauto.
    + exfalso. now apply (T v).
    + simpl. rewrite D. eauto.
Qed.

End RawSort.

(** C6, as stated, fails twice over: a sort column outside the whitelist
    with direction DESC sorts by departure_time descending, not by the
    default sort; and a direction that arrives as an array
    ([?sort_order=asc&sort_order=desc]) is outside the whitelist, yet
    the request is answered 500 with the TypeError's message. *)
Lemma sort_fallback_is_neither_joint_nor_total :
  ~ (forall sort_by sort_order,
       includes Server.sort_columns sort_by = false \/
       includes Server.sort_directions (toUpperCase sort_order) = false ->
       Server.safeSortBy sort_by = "departure_time" /\
       Server.safeSortOrder sort_order = "ASC") /\
  (let r := fst (Raw.combined_trips as_json_text (fun _ => NaN)
                   always_miss_get always_miss_set always_miss_size
                   repeated_sort_order both_providers_up fresh_state) in
   status r = 500%Z /\
   body r = JObj [ ("success", JV (Bool false));
                   ("error", JV (Str "Failed to fetch combined trips data"));
                   ("details", JV (Str "sort_order.toUpperCase is not a function")) ]).
Proof.
  split; [exact sort_fallback_is_not_joint|].
  split; reflexivity.
Qed.

(** C6 (amended).  For a request whose sort_order is a string, column
    and direction fall back independently and the fallback raises no
    error: a sort_by that is not a whitelisted string is replaced by
    departure_time, a whitelisted one is used as given; a direction
    that is not ASC or DESC in any letter case is replaced by ASC, one
    that is, is used in upper case.  The ORDER BY clause of the
    statement is made of these two, so it names a whitelisted column
    and direction, and is the default sort when both are outside;
    [buildQuery] returns the statement unless a timeline that arrives
    as an array or object is consulted. *)
Theorem sort_whitelist_fallback (prepareValue : json -> prim) (l : Raw.locals)
    (tableName order : string) :
  Raw.sort_order l = Raw.Text order ->
  let column := Raw.safeSortBy (Raw.sort_by l) in
  let direction := Server.safeSortOrder order in
  Raw.safeSortOrder (Raw.sort_order l) = inl direction /\
  In column Server.sort_columns /\
  In direction Server.sort_directions /\
  (forall s, Raw.sort_by l = Raw.Text s -> In s Server.sort_columns -> column = s) /\
  ((forall s, Raw.sort_by l = Raw.Text s -> ~ In s Server.sort_columns) ->
   column = "departure_time") /\
  (In (toUpperCase order) Server.sort_directions -> direction = toUpperCase order) /\
  (~ In (toUpperCase order) Server.sort_directions -> direction = "ASC") /\
  (forall b, Raw.buildQuery prepareValue l tableName = inl b ->
     exists select_where limit_offset,
       Server.text b
       = select_where ++ " ORDER BY " ++ column ++ " " ++ direction ++ limit_offset) /\
  ((forall v, Raw.timeline l <> Some (Raw.Structured v)) ->
   exists b, Raw.buildQuery prepareValue l tableName = inl b) /\
  ((forall s, Raw.sort_by l = Raw.Text s -> ~ In s Server.sort_columns) ->
   ~ In (toUpperCase order) Server.sort_directions ->
   raw_order_by l direction = " ORDER BY departure_time ASC").
Proof.
  intros O column direction. subst column direction.
  assert (D : Raw.safeSortOrder (Raw.sort_order l) = inl (Server.safeSortOrder order))
    by now rewrite O.
  assert (C' : (forall s, Raw.sort_by l = Raw.Text s -> ~ In s Server.sort_columns) ->
               Raw.safeSortBy (Raw.sort_by l) = "departure_time").
  { intros H. destruct (Raw.sort_by l) as [s|v]; [|reflexivity].
    simpl. apply safeSortBy_default. now apply H. }
  split; [exact D|].
  split; [apply raw_safeSortBy_whitelisted|].
  split; [apply safeSortOrder_whitelisted|].
  split.
  { intros s E Hs. rewrite E. simpl. now apply safeSortBy_given. }
  split; [exact C'|].
  split; [apply safeSortOrder_given|].
  split; [apply safeSortOrder_default|].
  split.
  { intros b B.
    destruct (raw_buildQuery_order_by prepareValue l tableName _ b D B) as (sw & lo & E).
    exists sw, lo. rewrite E. unfold raw_order_by. now rewrite !append_assoc. }
  split; [now apply raw_buildQuery_returns with (direction := Server.safeSortOrder order)|].
  intros Hc Hd. unfold raw_order_by.
  now rewrite (C' Hc), (safeSortOrder_default _ Hd).
Qed.

(** The whitelist scenario: the sort column "; DROP TABLE trips" with no
    direction given falls back to the default sort. *)
Lemma sort_whitelist_fallback_witness :
  let q := Raw.texts (sorted_request (Some "; DROP TABLE trips") None) in
  let l := as_raw (Server.parse (sorted_request (Some "; DROP TABLE trips") None)) in
  Raw.parse q = inl l /\
  Raw.sort_order l = Raw.Text "ASC" /\
  Raw.safeSortBy (Raw.sort_by l) = "departure_time" /\
  (exists b,
     Raw.buildQuery as_json_text l "trips" = inl b /\
     Server.text b
     = "SELECT *, (SELECT COUNT(*) FROM trips ) as total_count FROM trips ORDER BY departure_time ASC LIMIT $1 OFFSET $2").
Proof.
  intros q l.
  assert (O : Raw.sort_order l = Raw.Text "ASC") by reflexivity.
  assert (N : forall s, Raw.sort_by l = Raw.Text s -> ~ In s Server.sort_columns).
  { intros s [= <-]. simpl. intros [E|[E|[E|[E|[]]]]]; discriminate. }
  split; [reflexivity|]. split; [exact O|]. split.
  - exact (proj1 (proj2 (proj2 (proj2 (proj2
      (sort_whitelist_fallback as_json_text l "trips" "ASC" O))))) N).
  - eexists. split; reflexivity.
Defined.

Section RawHandler.

Variable prepareValue : json -> prim.
Variable StringToNumber : string -> num.
Variable lru : Type.
Variable lru_get : lru -> string -> option json * lru.
Variable lru_set : lru -> string -> json -> lru.
Variable lru_size : lru -> Z.

Local Abbreviation raw_combined_trips :=
  (Raw.combined_trips prepareValue StringToNumber lru_get lru_set lru_size).

(** On a miss the handler either stores the document it answers with,
    or answers 500 and writes nothing. *)
Lemma raw_combined_trips_outcome (q : Raw.query) (l : Raw.locals)
    (db : Server.pools) (st : Server.state lru) :
  Raw.parse q = inl l ->
  misses_cache lru_get st (Raw.cacheKey l) ->
  (exists a b,
     raw_combined_trips q db st
     = (ok (Server.with_success (Raw.combinedResults StringToNumber l a b)),
        Server.setInCache lru_set lru_size (Raw.cacheKey l)
          (Raw.combinedResults StringToNumber l a b)
          (snd (Server.getFromCache lru_get (Raw.cacheKey l) st)))) \/
  (status (fst (raw_combined_trips q db st)) = 500%Z /\
   snd (raw_combined_trips q db st)
   = snd (Server.getFromCache lru_get (Raw.cacheKey l) st)).
Proof.
  intros P M. unfold Raw.combined_trips. rewrite P.
  destruct (getFromCache_miss _ lru_get _ _ M) as (S & _).
  destruct (Server.getFromCache lru_get (Raw.cacheKey l) st) as [cached st1].
  simpl in S. rewrite S.
  destruct (Raw.buildQuery prepareValue l "trips") as [a|e]; [|right; split; reflexivity].
  destruct (Raw.buildQuery prepareValue l "bookaway_trips") as [b|e];
    [|right; split; reflexivity].
  left. eexists. eexists. reflexivity.
Qed.

(** A request whose parameters do not parse is answered 500 before the
    cache is consulted. *)
Lemma raw_combined_trips_unparsed (q : Raw.query) (e : string)
    (db : Server.pools) (st : Server.state lru) :
  Raw.parse q = inr e ->
  raw_combined_trips q db st = (Raw.failed e, st).
Proof. intros P. unfold Raw.combined_trips. now rewrite P. Qed.

End RawHandler.

(** C7 (amended).  A freshly computed successful response of GET
    /api/:provider/trips carries pagination metadata with the six
    fields total, page, limit, totalPages, hasNextPage and hasPrevPage;
    a freshly computed successful response of GET /api/combined-trips
    carries exactly page, limit, total and totalPages. *)
Theorem pagination_metadata_fields
    (prepareValue : json -> prim) (StringToNumber : string -> num) (lru : Type)
    (lru_get : lru -> string -> option json * lru)
    (lru_set : lru -> string -> json -> lru) (lru_size : lru -> Z)
    (db : Server.pools) (st : Server.state lru) :
  (forall provider page limit,
     misses_cache lru_get st
       (Server.provider_cacheKey provider (Server.provider_page page)
          (Server.provider_limit limit)) ->
     status (fst (Server.provider_trips lru_get lru_set lru_size
                    provider page limit db st)) = 200%Z ->
     pagination_keys (fst (Server.provider_trips lru_get lru_set lru_size
                             provider page limit db st)) = six_fields) /\
  (forall q l,
     Raw.parse q = inl l ->
     misses_cache lru_get st (Raw.cacheKey l) ->
     status (fst (Raw.combined_trips prepareValue StringToNumber lru_get lru_set lru_size
                    q db st)) = 200%Z ->
     prop "success"
       (body (fst (Raw.combined_trips prepareValue StringToNumber lru_get lru_set lru_size
                     q db st))) = Some (JV (Bool true)) /\
     pagination_keys (fst (Raw.combined_trips prepareValue StringToNumber
                             lru_get lru_set lru_size q db st))
     = ["page"; "limit"; "total"; "totalPages"]).
Proof.
  split.
  - intros. now apply provider_trips_miss_keys.
  - intros q l P M S.
    destruct (raw_combined_trips_outcome prepareValue StringToNumber lru
                lru_get lru_set lru_size q l db st P M) as [(a & b & E)|[F _]].
    + rewrite E. split; reflexivity.
    + rewrite F in S. discriminate.
Qed.

(** GET /api/12go/trips?page=2&limit=10 on an empty cache, over a table
    of 25 trips; and GET /api/combined-trips without parameters. *)
Lemma pagination_metadata_fields_witness :
  let db := {| Server.pool_12go :=
                 fun statement _ =>
                   if String.eqb statement (Server.count_statement "trips")
                   then Rows [[("count", Str "25")]]
                   else Rows [[("id", Number (Num 11))]];
               Server.pool_bookaway := failing "down" |} in
  let r := fst (Server.provider_trips always_miss_get always_miss_set always_miss_size
                  "12go" (Some "2") (Some "10") db fresh_state) in
  let c := fst (Raw.combined_trips as_json_text (fun _ => NaN)
                  always_miss_get always_miss_set always_miss_size
                  (Raw.texts bare_request) db fresh_state) in
  misses_cache always_miss_get fresh_state
    (Server.provider_cacheKey "12go" (Server.provider_page (Some "2"))
       (Server.provider_limit (Some "10"))) /\
  status r = 200%Z /\
  pagination_keys r = six_fields /\
  pagination_field "total" r = Some (JV (Number (Num 25))) /\
  pagination_field "totalPages" r = Some (JV (Number (Num 3))) /\
  pagination_field "hasNextPage" r = Some (JV (Bool true)) /\
  pagination_field "hasPrevPage" r = Some (JV (Bool true)) /\
  Raw.parse (Raw.texts bare_request) = inl (as_raw (Server.parse bare_request)) /\
  status c = 200%Z /\
  pagination_keys c = ["page"; "limit"; "total"; "totalPages"].
Proof.
  intros db r c.
  assert (M : misses_cache always_miss_get fresh_state
    (Server.provider_cacheKey "12go" (Server.provider_page (Some "2"))
       (Server.provider_limit (Some "10")))) by reflexivity.
  assert (S : status r = 200%Z) by reflexivity.
  assert (P : Raw.parse (Raw.texts bare_request) = inl (as_raw (Server.parse bare_request)))
    by reflexivity.
  assert (S' : status c = 200%Z) by reflexivity.
  pose proof (pagination_metadata_fields as_json_text (fun _ => NaN) unit
                always_miss_get always_miss_set always_miss_size db fresh_state) as [A B].
  split; [exact M|]. split; [exact S|]. split; [exact (A "12go" (Some "2") (Some "10") M S)|].
  do 4 (split; [reflexivity|]).
  split; [exact P|]. split; [exact S'|].
  exact (proj2 (B _ _ P eq_refl S')).
Defined.

Section RawReplay.

Variable prepareValue : json -> prim.
Variable StringToNumber : string -> num.
Variable lru : Type.
Variable lru_get : lru -> string -> option json * lru.
Variable lru_set : lru -> string -> json -> lru.
Variable lru_size : lru -> Z.

Local Abbreviation raw_combined_trips :=
  (Raw.combined_trips prepareValue StringToNumber lru_get lru_set lru_size).

(** X2.  A combined-trips request that was answered 200 on a miss is
    answered from the cache when it is repeated: the same document as
    the first answer but without its [success] member, whatever the
    providers answer by then, and counted as one hit.  A request that
    was answered with an error has written nothing to the cache. *)
Theorem combined_trips_replay (q : Raw.query) (l : Raw.locals) (db db' : Server.pools)
    (st : Server.state lru) :
  retains lru_get lru_set ->
  Raw.parse q = inl l ->
  misses_cache lru_get st (Raw.cacheKey l) ->
  let first := raw_combined_trips q db st in
  let second := raw_combined_trips q db' (snd first) in
  (status (fst first) = 200%Z ->
   status (fst second) = 200%Z /\
   body (fst first) = Server.with_success (body (fst second)) /\
   prop "success" (body (fst first)) = Some (JV (Bool true)) /\
   prop "success" (body (fst second)) = None /\
   Server.hits (Server.stats (snd second))
   = (Server.hits (Server.stats (snd first)) + 1)%Z /\
   Server.misses (Server.stats (snd second)) = Server.misses (Server.stats (snd first))) /\
  (status (fst first) <> 200%Z ->
   status (fst first) = 500%Z /\ only_read lru_get st (snd first)).
Proof.
  intros R P M first second. subst second first.
  destruct (raw_combined_trips_outcome prepareValue StringToNumber lru
              lru_get lru_set lru_size q l db st P M) as [(a & b & E)|[F W]].
  - split; [|rewrite E; simpl; congruence].
    intros _. rewrite E. cbn [fst snd body ok].
    set (key := Raw.cacheKey l).
    set (doc := Raw.combinedResults StringToNumber l a b).
    set (st1 := snd (Server.getFromCache lru_get key st)).
    destruct (replay_after_store _ lru_get lru_set lru_size key doc st1 R eq_refl)
      as (G & T & H & Mi).
    unfold Raw.combined_trips. rewrite P. fold key. rewrite G, T.
    cbn [fst snd body ok status].
    repeat split; assumption.
  - split; [intros S; rewrite F in S; discriminate|].
    intros _. split; [exact F|]. rewrite W. apply getFromCache_only_read.
Qed.

End RawReplay.

Lemma combined_trips_replay_witness :
  let q := Raw.texts bare_request in
  let l := as_raw (Server.parse bare_request) in
  let first := Raw.combined_trips as_json_text (fun _ => NaN)
                 keeping_get keeping_set keeping_size q both_providers_down nothing_kept in
  let second := Raw.combined_trips as_json_text (fun _ => NaN)
                  keeping_get keeping_set keeping_size q both_providers_up (snd first) in
  retains keeping_get keeping_set /\
  Raw.parse q = inl l /\
  misses_cache keeping_get nothing_kept (Raw.cacheKey l) /\
  status (fst first) = 200%Z /\
  status (fst second) = 200%Z /\
  body (fst first) = Server.with_success (body (fst second)) /\
  prop "success" (body (fst first)) = Some (JV (Bool true)) /\
  prop "success" (body (fst second)) = None /\
  Server.hits (Server.stats (snd second))
  = (Server.hits (Server.stats (snd first)) + 1)%Z /\
  Server.misses (Server.stats (snd second)) = Server.misses (Server.stats (snd first)).
Proof.
  intros q l first second.
  assert (P : Raw.parse q = inl l) by reflexivity.
  assert (M : misses_cache keeping_get nothing_kept (Raw.cacheKey l)) by reflexivity.
  assert (S : status (fst first) = 200%Z) by reflexivity.
  split; [exact keeping_retains|]. split; [exact P|]. split; [exact M|].
  split; [exact S|].
  exact (proj1 (combined_trips_replay as_json_text (fun _ => NaN) keeping
                  keeping_get keeping_set keeping_size
                  q l both_providers_down both_providers_up nothing_kept
                  keeping_retains P M) S).
Defined.

(** A repeated sort_order is answered 500 each time, and stores nothing. *)
Example repeated_sort_order_is_not_stored :
  let first := Raw.combined_trips as_json_text (fun _ => NaN)
                 keeping_get keeping_set keeping_size
                 repeated_sort_order both_providers_up nothing_kept in
  status (fst first) = 500%Z /\
  Server.cache (snd first) = [] /\
  Server.misses (Server.stats (snd first)) = 1%Z.
Proof. repeat split; reflexivity. Qed.


(** The outage is replayed: computed while both providers were down,
    the empty page is what the repeated request gets once they are up. *)
Example outage_is_replayed :
  let first := Server.combined_trips (fun _ => NaN) keeping_get keeping_set keeping_size
                 bare_request both_providers_down nothing_kept in
  data_of
    (fst (Server.combined_trips (fun _ => NaN) keeping_get keeping_set keeping_size
            bare_request both_providers_up (snd first)))
  = Some (JArr []).
Proof. vm_compute. reflexivity. Qed.

Lemma provider_trips_caches_successes_only_witness :
  let key := Server.provider_cacheKey "12go" (Server.provider_page None)
               (Server.provider_limit None) in
  let first := Server.provider_trips keeping_get keeping_set keeping_size
                 "12go" None None counted_pools nothing_kept in
  misses_cache keeping_get nothing_kept key /\
  status (fst first) = 200%Z /\
  fst (Server.provider_trips keeping_get keeping_set keeping_size
         "12go" None None both_providers_down (snd first)) = fst first.
Proof.
  intros key first.
  assert (M : misses_cache keeping_get nothing_kept key) by reflexivity.
  assert (S : status (fst first) = 200%Z) by reflexivity.
  split; [exact M|]. split; [exact S|].
  exact (proj1 (proj1 (provider_trips_caches_successes_only keeping keeping_get keeping_set
                         keeping_size "12go" None None counted_pools nothing_kept M)
                  S keeping_retains both_providers_down)).
Defined.

Lemma toLowerCase_truthy (a b : string) :
  toLowerCase a = toLowerCase b ->
  truthy_str (Some a) = truthy_str (Some b).
Proof.
  destruct a, b; simpl; try reflexivity; discriminate.
Qed.

Section CachedEndpoints.

Variable lru : Type.
Variable lru_get : lru -> string -> option json * lru.
Variable lru_set : lru -> string -> json -> lru.
Variable lru_size : lru -> Z.

Local Abbreviation search := (Endpoints.search lru_get lru_set lru_size).
Local Abbreviation filters := (Endpoints.filters lru_get lru_set lru_size).
Local Abbreviation transport_types := (Endpoints.transport_types lru_get lru_set lru_size).
Local Abbreviation getFromCache := (Server.getFromCache lru_get).
Local Abbreviation setInCache := (Server.setInCache lru_set lru_size).

(** On a miss the search handler either stores the results it answers
    with, or answers an error and writes nothing. *)
Lemma search_outcome (provider field q : string) (db : Server.pools)
    (st : Server.state lru) :
  let key := Endpoints.search_cacheKey provider field q in
  misses_cache lru_get st key ->
  (exists results p,
     truthy_json results = true /\
     Server.lookup_pool db provider = Server.IsPool p /\
     truthy_str (Some field) = true /\ truthy_str (Some q) = true /\
     includes Endpoints.validFields field = true /\
     search provider (Some field) (Some q) db st
     = (ok (JObj [("results", results)]),
        setInCache key results (snd (getFromCache key st)))) \/
  (status (fst (search provider (Some field) (Some q) db st)) <> 200%Z /\
   only_read lru_get st (snd (search provider (Some field) (Some q) db st))).
Proof.
  intros key M. destruct (getFromCache_miss _ lru_get _ _ M) as (S & _).
  pose proof (getFromCache_only_read _ lru_get key st) as O.
  unfold Endpoints.search. cbv zeta. cbn [Server.or_default]. fold key.
  destruct (Server.lookup_pool db provider) as [p| |] eqn:L;
    [ | | right; split; [simpl; discriminate | apply only_read_refl] ];
    (destruct (truthy_str (Some field)) eqn:Tf;
       [|right; split; [simpl; discriminate | apply only_read_refl]]);
    (destruct (truthy_str (Some q)) eqn:Tq;
       [|right; split; [simpl; discriminate | apply only_read_refl]]);
    cbn [negb orb];
    (destruct (includes Endpoints.validFields field) eqn:V;
       [|right; split; [simpl; discriminate | apply only_read_refl]]);
    cbn [negb];
    destruct (getFromCache key st) as [cached st1]; simpl in S, O; rewrite S.
  - match goal with
    | |- context [p ?a ?b] => destruct (p a b) as [result|message]
    end.
    + left. eexists. exists p. split; [|repeat split; reflexivity].
      unfold Endpoints.search_results. now destruct (Endpoints.is_route_field field).
    + right; split; [simpl; discriminate | exact O].
  - right; split; [simpl; discriminate | exact O].
Qed.

(** X4.  Search results are stored exactly when they are answered with 200:
    the same search, in whatever letter case, then gets the very same
    response without a query, and an error response leaves the cache
    unwritten. *)
Theorem search_caches_successes_only (provider field q : string)
    (db : Server.pools) (st : Server.state lru) :
  misses_cache lru_get st (Endpoints.search_cacheKey provider field q) ->
  let first := search provider (Some field) (Some q) db st in
  (status (fst first) = 200%Z ->
   retains lru_get lru_set ->
   forall db' q',
     toLowerCase q' = toLowerCase q ->
     let second := search provider (Some field) (Some q') db' (snd first) in
     fst second = fst first /\
     Server.hits (Server.stats (snd second))
     = (Server.hits (Server.stats (snd first)) + 1)%Z) /\
  (status (fst first) <> 200%Z -> only_read lru_get st (snd first)).
Proof.
  intros M first. subst first.
  destruct (search_outcome provider field q db st M)
    as [(results & p & T & L & Tf & Tq & V & E) | (N & O)].
  - split; [|rewrite E; simpl; congruence].
    intros _ R db' q' Q second. subst second. rewrite E. cbn [fst snd].
    set (key := Endpoints.search_cacheKey provider field q) in *.
    set (st1 := snd (getFromCache key st)).
    destruct (replay_after_store _ lru_get lru_set lru_size key results st1 R T)
      as (G & Sv & H & _).
    destruct (lookup_pool_db db db' provider p L) as (p' & L').
    unfold Endpoints.search. cbv zeta. cbn [Server.or_default].
    rewrite L', Tf, (toLowerCase_truthy q' q Q), Tq. cbn [negb orb].
    rewrite V. cbn [negb].
    replace (Endpoints.search_cacheKey provider field q') with key
      by (unfold key, Endpoints.search_cacheKey; now rewrite Q).
    rewrite G, Sv. split; [reflexivity | exact H].
  - split; [intros E; contradiction | intros _; exact O].
Qed.

(** A search that is rejected with 400 touches neither the cache nor
    its counters. *)
Lemma search_rejection_is_silent (provider : string) (field q : option string)
    (db : Server.pools) (st : Server.state lru) :
  status (fst (search provider field q db st)) = 400%Z ->
  snd (search provider field q db st) = st.
Proof.
  unfold Endpoints.search. cbv zeta.
  destruct (Server.lookup_pool db provider) as [p| |]; [ | | reflexivity ];
    (destruct (negb (truthy_str field) || negb (truthy_str q)); [reflexivity|]);
    (destruct (negb (includes Endpoints.validFields _)); [reflexivity|]);
    destruct (Server.getFromCache lru_get _ st) as [cached st1];
    destruct (served cached); try (simpl; discriminate).
  - match goal with
    | |- context [p ?a ?b] => destruct (p a b) as [result|message]
    end; simpl; discriminate.
Qed.

(** On a miss the filters handler either stores the lists it answers
    with, or answers 500 and writes nothing. *)
Lemma filters_outcome (db : Server.pools) (st : Server.state lru) :
  misses_cache lru_get st Endpoints.filters_cacheKey ->
  (exists sets,
     Endpoints.collect_filters db = inl sets /\
     filters db st
     = (ok (Endpoints.filters_response sets),
        setInCache Endpoints.filters_cacheKey (Endpoints.filters_response sets)
          (snd (getFromCache Endpoints.filters_cacheKey st)))) \/
  (status (fst (filters db st)) = 500%Z /\
   only_read lru_get st (snd (filters db st))).
Proof.
  intros M. destruct (getFromCache_miss _ lru_get _ _ M) as (S & _).
  pose proof (getFromCache_only_read _ lru_get Endpoints.filters_cacheKey st) as O.
  unfold Endpoints.filters.
  destruct (getFromCache Endpoints.filters_cacheKey st) as [cached st1]. simpl in S, O. rewrite S.
  destruct (Endpoints.collect_filters db) as [sets|m].
  - left. exists sets. split; reflexivity.
  - right. split; [reflexivity | exact O].
Qed.

(** X5.  The filter lists are stored exactly when they are answered with
    200: the repeated request then gets the very same lists, whatever
    the tables hold by then, and a failure of any one query leaves the
    cache unwritten. *)
Theorem filters_caches_successes_only (db : Server.pools) (st : Server.state lru) :
  misses_cache lru_get st Endpoints.filters_cacheKey ->
  let first := filters db st in
  (status (fst first) = 200%Z ->
   retains lru_get lru_set ->
   forall db',
     let second := filters db' (snd first) in
     fst second = fst first /\
     Server.hits (Server.stats (snd second))
     = (Server.hits (Server.stats (snd first)) + 1)%Z) /\
  (status (fst first) <> 200%Z -> only_read lru_get st (snd first)).
Proof.
  intros M first. subst first.
  destruct (filters_outcome db st M) as [(sets & C & E) | (N & O)].
  - split; [|rewrite E; simpl; congruence].
    intros _ R db' second. subst second. rewrite E. cbn [fst snd].
    set (st1 := snd (getFromCache Endpoints.filters_cacheKey st)).
    destruct (replay_after_store _ lru_get lru_set lru_size Endpoints.filters_cacheKey
                (Endpoints.filters_response sets) st1 R eq_refl) as (G & Sv & H & _).
    unfold Endpoints.filters. rewrite G, Sv.
    split; [reflexivity | exact H].
  - split; [rewrite N; discriminate | intros _; exact O].
Qed.

Lemma transport_types_outcome (now : string) (db : Server.pools) (st : Server.state lru) :
  misses_cache lru_get st Endpoints.transport_types_cacheKey ->
  (exists types12go typesBookaway,
     transport_types now db st
     = (ok (Endpoints.transport_types_response now types12go typesBookaway),
        setInCache Endpoints.transport_types_cacheKey
          (Endpoints.transport_types_response now types12go typesBookaway)
          (snd (getFromCache Endpoints.transport_types_cacheKey st)))) \/
  (status (fst (transport_types now db st)) = 500%Z /\
   only_read lru_get st (snd (transport_types now db st))).
Proof.
  intros M. destruct (getFromCache_miss _ lru_get _ _ M) as (S & _).
  pose proof (getFromCache_only_read _ lru_get Endpoints.transport_types_cacheKey st) as O.
  unfold Endpoints.transport_types.
  destruct (getFromCache Endpoints.transport_types_cacheKey st) as [cached st1].
  simpl in S, O. rewrite S.
  destruct (Server.pool_12go db _ _) as [result12go|m];
    [|right; split; [reflexivity | exact O]].
  destruct (Server.pool_bookaway db _ _) as [resultBookaway|m];
    [|right; split; [reflexivity | exact O]].
  left. eexists. eexists. reflexivity.
Qed.

(** X6.  The transport types are stored exactly when they are answered
    with 200: the repeated request then gets the very same document,
    with the time stamp of the first answer, and a failure of either
    provider leaves the cache unwritten. *)
Theorem transport_types_caches_successes_only (now : string) (db : Server.pools)
    (st : Server.state lru) :
  misses_cache lru_get st Endpoints.transport_types_cacheKey ->
  let first := transport_types now db st in
  (status (fst first) = 200%Z ->
   retains lru_get lru_set ->
   forall now' db',
     let second := transport_types now' db' (snd first) in
     fst second = fst first /\
     prop "timestamp" (body (fst second)) = Some (JV (Str now)) /\
     Server.hits (Server.stats (snd second))
     = (Server.hits (Server.stats (snd first)) + 1)%Z) /\
  (status (fst first) <> 200%Z -> only_read lru_get st (snd first)).
Proof.
  intros M first. subst first.
  destruct (transport_types_outcome now db st M) as [(a & b & E) | (N & O)].
  - split; [|rewrite E; simpl; congruence].
    intros _ R now' db' second. subst second. rewrite E. cbn [fst snd].
    set (st1 := snd (getFromCache Endpoints.transport_types_cacheKey st)).
    destruct (replay_after_store _ lru_get lru_set lru_size
                Endpoints.transport_types_cacheKey
                (Endpoints.transport_types_response now a b) st1 R eq_refl)
      as (G & Sv & H & _).
    unfold Endpoints.transport_types. rewrite G, Sv.
    split; [reflexivity | split; [reflexivity | exact H]].
  - split; [rewrite N; discriminate | intros _; exact O].
Qed.

End CachedEndpoints.


Lemma search_caches_successes_only_witness :
  let first := Endpoints.search keeping_get keeping_set keeping_size
                 "12go" (Some "transport_type") (Some "B") two_places nothing_kept in
  let second := Endpoints.search keeping_get keeping_set keeping_size
                  "12go" (Some "transport_type") (Some "b") both_providers_down (snd first) in
  misses_cache keeping_get nothing_kept
    (Endpoints.search_cacheKey "12go" "transport_type" "B") /\
  status (fst first) = 200%Z /\
  toLowerCase "b" = toLowerCase "B" /\
  fst second = fst first /\
  Server.hits (Server.stats (snd second)) = (Server.hits (Server.stats (snd first)) + 1)%Z.
Proof.
  intros first second.
  assert (M : misses_cache keeping_get nothing_kept
                (Endpoints.search_cacheKey "12go" "transport_type" "B")) by reflexivity.
  assert (S : status (fst first) = 200%Z) by reflexivity.
  assert (L : toLowerCase "b" = toLowerCase "B") by reflexivity.
  split; [exact M|]. split; [exact S|]. split; [exact L|].
  exact (proj1 (search_caches_successes_only keeping keeping_get keeping_set keeping_size
                  "12go" "transport_type" "B" two_places nothing_kept M)
           S keeping_retains both_providers_down "b" L).
Defined.

Lemma filters_caches_successes_only_witness :
  let first := Endpoints.filters keeping_get keeping_set keeping_size
                 overlapping nothing_kept in
  let second := Endpoints.filters keeping_get keeping_set keeping_size
                  both_providers_down (snd first) in
  misses_cache keeping_get nothing_kept Endpoints.filters_cacheKey /\
  status (fst first) = 200%Z /\
  fst second = fst first /\
  Server.hits (Server.stats (snd second)) = (Server.hits (Server.stats (snd first)) + 1)%Z.
Proof.
  intros first second.
  assert (M : misses_cache keeping_get nothing_kept Endpoints.filters_cacheKey)
    by reflexivity.
  assert (S : status (fst first) = 200%Z) by reflexivity.
  split; [exact M|]. split; [exact S|].
  exact (proj1 (filters_caches_successes_only keeping keeping_get keeping_set keeping_size
                  overlapping nothing_kept M)
           S keeping_retains both_providers_down).
Defined.

Lemma transport_types_caches_successes_only_witness :
  let first := Endpoints.transport_types keeping_get keeping_set keeping_size
                 "2024-01-01T00:00:00.000Z" both_providers_up nothing_kept in
  let second := Endpoints.transport_types keeping_get keeping_set keeping_size
                  "2024-01-01T00:04:00.000Z" both_providers_down (snd first) in
  misses_cache keeping_get nothing_kept Endpoints.transport_types_cacheKey /\
  status (fst first) = 200%Z /\
  fst second = fst first /\
  prop "timestamp" (body (fst second)) = Some (JV (Str "2024-01-01T00:00:00.000Z")) /\
  Server.hits (Server.stats (snd second)) = (Server.hits (Server.stats (snd first)) + 1)%Z.
Proof.
  intros first second.
  assert (M : misses_cache keeping_get nothing_kept Endpoints.transport_types_cacheKey)
    by reflexivity.
  assert (S : status (fst first) = 200%Z) by reflexivity.
  split; [exact M|]. split; [exact S|].
  exact (proj1 (transport_types_caches_successes_only keeping keeping_get keeping_set
                  keeping_size "2024-01-01T00:00:00.000Z" both_providers_up nothing_kept M)
           S keeping_retains "2024-01-01T00:04:00.000Z" both_providers_down).
Defined.

(* ----------------------------------------------------------------- *)
(** ** Cache keys *)

Lemma delimited_r (c : ascii) (r1 r2 s1 s2 : string) :
  free_of c s1 -> free_of c s2 ->
  r1 ++ String c s1 = r2 ++ String c s2 -> r1 = r2 /\ s1 = s2.
Proof.
  unfold free_of. intros F1 F2. revert r2.
  induction r1 as [|a r1 IH]; intros [|b r2] H; simpl in H.
  - injection H as ->. now split.
  - injection H as <- ->. rewrite occurs_app in F1. simpl in F1.
    rewrite Ascii.eqb_refl, orb_true_r in F1. discriminate.
  - injection H as -> <-. rewrite occurs_app in F2. simpl in F2.
    rewrite Ascii.eqb_refl, orb_true_r in F2. discriminate.
  - injection H as -> H. destruct (IH _ H) as [-> ->]. now split.
Qed.

Lemma num_to_string_free (n : num) : free_of "_" (num_to_string n).
Proof.
  destruct n as [|z]; [reflexivity|].
  apply (within_free decimal_alphabet); [apply within_decimal | reflexivity].
Qed.

Lemma num_to_string_inj (a b : num) : num_to_string a = num_to_string b -> a = b.
Proof.
  destruct a as [|x], b as [|y]; simpl; intros H.
  - reflexivity.
  - pose proof (within_decimal y) as W. rewrite <- H in W. discriminate.
  - pose proof (within_decimal x) as W. rewrite H in W. discriminate.
  - f_equal. now apply Z_to_string_inj.
Qed.

(** X7.  The key of a provider listing tells the provider, the page and the
    page size: two listings share a cache entry only when all three
    agree. *)
Theorem provider_cacheKey_identifies (p1 p2 : string) (page1 page2 limit1 limit2 : num) :
  Server.provider_cacheKey p1 page1 limit1 = Server.provider_cacheKey p2 page2 limit2 ->
  p1 = p2 /\ page1 = page2 /\ limit1 = limit2.
Proof.
  unfold Server.provider_cacheKey. intros H.
  assert (F : forall n, free_of "_" ("limit" ++ num_to_string n)).
  { intros n. unfold free_of. rewrite occurs_app.
    now rewrite (num_to_string_free n). }
  assert (G : forall n, free_of "_" ("page" ++ num_to_string n)).
  { intros n. unfold free_of. rewrite occurs_app.
    now rewrite (num_to_string_free n). }
  change (p1 ++ "_trips_page" ++ num_to_string page1 ++ "_limit" ++ num_to_string limit1)
    with (p1 ++ "_trips_page" ++ num_to_string page1
            ++ String "_" ("limit" ++ num_to_string limit1)) in H.
  change (p2 ++ "_trips_page" ++ num_to_string page2 ++ "_limit" ++ num_to_string limit2)
    with (p2 ++ "_trips_page" ++ num_to_string page2
            ++ String "_" ("limit" ++ num_to_string limit2)) in H.
  rewrite <- !append_assoc in H.
  apply (delimited_r "_") in H; [|apply F|apply F].
  destruct H as [H L]. apply append_inj_l, num_to_string_inj in L.
  rewrite !append_assoc in H.
  change (p1 ++ "_trips_page" ++ num_to_string page1)
    with (p1 ++ "_trips" ++ String "_" ("page" ++ num_to_string page1)) in H.
  change (p2 ++ "_trips_page" ++ num_to_string page2)
    with (p2 ++ "_trips" ++ String "_" ("page" ++ num_to_string page2)) in H.
  rewrite <- !append_assoc in H.
  apply (delimited_r "_") in H; [|apply G|apply G].
  destruct H as [H P]. apply append_inj_l, num_to_string_inj in P.
  apply (delimited_r "_" p1 p2 "trips" "trips") in H; [|reflexivity|reflexivity].
  now destruct H as [-> _].
Qed.

Lemma provider_cacheKey_identifies_witness :
  Server.provider_cacheKey "12go" (Server.provider_page (Some "2")) (Server.provider_limit None)
  = Server.provider_cacheKey "12go" (Num 2) (Num 10) /\
  Server.provider_page (Some "2") = Num 2 /\ Server.provider_limit None = Num 10.
Proof.
  split; [reflexivity|].
  exact (proj2 (provider_cacheKey_identifies "12go" "12go"
                  (Server.provider_page (Some "2")) (Num 2)
                  (Server.provider_limit None) (Num 10) eq_refl)).
Defined.

Lemma lookup_pool_names (db : Server.pools) (provider : string) :
  Server.lookup_pool db provider <> Server.NoSuchKey -> In provider provider_names.
Proof.
  unfold Server.lookup_pool, provider_names.
  destruct (String.eqb_spec provider "12go") as [->|_]; [now left|].
  destruct (String.eqb_spec provider "bookaway") as [->|_]; [right; now left|].
  destruct (includes Server.object_prototype_keys provider) eqn:I; [|congruence].
  intros _. right; right. now apply includes_In.
Qed.

(** No property name of [pools] continues into another one. *)
Lemma provider_names_prefix_free (p1 p2 r1 r2 : string) :
  In p1 provider_names -> In p2 provider_names ->
  p1 ++ "_" ++ r1 = p2 ++ "_" ++ r2 -> p1 = p2 /\ r1 = r2.
Proof.
  unfold provider_names, Server.object_prototype_keys. cbn [In].
  intros I1 I2.
  repeat match goal with
         | H : _ \/ _ |- _ => destruct H as [H|H]
         | H : False |- _ => contradiction
         end;
    subst p1 p2; intros E; simpl in E;
    first [ discriminate E | split; [reflexivity | congruence] ].
Qed.

Lemma validFields_prefix_free (f1 f2 r1 r2 : string) :
  includes Endpoints.validFields f1 = true ->
  includes Endpoints.validFields f2 = true ->
  f1 ++ "_" ++ r1 = f2 ++ "_" ++ r2 -> f1 = f2 /\ r1 = r2.
Proof.
  rewrite !includes_In. unfold Endpoints.validFields. cbn [In].
  intros I1 I2.
  repeat match goal with
         | H : _ \/ _ |- _ => destruct H as [H|H]
         | H : False |- _ => contradiction
         end;
    subst f1 f2; intros E; simpl in E;
    first [ discriminate E | split; [reflexivity | congruence] ].
Qed.

(** X8.  The key of a search tells the provider, the field and the search
    text up to letter case. *)
Theorem search_cacheKey_identifies (db : Server.pools) (p1 p2 f1 f2 q1 q2 : string) :
  reaches_cache db (Search p1 f1 q1) ->
  reaches_cache db (Search p2 f2 q2) ->
  Endpoints.search_cacheKey p1 f1 q1 = Endpoints.search_cacheKey p2 f2 q2 ->
  p1 = p2 /\ f1 = f2 /\ toLowerCase q1 = toLowerCase q2.
Proof.
  intros [P1 V1] [P2 V2]. unfold Endpoints.search_cacheKey. intros H.
  apply lookup_pool_names in P1, P2.
  change (p1 ++ "_search_" ++ f1 ++ "_" ++ toLowerCase q1)
    with (p1 ++ "_" ++ "search_" ++ f1 ++ "_" ++ toLowerCase q1) in H.
  change (p2 ++ "_search_" ++ f2 ++ "_" ++ toLowerCase q2)
    with (p2 ++ "_" ++ "search_" ++ f2 ++ "_" ++ toLowerCase q2) in H.
  apply provider_names_prefix_free in H; [|assumption|assumption].
  destruct H as [-> H]. apply append_inj_l in H.
  apply validFields_prefix_free in H; [|assumption|assumption].
  destruct H as [-> H]. auto.
Qed.

Lemma search_cacheKey_identifies_witness :
  reaches_cache both_providers_up (Search "12go" "origin" "Bang") /\
  reaches_cache both_providers_up (Search "12go" "origin" "bANG") /\
  Endpoints.search_cacheKey "12go" "origin" "Bang"
  = Endpoints.search_cacheKey "12go" "origin" "bANG" /\
  toLowerCase "Bang" = toLowerCase "bANG".
Proof.
  assert (R1 : reaches_cache both_providers_up (Search "12go" "origin" "Bang"))
    by (split; [discriminate | reflexivity]).
  assert (R2 : reaches_cache both_providers_up (Search "12go" "origin" "bANG"))
    by (split; [discriminate | reflexivity]).
  split; [exact R1|]. split; [exact R2|]. split; [reflexivity|].
  exact (proj2 (proj2 (search_cacheKey_identifies both_providers_up
                         "12go" "12go" "origin" "origin" "Bang" "bANG" R1 R2 eq_refl))).
Defined.

Lemma cacheKey_prefix (l : Server.locals) :
  exists r, Server.cacheKey l = "combined_trips_{" ++ r.
Proof. rewrite cacheKey_text. eexists. reflexivity. Qed.

Lemma provider_key_shape (db : Server.pools) (p : string) (r : string) :
  Server.lookup_pool db p <> Server.NoSuchKey ->
  forall k, In k ["transport_types"; "filters_data"] \/
            (exists t, k = "combined_trips_{" ++ t) ->
  p ++ "_" ++ r <> k.
Proof.
  intros P k K E. apply lookup_pool_names in P.
  unfold provider_names, Server.object_prototype_keys in P. cbn [In] in P, K.
  destruct K as [[<-|[<-|[]]]|[t ->]];
    repeat match goal with
           | H : _ \/ _ |- _ => destruct H as [H|H]
           | H : False |- _ => contradiction
           end;
    subst p; simpl in E; discriminate E.
Qed.

Lemma listing_key_is_no_search_key (db : Server.pools) (p1 p2 r1 r2 : string) :
  Server.lookup_pool db p1 <> Server.NoSuchKey ->
  Server.lookup_pool db p2 <> Server.NoSuchKey ->
  p1 ++ "_trips_page" ++ r1 <> p2 ++ "_search_" ++ r2.
Proof.
  intros P1 P2 E. apply lookup_pool_names in P1, P2.
  apply (provider_names_prefix_free p1 p2 ("trips_page" ++ r1) ("search_" ++ r2)) in E;
    [|assumption|assumption].
  destruct E as [_ E]. simpl in E. discriminate E.
Qed.

(** X9.  The five users of the cache never meet on a key: a cached document
    is only ever served by the handler that stored it. *)
Theorem cache_keys_disjoint (db : Server.pools) (a b : cache_user) :
  reaches_cache db a -> reaches_cache db b ->
  key_of a = key_of b -> same_handler a b.
Proof.
  intros Ra Rb E.
  destruct a as [|p1 pg1 l1|p1 f1 q1| |la], b as [|p2 pg2 l2|p2 f2 q2| |lb];
    try exact I; exfalso; cbn [key_of reaches_cache] in *;
    repeat match goal with
           | H : _ /\ _ |- _ => destruct H as [H _]
           | l : Server.locals |- _ =>
               let t := fresh "t" in
               let T := fresh "T" in
               destruct (cacheKey_prefix l) as [t T]; rewrite T in E; clear T l
           end;
    unfold Server.provider_cacheKey, Endpoints.search_cacheKey,
      Endpoints.transport_types_cacheKey, Endpoints.filters_cacheKey in E;
    try discriminate E;
    try (now apply (listing_key_is_no_search_key db) in E);
    try (symmetry in E; now apply (listing_key_is_no_search_key db) in E);
    try symmetry in E;
    match type of E with
    | ?p ++ "_trips_page" ++ ?r = ?k =>
        refine (provider_key_shape db p ("trips_page" ++ r) _ k _ E);
        [assumption | cbn [In]; eauto]
    | ?p ++ "_search_" ++ ?r = ?k =>
        refine (provider_key_shape db p ("search_" ++ r) _ k _ E);
        [assumption | cbn [In]; eauto]
    | _ => symmetry in E
    end;
    match type of E with
    | ?p ++ "_trips_page" ++ ?r = ?k =>
        refine (provider_key_shape db p ("trips_page" ++ r) _ k _ E);
        [assumption | cbn [In]; eauto]
    | ?p ++ "_search_" ++ ?r = ?k =>
        refine (provider_key_shape db p ("search_" ++ r) _ k _ E);
        [assumption | cbn [In]; eauto]
    end.
Qed.

Lemma cache_keys_disjoint_witness :
  reaches_cache both_providers_up (ProviderTrips "12go" (Num 1) (Num 10)) /\
  reaches_cache both_providers_up (Search "12go" "origin" "a") /\
  (key_of (ProviderTrips "12go" (Num 1) (Num 10)) = key_of (Search "12go" "origin" "a") ->
   False).
Proof.
  assert (Ra : reaches_cache both_providers_up (ProviderTrips "12go" (Num 1) (Num 10)))
    by discriminate.
  assert (Rb : reaches_cache both_providers_up (Search "12go" "origin" "a"))
    by (split; [discriminate | reflexivity]).
  split; [exact Ra|]. split; [exact Rb|].
  exact (cache_keys_disjoint both_providers_up
           (ProviderTrips "12go" (Num 1) (Num 10)) (Search "12go" "origin" "a") Ra Rb).
Defined.


(* ----------------------------------------------------------------- *)
(** ** GET /api/filters *)

Lemma same_value_zero_eq (a b : prim) : Endpoints.same_value_zero a b = true <-> a = b.
Proof.
  destruct a as [| |x|[|x]|x], b as [| |y|[|y]|y]; simpl;
    try (split; [discriminate | discriminate]);
    try (split; reflexivity).
  - rewrite Bool.eqb_true_iff. split; congruence.
  - rewrite Z.eqb_eq. split; congruence.
  - rewrite String.eqb_eq. split; congruence.
Qed.

Lemma set_has_In (s : list prim) (x : prim) : Endpoints.set_has s x = true <-> In x s.
Proof.
  unfold Endpoints.set_has. rewrite existsb_exists. split.
  - intros (y & Y & E). apply same_value_zero_eq in E. now subst.
  - intros H. exists x. split; [assumption | now apply same_value_zero_eq].
Qed.

Lemma set_add_In (s : list prim) (x y : prim) :
  In y (Endpoints.set_add s x) <-> In y s \/ y = x.
Proof.
  unfold Endpoints.set_add. destruct (Endpoints.set_has s x) eqn:H.
  - apply set_has_In in H. split; [auto | intros [?| ->]; assumption].
  - rewrite in_app_iff. simpl. intuition.
Qed.

Lemma set_add_NoDup (s : list prim) (x : prim) : NoDup s -> NoDup (Endpoints.set_add s x).
Proof.
  intros N. unfold Endpoints.set_add. destruct (Endpoints.set_has s x) eqn:H; [assumption|].
  assert (X : ~ In x s) by (rewrite <- set_has_In; congruence).
  clear H. induction N as [|a s A N IH]; simpl.
  - constructor; [auto | constructor].
  - constructor.
    + rewrite in_app_iff. simpl. intros [?|[->|[]]]; [contradiction|].
      apply X. now left.
    + apply IH. intros ?. apply X. now right.
Qed.

Lemma add_column_spec (k : string) (rows : list row) (s : list prim) :
  NoDup s ->
  NoDup (Endpoints.add_column k rows s) /\
  (forall v, In v (Endpoints.add_column k rows s) <->
             In v s \/ (truthy v = true /\ exists r, In r rows /\ get k r = v)).
Proof.
  unfold Endpoints.add_column. revert s.
  induction rows as [|r rows IH]; intros s N; simpl.
  - split; [assumption|]. intros v. split; [auto|]. intros [?|(_ & r & [] & _)]. assumption.
  - destruct (truthy (get k r)) eqn:T.
    + destruct (IH _ (set_add_NoDup s (get k r) N)) as [N' I']. split; [exact N'|].
      intros v. rewrite I', set_add_In. split.
      * intros [[?| ->]|(Tv & r' & R & G)]; eauto 7.
      * intros [?|(Tv & r' & [<-|R] & G)]; eauto 7.
    + destruct (IH _ N) as [N' I']. split; [exact N'|].
      intros v. rewrite I'. split.
      * intros [?|(Tv & r' & R & G)]; eauto 7.
      * intros [?|(Tv & r' & [<-|R] & G)]; eauto 7.
        subst v. congruence.
Qed.

(** X10.  The list the filters handler gives for a column holds every truthy
    value a provider reported for it, nothing else, and each value
    once. *)
Theorem filter_lists_are_sets (db : Server.pools) (sets : Endpoints.filter_sets)
    (column : string) :
  Endpoints.collect_filters db = inl sets ->
  includes Endpoints.validFields column = true ->
  NoDup (column_set column sets) /\
  (forall v, In v (column_set column sets)
             <-> truthy v = true /\ reported_by db column v).
Proof.
  unfold Endpoints.collect_filters, Endpoints.collect_provider, reported_by.
  intros C V.
  destruct (Server.pool_12go db (Endpoints.distinct_statement "origin" "trips") [])
    as [o1|] eqn:O1; [|discriminate].
  destruct (Server.pool_12go db (Endpoints.distinct_statement "destination" "trips") [])
    as [d1|] eqn:D1; [|discriminate].
  destruct (Server.pool_12go db (Endpoints.distinct_statement "transport_type" "trips") [])
    as [t1|] eqn:T1; [|discriminate].
  destruct (Server.pool_12go db (Endpoints.distinct_statement "operator_name" "trips") [])
    as [n1|] eqn:N1; [|discriminate].
  destruct (Server.pool_bookaway db
              (Endpoints.distinct_statement "origin" "bookaway_trips") [])
    as [o2|] eqn:O2; [|discriminate].
  destruct (Server.pool_bookaway db
              (Endpoints.distinct_statement "destination" "bookaway_trips") [])
    as [d2|] eqn:D2; [|discriminate].
  destruct (Server.pool_bookaway db
              (Endpoints.distinct_statement "transport_type" "bookaway_trips") [])
    as [t2|] eqn:T2; [|discriminate].
  destruct (Server.pool_bookaway db
              (Endpoints.distinct_statement "operator_name" "bookaway_trips") [])
    as [n2|] eqn:N2; [|discriminate].
  injection C as <-.
  apply includes_In in V. unfold Endpoints.validFields in V. cbn [In] in V.
  destruct V as [<-|[<-|[<-|[<-|[]]]]]; cbn [column_set String.eqb Ascii.eqb Bool.eqb];
    cbn [Endpoints.set_origin Endpoints.set_destination Endpoints.set_transport_type
         Endpoints.set_operator_name Endpoints.no_filters];
    match goal with
    | |- NoDup (Endpoints.add_column ?k ?b (Endpoints.add_column ?k ?a [])) /\ _ =>
        destruct (add_column_spec k a [] (NoDup_nil _)) as [Na Ia];
        destruct (add_column_spec k b _ Na) as [Nb Ib];
        split; [exact Nb|];
        intros v; rewrite Ib, Ia; split;
        [ intros [[[]|(Tv & r & R & G)]|(Tv & r & R & G)];
          (split; [exact Tv|]); [exists a, r | exists b, r]; auto
        | intros (Tv & rows & r & [Q|Q] & R & G);
          [ left; right | right ];
          (split; [exact Tv|]); exists r; split; congruence ]
    end.
Qed.

Lemma Z_to_string_nonempty (z : Z) : Z_to_string z <> EmptyString.
Proof.
  unfold Z_to_string, NilZero.string_of_int, NilZero.string_of_uint.
  destruct (Z.to_int z) as [d|d]; [|discriminate].
  destruct d; discriminate.
Qed.

Lemma join_text_nonempty (v : prim) : truthy v = true -> Endpoints.join_text v <> EmptyString.
Proof.
  destruct v as [| |[|]|[|z]|[|c s]]; simpl; try discriminate.
  intros _. apply Z_to_string_nonempty.
Qed.

Lemma join_nonempty (sep x : string) (xs : list string) :
  x <> EmptyString -> join sep (x :: xs) <> EmptyString.
Proof. destruct x; [congruence|]. intros _. unfold join. simpl. discriminate. Qed.

(** X11.  The comma-separated list the filters handler answers with is cut
    back into the same values by the combined-trips handler, as long as
    no value holds a comma. *)
Theorem filter_list_splits_back (values : list prim) :
  Forall (fun v => truthy v = true) values ->
  Forall (fun v => free_of "," (Endpoints.join_text v)) values ->
  Server.csv (Some (Endpoints.joined values)) = map Endpoints.join_text values.
Proof.
  intros T F. unfold Server.csv, Endpoints.joined. cbn [Server.or_default].
  destruct values as [|v values]; [reflexivity|].
  assert (N : join "," (map Endpoints.join_text (v :: values)) <> EmptyString).
  { cbn [map]. apply join_nonempty, join_text_nonempty. now inversion T. }
  destruct (join "," (map Endpoints.join_text (v :: values))) as [|c s] eqn:E;
    [congruence|].
  cbn [truthy_str]. rewrite <- E.
  apply (split_join ","); [discriminate|].
  now apply Forall_map.
Qed.

Lemma filter_list_splits_back_witness :
  Forall (fun v => truthy v = true) [Str "Bangkok"; Str "Chiang Mai"] /\
  Forall (fun v => free_of "," (Endpoints.join_text v)) [Str "Bangkok"; Str "Chiang Mai"] /\
  Server.csv (Some (Endpoints.joined [Str "Bangkok"; Str "Chiang Mai"]))
  = ["Bangkok"; "Chiang Mai"].
Proof.
  assert (T : Forall (fun v => truthy v = true) [Str "Bangkok"; Str "Chiang Mai"])
    by (repeat constructor).
  assert (F : Forall (fun v => free_of "," (Endpoints.join_text v))
                [Str "Bangkok"; Str "Chiang Mai"])
    by (repeat constructor).
  split; [exact T|]. split; [exact F|].
  exact (filter_list_splits_back [Str "Bangkok"; Str "Chiang Mai"] T F).
Defined.

(** A place name with a comma comes back as two filter values. *)
Example comma_in_a_value_splits :
  Server.csv (Some (Endpoints.joined [Str "Koh Samui, Thailand"]))
  = ["Koh Samui"; " Thailand"].
Proof. reflexivity. Qed.

Lemma filter_lists_are_sets_witness :
  let sets :=
    {| Endpoints.set_origin := [Str "Bangkok"; Str "Chiang Mai"];
       Endpoints.set_destination := [Str "Phuket"; Str "Krabi"];
       Endpoints.set_transport_type := [];
       Endpoints.set_operator_name := [] |} in
  Endpoints.collect_filters overlapping = inl sets /\
  includes Endpoints.validFields "origin" = true /\
  NoDup (column_set "origin" sets) /\
  (In (Str "Bangkok") (column_set "origin" sets)
   <-> truthy (Str "Bangkok") = true /\ reported_by overlapping "origin" (Str "Bangkok")).
Proof.
  intros sets.
  assert (C : Endpoints.collect_filters overlapping = inl sets) by reflexivity.
  assert (V : includes Endpoints.validFields "origin" = true) by reflexivity.
  split; [exact C|]. split; [exact V|].
  destruct (filter_lists_are_sets overlapping sets "origin" C V) as [N I].
  split; [exact N | exact (I (Str "Bangkok"))].
Defined.

(* ----------------------------------------------------------------- *)
(** ** Routes *)

Lemma lower_is_no_provider (db : Server.pools) (x lowered : string) :
  toLowerCase x = lowered ->
  existsb (fun name => String.eqb (toLowerCase name) lowered) provider_names = false ->
  Server.lookup_pool db x = Server.NoSuchKey.
Proof.
  intros L N.
  destruct (Server.lookup_pool db x) eqn:P; [ | |reflexivity]; exfalso;
    (assert (I : In x provider_names) by (apply (lookup_pool_names db); congruence));
    (assert (E : existsb (fun name => String.eqb (toLowerCase name) lowered) provider_names
                 = true)
       by (apply existsb_exists; exists x; split; [exact I | now apply String.eqb_eq]));
    congruence.
Qed.

Section Shadowing.

Variable lru : Type.
Variable lru_get : lru -> string -> option json * lru.
Variable lru_set : lru -> string -> json -> lru.
Variable lru_size : lru -> Z.

(** X13.  A request for /api/filters/search never reaches the handler
    registered for it: the route /api/:provider/search, registered
    earlier, takes it with provider "filters" and rejects it with 400,
    leaving cache and counters alone. *)
Theorem filters_search_is_shadowed (path : list string) :
  Router.matches filters_search_pattern path <> None ->
  exists provider,
    Router.dispatch Router.routes path
    = Some (Router.ProviderSearch, [("provider", provider)]) /\
    forall field q db st,
      Endpoints.search lru_get lru_set lru_size provider field q db st
      = (invalid_provider, st).
Proof.
  unfold filters_search_pattern. intros M.
  destruct path as [|a [|b [|c [|d path]]]]; cbn [Router.matches] in M;
    try congruence;
    destruct (String.eqb (toLowerCase a) (toLowerCase "api")) eqn:A; try congruence;
    destruct (String.eqb (toLowerCase b) (toLowerCase "filters")) eqn:B; try congruence;
    destruct (String.eqb (toLowerCase c) (toLowerCase "search")) eqn:C; try congruence.
  clear M. exists b.
  apply String.eqb_eq in B, C.
  change (toLowerCase "filters") with "filters" in B.
  change (toLowerCase "search") with "search" in C.
  split.
  - unfold Router.routes. cbn [Router.dispatch Router.matches].
    rewrite A, B, C. cbn [toLowerCase map_string lower_char String.eqb Ascii.eqb Bool.eqb].
    simpl.
    destruct b as [|x b]; [discriminate B|]. reflexivity.
  - intros field q db st. unfold Endpoints.search.
    now rewrite (lower_is_no_provider db b "filters" B eq_refl).
Qed.

End Shadowing.

Lemma filters_search_is_shadowed_witness :
  Router.matches filters_search_pattern ["api"; "filters"; "search"] <> None /\
  Router.dispatch Router.routes ["api"; "filters"; "search"]
  = Some (Router.ProviderSearch, [("provider", "filters")]).
Proof.
  assert (M : Router.matches filters_search_pattern ["api"; "filters"; "search"] <> None)
    by discriminate.
  split; [exact M|].
  destruct (filters_search_is_shadowed keeping keeping_get keeping_set keeping_size
              ["api"; "filters"; "search"] M) as (provider & D & _).
  rewrite D. vm_compute in D. injection D as <-. reflexivity.
Defined.

(** X14.  Reached or not, the handler of /api/filters/search lists nothing:
    it reads [.rows] off the rows [safeQuery] has already unwrapped, so
    a recognised field ends in 500 whatever the database answers, and
    an unrecognised one in an empty list. *)
Theorem filters_search_never_lists (field query : option string) (db : Server.pools) :
  let r := Endpoints.filters_search field query db in
  (status r = 200%Z ->
   Endpoints.columnName (Server.or_default EmptyString field) = None /\
   body r = JObj [("success", JV (Bool true)); ("data", JArr [])]) /\
  (truthy_str field = true -> truthy_str query = true ->
   Endpoints.columnName (Server.or_default EmptyString field) <> None ->
   status r = 500%Z).
Proof.
  unfold Endpoints.filters_search, Endpoints.search_provider, Endpoints.rows_of_array.
  cbv zeta.
  destruct (truthy_str field); [|split; [discriminate | discriminate]].
  destruct (truthy_str query); [|split; [discriminate | discriminate]].
  cbn [negb orb].
  destruct (Endpoints.columnName (Server.or_default EmptyString field)) as [column|].
  - destruct (Server.pool_12go db _ _); (split; [discriminate | reflexivity]).
  - split; [intros _; split; reflexivity | congruence].
Qed.

Lemma filters_search_never_lists_witness :
  truthy_str (Some "From") = true /\ truthy_str (Some "Bang") = true /\
  Endpoints.columnName (Server.or_default EmptyString (Some "From")) <> None /\
  status (Endpoints.filters_search (Some "From") (Some "Bang") both_providers_up) = 500%Z.
Proof.
  assert (N : Endpoints.columnName (Server.or_default EmptyString (Some "From")) <> None)
    by discriminate.
  split; [reflexivity|]. split; [reflexivity|]. split; [exact N|].
  exact (proj2 (filters_search_never_lists (Some "From") (Some "Bang") both_providers_up)
           eq_refl eq_refl N).
Defined.

(* ----------------------------------------------------------------- *)
(** ** The older combined-trips handler of migrateomio.js *)

Lemma numbered_app (from : nat) (a b : list (string * string)) :
  numbered from (List.app a b) = numbered from a ++ numbered (from + List.length a) b.
Proof.
  revert from. induction a as [|[f v] a IH]; intros from.
  - simpl. now rewrite Nat.add_0_r.
  - cbn [List.app numbered List.length]. rewrite IH, !append_assoc.
    now replace (from + S (List.length a)) with (S from + List.length a) by lia.
Qed.

Lemma addFilter_entry (field : string) (value : option string) (s : string)
    (b : Legacy.binder) :
  Legacy.addFilter field value (s, b)
  = (s ++ numbered (Legacy.paramIndex b) (entry field value),
     {| Legacy.params := List.app (Legacy.params b) (bound (entry field value));
        Legacy.paramIndex := Legacy.paramIndex b + List.length (entry field value) |}).
Proof.
  unfold Legacy.addFilter, entry. destruct (truthy_str value); simpl.
  - now rewrite append_empty_r.
  - rewrite append_empty_r, app_nil_r, Nat.add_0_r. now destruct b.
Qed.

Lemma four_filters_present (q : Legacy.query) (s : string) (b : Legacy.binder) :
  Legacy.four_filters q (s, b)
  = (s ++ numbered (Legacy.paramIndex b) (present q),
     {| Legacy.params := List.app (Legacy.params b) (bound (present q));
        Legacy.paramIndex := Legacy.paramIndex b + List.length (present q) |}).
Proof.
  unfold Legacy.four_filters, present.
  rewrite !addFilter_entry. cbn [Legacy.params Legacy.paramIndex].
  rewrite !numbered_app, !append_assoc. unfold bound.
  rewrite !map_app, !length_app, <- !app_assoc, !Nat.add_assoc.
  reflexivity.
Qed.

(** X15.  In the older handler both statements draw their placeholders from
    one counter and their values from one array: the 12go statement
    numbers its filters from $1, the bookaway statement goes on from
    where the first stopped, and both are sent with every filter value
    bound twice. *)
Theorem legacy_filters_are_bound_twice (q : Legacy.query) :
  let k := List.length (present q) in
  exists dates tail,
    Legacy.query12go (Legacy.build q)
    = Legacy.query12go_base ++ numbered 1 (present q) ++ tail /\
    Legacy.queryBookaway (Legacy.build q)
    = Legacy.queryBookaway_base ++ numbered (1 + k) (present q) ++ tail /\
    Legacy.values (Legacy.build q)
    = List.app (bound (present q)) (List.app (bound (present q)) dates) /\
    (dates = [] \/ List.length dates = 2).
Proof.
  intros k. unfold Legacy.build.
  rewrite four_filters_present. cbn [Legacy.paramIndex Legacy.params Legacy.binder0].
  rewrite four_filters_present. cbn [Legacy.paramIndex Legacy.params]. fold k.
  cbn [List.app].
  destruct (String.eqb _ "Custom" && truthy_str (Legacy.timeline q)
            && truthy_str (Legacy.start_date q) && truthy_str (Legacy.end_date q)).
  - match goal with
    | |- context [Legacy.Build_statements (_ ++ ?t) _ (List.app _ ?d)] =>
        exists d, t
    end.
    cbn [Legacy.query12go Legacy.queryBookaway Legacy.values].
    rewrite !append_assoc, <- !app_assoc.
    split; [reflexivity|]. split; [reflexivity|]. split; [reflexivity|]. now right.
  - assert (P : forall c,
               exists dates tail,
                 (Legacy.query12go_base ++ numbered 1 (present q)) ++ c
                 = Legacy.query12go_base ++ numbered 1 (present q) ++ tail /\
                 (Legacy.queryBookaway_base ++ numbered (1 + k) (present q)) ++ c
                 = Legacy.queryBookaway_base ++ numbered (1 + k) (present q) ++ tail /\
                 List.app (bound (present q)) (bound (present q))
                 = List.app (bound (present q)) (List.app (bound (present q)) dates) /\
                 (dates = [] \/ List.length dates = 2)).
    { intros c. exists [], c. rewrite !append_assoc, app_nil_r. auto. }
    destruct (truthy_str (Legacy.timeline q));
      [destruct (Legacy.is_empty _)|];
      cbn [Legacy.query12go Legacy.queryBookaway Legacy.values].
    + specialize (P EmptyString). now rewrite !append_empty_r in P.
    + apply P.
    + specialize (P EmptyString). now rewrite !append_empty_r in P.
Qed.

(** With an origin and a transport type the bookaway statement asks
    for $3 and $4, and four values are bound. *)
Example legacy_second_statement_numbering :
  Legacy.queryBookaway (Legacy.build by_origin_and_type)
  = Legacy.queryBookaway_base ++ " AND origin = $3 AND transport_type = $4" /\
  Legacy.values (Legacy.build by_origin_and_type)
  = [Str "Bangkok"; Str "Bus"; Str "Bangkok"; Str "Bus"].
Proof. split; reflexivity. Qed.

(** X16.  The older handler never lists a trip: it reads [.rows] off the
    rows [safeQuery] has already unwrapped, so a success carries an
    empty list and count 0, whatever the tables hold. *)
Theorem legacy_combined_trips_lists_nothing (q : Legacy.query) (db : Server.pools) :
  let r := Legacy.combined_trips q db in
  (status r = 200%Z /\
   body r = JObj [ ("success", JV (Bool true)); ("data", JArr []);
                   ("count", JV (Number (Num 0))) ]) \/
  (status r = 500%Z /\
   body r = JObj [ ("success", JV (Bool false));
                   ("error", JV (Str "Failed to fetch combined trips data")) ]).
Proof.
  unfold Legacy.combined_trips. cbv zeta.
  destruct (Server.pool_12go db _ _); [|right; split; reflexivity].
  destruct (Server.pool_bookaway db _ _); [|right; split; reflexivity].
  left. split; reflexivity.
Qed.

(* ----------------------------------------------------------------- *)
(** ** Accounting of the instrumented cache *)

Lemma calculateSize_nonneg (value : json) (key : string) :
  (0 <= Instrumented.calculateSize value key)%Z.
Proof. unfold Instrumented.calculateSize. destruct (Instrumented.safeStringify value); lia. Qed.

Lemma disposals_size (now : string) (gone : list (string * json))
    (cs : Instrumented.cacheStats) :
  (0 <= Instrumented.currentSize cs)%Z ->
  (0 <= Instrumented.currentSize (Instrumented.disposals now gone cs)
     <= Instrumented.currentSize cs)%Z.
Proof.
  unfold Instrumented.disposals. revert cs.
  induction gone as [|[k v] gone IH]; intros cs N; cbn [fold_left fst snd].
  - lia.
  - pose proof (calculateSize_nonneg v k) as S.
    assert (D : (0 <= Instrumented.currentSize (Instrumented.dispose now k v cs)
                   <= Instrumented.currentSize cs)%Z) by (simpl; lia).
    specialize (IH (Instrumented.dispose now k v cs) (proj1 D)). lia.
Qed.

Section Accounting.

Variable lru : Type.
Variable lru_get : lru -> string -> option json * lru * list (string * json).
Variable lru_set : lru -> string -> json -> lru * list (string * json).

Local Abbreviation step := (Instrumented.step lru_get lru_set).
Local Abbreviation run := (Instrumented.run lru_get lru_set).

Lemma step_accounts (st : Instrumented.state lru) (e : string * Instrumented.op) :
  (0 <= Instrumented.currentSize (Instrumented.stats st))%Z ->
  (Instrumented.hits (Instrumented.stats (step st e))
   + Instrumented.misses (Instrumented.stats (step st e))
   = Instrumented.hits (Instrumented.stats st) + Instrumented.misses (Instrumented.stats st)
     + counted_lookups [e])%Z /\
  (0 <= Instrumented.currentSize (Instrumented.stats (step st e)))%Z.
Proof.
  intros N. destruct e as [now [key|key value|key|key value|]];
    unfold Instrumented.step, counted_lookups; cbn [fst snd filter List.length].
  - unfold Instrumented.getFromCache.
    destruct (lru_get (Instrumented.cache st) key) as [[v c] gone].
    destruct (disposals_counts now gone (Instrumented.stats st)) as (H & M & _).
    pose proof (disposals_size now gone (Instrumented.stats st) N) as S.
    destruct v; cbn; rewrite H, M; lia.
  - unfold Instrumented.setInCache. cbv zeta.
    destruct (lru_set (Instrumented.cache st) key value) as [c gone]. cbn [Instrumented.stats].
    pose proof (calculateSize_nonneg value key) as V.
    match goal with
    | |- context [Instrumented.disposals now gone ?cs] =>
        destruct (disposals_counts now gone cs) as (H & M & _);
        pose proof (disposals_size now gone cs) as S
    end.
    cbn in *. rewrite H, M. lia.
  - unfold Instrumented.raw_get.
    destruct (lru_get (Instrumented.cache st) key) as [[v c] gone].
    destruct (disposals_counts now gone (Instrumented.stats st)) as (H & M & _).
    pose proof (disposals_size now gone (Instrumented.stats st) N) as S.
    cbn. rewrite H, M. lia.
  - unfold Instrumented.raw_set.
    destruct (lru_set (Instrumented.cache st) key value) as [c gone].
    destruct (disposals_counts now gone (Instrumented.stats st)) as (H & M & _).
    pose proof (disposals_size now gone (Instrumented.stats st) N) as S.
    cbn. rewrite H, M. lia.
  - cbn. lia.
Qed.

(** X17.  Along any sequence of cache uses, hits and misses together count
    exactly the lookups made through [getFromCache] (the handlers that
    read the cache directly are not counted), and the size on record
    never goes below zero. *)
Theorem lookups_are_counted (trace : list (string * Instrumented.op))
    (st : Instrumented.state lru) :
  (0 <= Instrumented.currentSize (Instrumented.stats st))%Z ->
  (Instrumented.hits (Instrumented.stats (run trace st))
   + Instrumented.misses (Instrumented.stats (run trace st))
   = Instrumented.hits (Instrumented.stats st) + Instrumented.misses (Instrumented.stats st)
     + counted_lookups trace)%Z /\
  (0 <= Instrumented.currentSize (Instrumented.stats (run trace st)))%Z.
Proof.
  unfold Instrumented.run. revert st.
  induction trace as [|e trace IH]; intros st N; cbn [fold_left].
  - unfold counted_lookups. simpl. lia.
  - destruct (step_accounts st e N) as [A S].
    destruct (IH (step st e) S) as [A' S']. split; [|exact S'].
    rewrite A', A. unfold counted_lookups. cbn [filter].
    destruct (snd e); cbn [List.length]; lia.
Qed.

End Accounting.

Lemma lookups_are_counted_witness :
  let st := Instrumented.run Instrumented.bounded_get (Instrumented.bounded_set 2)
              sample_trace two_slots in
  (0 <= Instrumented.currentSize (Instrumented.stats two_slots))%Z /\
  (Instrumented.hits (Instrumented.stats st) + Instrumented.misses (Instrumented.stats st)
   = 2)%Z /\
  (0 <= Instrumented.currentSize (Instrumented.stats st))%Z.
Proof.
  intros st.
  assert (N : (0 <= Instrumented.currentSize (Instrumented.stats two_slots))%Z)
    by (simpl; lia).
  split; [exact N|].
  exact (lookups_are_counted Instrumented.bounded Instrumented.bounded_get
           (Instrumented.bounded_set 2) sample_trace two_slots N).
Defined.

(* ----------------------------------------------------------------- *)
(** ** Page arithmetic of the provider listing *)

Lemma ceil_div_bounds (total limit : Z) :
  (1 <= limit)%Z ->
  ((- ((- total) / limit) - 1) * limit < total <= - ((- total) / limit) * limit)%Z.
Proof.
  intros L. pose proof (Z.div_mod (- total) limit ltac:(lia)) as D.
  pose proof (Z.mod_pos_bound (- total) limit ltac:(lia)) as M. nia.
Qed.

(** X18.  For a page size of at least 1, [totalPages] is the least number of
    pages that holds [total] rows, [hasNextPage] says that rows remain
    beyond this page, and [hasPrevPage] that the page is not the
    first. *)
Theorem provider_pagination_arithmetic (trips : list row) (total page limit : Z) :
  (1 <= limit)%Z ->
  let r := ok (Server.provider_response trips (Num total) (Num page) (Num limit)) in
  exists pages,
    pagination_field "totalPages" r = Some (JV (Number (Num pages))) /\
    ((pages - 1) * limit < total <= pages * limit)%Z /\
    pagination_field "hasNextPage" r = Some (JV (Bool (page * limit <? total)%Z)) /\
    pagination_field "hasPrevPage" r = Some (JV (Bool (1 <? page)%Z)).
Proof.
  intros L r. exists (- ((- total) / limit))%Z.
  pose proof (ceil_div_bounds total limit L) as B.
  subst r. unfold Server.provider_response, pagination_field. cbv zeta.
  unfold Math_ceil_div. destruct (Z.eqb_spec limit 0) as [->|_]; [lia|].
  cbn -[Z.div Z.mul Z.ltb Z.opp].
  split; [reflexivity|]. split; [exact B|]. split; [|reflexivity].
  do 3 f_equal.
  destruct (Z.ltb_spec page (- (- total / limit))), (Z.ltb_spec (page * limit) total);
    try reflexivity; nia.
Qed.

Lemma provider_pagination_arithmetic_witness :
  let r := ok (Server.provider_response [] (Num 25) (Num 2) (Num 10)) in
  (1 <= 10)%Z /\
  pagination_field "totalPages" r = Some (JV (Number (Num 3))) /\
  pagination_field "hasNextPage" r = Some (JV (Bool true)) /\
  pagination_field "hasPrevPage" r = Some (JV (Bool true)).
Proof.
  intros r.
  assert (L : (1 <= 10)%Z) by lia.
  split; [exact L|].
  destruct (provider_pagination_arithmetic [] 25 2 10 L) as (pages & P & _ & N & V).
  split; [reflexivity|]. split; [exact N | exact V].
Defined.

(* ----------------------------------------------------------------- *)
(** ** The import script *)

Lemma slice_length {A : Type} (i : nat) (xs : list A) :
  List.length (Importer.slice i xs) = Nat.min Importer.BATCH_SIZE (List.length xs - i).
Proof. unfold Importer.slice. now rewrite length_firstn, length_skipn. Qed.

Lemma slice_rest {A : Type} (i : nat) (xs : list A) :
  skipn i xs = List.app (Importer.slice i xs) (skipn (i + Importer.BATCH_SIZE) xs).
Proof.
  unfold Importer.slice. rewrite Nat.add_comm, <- skipn_skipn.
  symmetry. apply firstn_skipn.
Qed.

Lemma nth_error_flat_map {A B : Type} (f : A -> list B) (n : nat) (l : list A)
    (idx j : nat) (x : A) :
  (forall a, List.length (f a) = n) ->
  nth_error l idx = Some x -> j < n ->
  nth_error (flat_map f l) (idx * n + j) = nth_error (f x) j.
Proof.
  intros L. revert idx. induction l as [|a l IH]; intros [|idx] H J; simpl in H;
    try discriminate.
  - injection H as ->. cbn [flat_map Nat.mul Nat.add].
    rewrite nth_error_app1 by (rewrite L; exact J). reflexivity.
  - cbn [flat_map]. rewrite nth_error_app2 by (rewrite L; simpl; lia).
    rewrite L. replace (S idx * n + j - n) with (idx * n + j) by (simpl; lia).
    now apply IH.
Qed.

(* ----------------------------------------------------------------- *)
(** ** The placeholders of a statement *)

Lemma digits_of_uint (d : Decimal.uint) (rest : string) :
  leading_digits (NilEmpty.string_of_uint d ++ rest)
  = NilEmpty.string_of_uint d ++ leading_digits rest /\
  placeholders (NilEmpty.string_of_uint d ++ rest) = placeholders rest.
Proof.
  induction d as [|d [L P]|d [L P]|d [L P]|d [L P]|d [L P]|d [L P]|d [L P]|d [L P]
                  |d [L P]|d [L P]];
    [split; reflexivity|..];
    cbn [NilEmpty.string_of_uint append leading_digits placeholders];
    (split; [change (is_digit _) with true; cbv iota; now rewrite L
            | change (Ascii.eqb _ "$") with false; cbv iota; exact P]).
Qed.

Lemma digits_of_nat (n : nat) (rest : string) :
  leading_digits (nat_to_string n ++ rest) = nat_to_string n ++ leading_digits rest /\
  placeholders (nat_to_string n ++ rest) = placeholders rest.
Proof.
  unfold nat_to_string, Z_to_string.
  destruct (Z.of_nat n) as [|p|p] eqn:E; [split; reflexivity| |lia].
  unfold Z.to_int, NilZero.string_of_int, NilZero.string_of_uint.
  destruct (Pos.to_uint p) eqn:U; [split; reflexivity|..];
    rewrite <- U; apply digits_of_uint.
Qed.

(** A placeholder followed by something that is not a digit. *)
Lemma placeholder_then (n : nat) (c : ascii) (rest : string) :
  is_digit c = false ->
  placeholders (String "$" (nat_to_string n ++ String c rest))
  = nat_to_string n :: placeholders (String c rest).
Proof.
  intros D. cbn [placeholders]. change (Ascii.eqb "$" "$") with true. cbv iota.
  destruct (digits_of_nat n (String c rest)) as [L P]. rewrite L, P.
  cbn [leading_digits]. rewrite D. now rewrite append_empty_r.
Qed.

Lemma placeholders_free (p rest : string) :
  occurs "$" p = false -> placeholders (p ++ rest) = placeholders rest.
Proof.
  induction p as [|c p IH]; [reflexivity|].
  cbn [occurs append placeholders].
  intros H. apply orb_false_iff in H as [N H].
  rewrite Ascii.eqb_sym, N. now apply IH.
Qed.

Lemma row_placeholders_scanned (idx : nat) (rest : string) :
  placeholders (Importer.row_placeholders idx ++ rest)
  = List.app (map nat_to_string (seq (idx * 13 + 1) 13)) (placeholders rest).
Proof.
  unfold Importer.row_placeholders. cbv zeta.
  rewrite !append_assoc.
  cbn [append].
  change (placeholders (String "(" ?s)) with (placeholders s).
  rewrite placeholder_then by reflexivity.
  do 12 (change (placeholders (String "," ?s)) with (placeholders s);
         rewrite placeholder_then by reflexivity).
  change (placeholders (String ")" ?s)) with (placeholders s).
  cbn [seq map List.app].
  repeat (apply f_equal2; [f_equal; lia|]). reflexivity.
Qed.

Lemma values_rest_scanned (k a : nat) (rest : string) :
  placeholders
    (String.concat EmptyString
       (map (fun y => "," ++ y) (map Importer.row_placeholders (seq a k))) ++ rest)
  = List.app (map nat_to_string (seq (a * 13 + 1) (k * 13))) (placeholders rest).
Proof.
  revert a. induction k as [|k IH]; intros a; [reflexivity|].
  cbn [seq map]. rewrite concat_cons, !append_assoc.
  cbn [append]. change (placeholders (String "," ?s)) with (placeholders s).
  rewrite row_placeholders_scanned, IH.
  replace (S k * 13) with (13 + k * 13) by lia.
  rewrite seq_app, map_app, <- app_assoc.
  replace (S a * 13 + 1) with (a * 13 + 1 + 13) by lia. reflexivity.
Qed.

Lemma values_clause_scanned {A : Type} (batch : list A) (rest : string) :
  placeholders (Importer.values_clause batch ++ rest)
  = List.app (map nat_to_string (seq 1 (List.length batch * 13))) (placeholders rest).
Proof.
  unfold Importer.values_clause, join.
  destruct (List.length batch) as [|k]; [reflexivity|].
  cbn [seq map]. rewrite append_assoc, row_placeholders_scanned, values_rest_scanned.
  replace (S k * 13) with (13 + k * 13) by lia.
  rewrite seq_app, map_app, <- app_assoc. reflexivity.
Qed.

(** The placeholders of the INSERT are $1, $2, ... up to thirteen times
    the number of records, in this order. *)
Lemma insert_statement_scanned (batch : list Importer.trip) :
  placeholders (Importer.insert_statement batch)
  = map nat_to_string (seq 1 (List.length batch * 13)).
Proof.
  assert (E : Importer.insert_statement batch
              = (Server.nl ++ "        INSERT INTO trips (" ++ Server.nl
                 ++ "          route_url, origin, destination," ++ Server.nl
                 ++ "          departure_time, arrival_time, transport_type," ++ Server.nl
                 ++ "          duration_min, price, price_inr, currency," ++ Server.nl
                 ++ "          travel_date, operator_name, provider" ++ Server.nl
                 ++ "        ) VALUES ")
                ++ Importer.values_clause batch ++ Server.nl ++ "      ")
    by (unfold Importer.insert_statement; now rewrite !append_assoc).
  rewrite E, placeholders_free by reflexivity.
  rewrite values_clause_scanned. simpl. now rewrite app_nil_r.
Qed.

Lemma nth_error_numbered (start len k : nat) :
  k < len -> nth_error (map nat_to_string (seq start len)) k = Some (nat_to_string (start + k)).
Proof.
  revert start k. induction len as [|len IH]; intros start [|k] H; try lia.
  - cbn. now rewrite Nat.add_0_r.
  - cbn [seq map nth_error]. rewrite IH by lia. do 2 f_equal. lia.
Qed.

Section ImportFacts.

Variable positive_price : prim -> bool.
Variable parseTimestamp : prim -> prim.
Variable parseDate : prim -> prim.
Variable parseDurationMinutes : prim -> prim.
Variable parsePriceNumber : prim -> prim.
Variable to_inr : prim -> prim.
Variable insert : string -> list prim -> bool.

Local Abbreviation columns :=
  (Importer.columns parseTimestamp parseDate parseDurationMinutes parsePriceNumber to_inr).
Local Abbreviation flatParams :=
  (Importer.flatParams parseTimestamp parseDate parseDurationMinutes parsePriceNumber to_inr).
Local Abbreviation loop :=
  (Importer.loop parseTimestamp parseDate parseDurationMinutes parsePriceNumber to_inr
     insert).
Local Abbreviation run :=
  (Importer.run positive_price parseTimestamp parseDate parseDurationMinutes
     parsePriceNumber to_inr insert).

(** X19.  The value bound to a placeholder of the INSERT statement is the
    column it stands for: the statement's placeholders are $1, $2, ...
    in the order written, thirteen for each record; the one at
    position 13 idx + j, which is the j-th of row idx, is
    $(13 idx + j + 1), and position 13 idx + j of the bound values
    holds column j of record idx of the batch; nothing else is bound. *)
Theorem import_values_align (batch : list Importer.trip) (idx j : nat) (t : Importer.trip) :
  nth_error batch idx = Some t -> j < 13 ->
  placeholders (Importer.insert_statement batch)
  = map nat_to_string (seq 1 (List.length (flatParams batch))) /\
  nth_error (placeholders (Importer.insert_statement batch)) (idx * 13 + j)
  = Some (nat_to_string (idx * 13 + j + 1)) /\
  nth_error (placeholders (Importer.row_placeholders idx)) j
  = Some (nat_to_string (idx * 13 + j + 1)) /\
  nth_error (flatParams batch) (idx * 13 + j) = nth_error (columns t) j /\
  List.length (flatParams batch) = 13 * List.length batch.
Proof.
  intros H J.
  assert (L : List.length (flatParams batch) = 13 * List.length batch).
  { unfold Importer.flatParams. clear H. induction batch as [|a batch IH]; [reflexivity|].
    cbn [flat_map List.length]. rewrite length_app, IH.
    change (List.length (columns a)) with 13. lia. }
  assert (I : idx < List.length batch) by (apply nth_error_Some; congruence).
  split; [|split; [|split; [|split]]].
  - rewrite insert_statement_scanned, L. do 2 f_equal. lia.
  - rewrite insert_statement_scanned, nth_error_numbered by lia. do 2 f_equal. lia.
  - rewrite <- (append_empty_r (Importer.row_placeholders idx)).
    rewrite row_placeholders_scanned. cbn [placeholders]. rewrite app_nil_r.
    rewrite nth_error_numbered by lia. do 2 f_equal. lia.
  - unfold Importer.flatParams. now apply nth_error_flat_map.
  - exact L.
Qed.

Local Abbreviation stopped := (stopped insert flatParams).

Lemma loop_stops (valid : list Importer.trip) (fuel i imported : nat)
    (sent : list (list Importer.trip)) :
  List.length valid <= fuel * Importer.BATCH_SIZE + i ->
  exists o chunks,
    loop fuel valid i imported sent = Some (o, List.app sent chunks) /\
    stopped valid i imported o chunks.
Proof.
  assert (B : Importer.BATCH_SIZE = 400) by reflexivity.
  revert i imported sent.
  induction fuel as [|fuel IH]; intros i imported sent F.
  - exists (Importer.Completed imported), [].
    assert (G : Nat.ltb i (List.length valid) = false) by (apply Nat.ltb_ge; lia).
    rewrite app_nil_r. split.
    + destruct valid; cbn [Importer.loop]; now rewrite G.
    + exists []. rewrite skipn_all2 by lia.
      split; [reflexivity|]. split; [constructor|]. split; [simpl; lia | reflexivity].
  - cbn [Importer.loop].
    destruct (Nat.ltb_spec i (List.length valid)) as [Lt|Ge].
    + pose proof (slice_rest i valid) as R.
      pose proof (slice_length i valid) as SL.
      destruct (insert _ _) eqn:Ins.
      * destruct (IH (i + Importer.BATCH_SIZE)
                     (imported + List.length (Importer.slice i valid))
                     (List.app sent [Importer.slice i valid]))
          as (o & chunks & E & rest & Sk & Fo & M); [lia|].
        exists o, (Importer.slice i valid :: chunks).
        split; [rewrite E, <- app_assoc; reflexivity|].
        exists rest. split; [|split].
        -- rewrite R, Sk. cbn [List.concat]. now rewrite app_assoc.
        -- constructor; [|exact Fo]. unfold batch_sized. lia.
        -- cbn [List.concat]. rewrite length_app.
           destruct o; intuition lia.
      * exists (Importer.Rejected imported), []. rewrite app_nil_r.
        split; [reflexivity|]. exists (skipn i valid).
        split; [reflexivity|]. split; [constructor|].
        split; [simpl; lia|]. split.
        -- intros N. apply (f_equal (@List.length _)) in N.
           rewrite length_skipn in N. simpl in N. lia.
        -- exact Ins.
    + exists (Importer.Completed imported), []. rewrite app_nil_r.
      split; [reflexivity|]. exists []. rewrite skipn_all2 by lia.
      split; [reflexivity|]. split; [constructor|]. split; [simpl; lia | reflexivity].
Qed.

(** X20.  The import always comes to an end.  The batches written are the
    valid records in their order, cut into pieces of at most 400; when
    it completes every valid record is written and counted, and when an
    insert is rejected the count is that of the records written before
    it. *)
Theorem import_stops (trips : list Importer.trip) :
  exists o sent,
    run trips = Some (o, sent) /\
    stopped (Importer.validTrips positive_price trips) 0 0 o sent.
Proof.
  unfold Importer.run.
  destruct (loop_stops (Importer.validTrips positive_price trips)
              (List.length (Importer.validTrips positive_price trips)) 0 0 [])
    as (o & chunks & E & S).
  - unfold Importer.BATCH_SIZE. lia.
  - exists o, chunks. split; [exact E | exact S].
Qed.

(** X21.  When no insert is rejected, the import writes every valid record
    exactly once, in order, and reports their number. *)
Theorem import_completes (trips : list Importer.trip) :
  (forall text values, insert text values = true) ->
  exists sent,
    run trips = Some (Importer.Completed
                        (List.length (Importer.validTrips positive_price trips)), sent) /\
    List.concat sent = Importer.validTrips positive_price trips /\
    Forall batch_sized sent.
Proof.
  intros A. unfold Importer.run.
  destruct (loop_stops (Importer.validTrips positive_price trips)
              (List.length (Importer.validTrips positive_price trips)) 0 0 [])
    as (o & sent & E & rest & Sk & Fo & M); [unfold Importer.BATCH_SIZE; lia|].
  cbn [skipn List.app] in *. exists sent. destruct o as [n|n].
  - destruct M as [-> ->]. rewrite app_nil_r in Sk.
    rewrite E, Sk. simpl. auto.
  - destruct M as (_ & _ & Ins). rewrite A in Ins. discriminate.
Qed.

End ImportFacts.

Lemma import_values_align_witness :
  nth_error [complete_record] 0 = Some complete_record /\ 5 < 13 /\
  nth_error (placeholders (Importer.insert_statement [complete_record])) 5 = Some "6" /\
  nth_error (Importer.flatParams as_it_is as_it_is as_it_is as_it_is as_it_is
               [complete_record]) 5
  = Some (Str "Bus").
Proof.
  assert (J : 5 < 13) by lia.
  pose proof (import_values_align as_it_is as_it_is as_it_is as_it_is as_it_is
                [complete_record] 0 5 complete_record eq_refl J) as (_ & P & _ & V & _).
  split; [reflexivity|]. split; [exact J|]. split; [exact P | exact V].
Defined.

Lemma import_completes_witness :
  (forall text values, accepting text values = true) /\
  Importer.run any_price as_it_is as_it_is as_it_is as_it_is as_it_is accepting
    [complete_record; unpriced_record]
  = Some (Importer.Completed 1, [[complete_record]]).
Proof.
  assert (A : forall text values, accepting text values = true) by reflexivity.
  split; [exact A|].
  destruct (import_completes any_price as_it_is as_it_is as_it_is as_it_is as_it_is
              accepting [complete_record; unpriced_record] A) as (sent & E & C & _).
  rewrite E. change (Importer.validTrips any_price [complete_record; unpriced_record])
    with [complete_record] in *.
  destruct sent as [|b [|b' sent]]; [discriminate C | | ].
  - simpl in C. rewrite app_nil_r in C. now subst b.
  - exfalso. apply (f_equal (fun o => match o with
                                       | Some (_, s) => List.length s
                                       | None => 0
                                       end)) in E.
    vm_compute in E. discriminate E.
Defined.

(* ----------------------------------------------------------------- *)
(** ** The metrics endpoints *)

Lemma conditions_from_app (template : string -> nat -> string) (from : nat)
    (a b : list (string * string)) :
  conditions_from template from (List.app a b)
  = List.app (conditions_from template from a)
      (conditions_from template (from + List.length a) b).
Proof.
  revert from. induction a as [|[c v] a IH]; intros from; cbn [List.app conditions_from].
  - simpl. now rewrite Nat.add_0_r.
  - rewrite IH. cbn [List.length List.app].
    now replace (from + S (List.length a)) with (S from + List.length a) by lia.
Qed.

Lemma bound_length (filters : list (string * string)) :
  List.length (bound filters) = List.length filters.
Proof. apply length_map. Qed.

Lemma add_lower_entry (column : string) (v : option string) (s : Endpoints.metric_filters) :
  Endpoints.add_lower column v s
  = {| Endpoints.m_params := List.app (Endpoints.m_params s) (bound (entry column v));
       Endpoints.m_conditions :=
         List.app (Endpoints.m_conditions s)
           (conditions_from lower_condition (List.length (Endpoints.m_params s) + 1)
              (entry column v)) |}.
Proof.
  unfold Endpoints.add_lower, entry. destruct (truthy_str v); [reflexivity|].
  simpl. rewrite !app_nil_r. now destruct s.
Qed.

Lemma add_exact_entry (column : string) (v : option string) (s : Endpoints.metric_filters) :
  Endpoints.add_exact column v s
  = {| Endpoints.m_params := List.app (Endpoints.m_params s) (bound (entry column v));
       Endpoints.m_conditions :=
         List.app (Endpoints.m_conditions s)
           (conditions_from exact_condition (List.length (Endpoints.m_params s) + 1)
              (entry column v)) |}.
Proof.
  unfold Endpoints.add_exact, entry. destruct (truthy_str v).
  - cbv zeta. cbn [bound map conditions_from snd]. unfold exact_condition.
    now rewrite length_app.
  - simpl. rewrite !app_nil_r. now destruct s.
Qed.

(** X22.  The metrics handlers bind their filter values by position: the
    n-th filter that is set contributes the n-th bound value and a
    condition on placeholder $n, in the handlers that number before
    they push as in the one that numbers after. *)
Theorem metric_filters_bind_by_position (q : Endpoints.metric_query) :
  Endpoints.m_params (Endpoints.lower_filters q) = bound (metric_present q) /\
  Endpoints.m_conditions (Endpoints.lower_filters q)
  = conditions_from lower_condition 1 (metric_present q) /\
  Endpoints.m_params (Endpoints.exact_filters q) = bound (metric_present q) /\
  Endpoints.m_conditions (Endpoints.exact_filters q)
  = conditions_from exact_condition 1 (metric_present q).
Proof.
  unfold Endpoints.lower_filters, Endpoints.exact_filters, metric_present.
  rewrite !add_lower_entry, !add_exact_entry.
  cbn [Endpoints.m_params Endpoints.m_conditions Endpoints.no_metric_filters List.app].
  rewrite !conditions_from_app. unfold bound. rewrite !map_app, !length_app, !length_map.
  cbn [List.length]. rewrite !Nat.add_0_l.
  rewrite <- !app_assoc, !(Nat.add_comm _ 1), !Nat.add_assoc.
  repeat split; reflexivity.
Qed.

Lemma aggregate_down (p : pool) (select : string) (params : list prim)
    (conditions : list string) (k : string) :
  down p -> exists m, Endpoints.aggregate p select params conditions k = inr m.
Proof.
  intros D. unfold Endpoints.aggregate.
  destruct (D (Endpoints.with_where select conditions) params) as [m ->]. eauto.
Qed.

(** X23.  The metrics endpoints do not degrade: with either provider down,
    each of them answers 500 and reports nothing of the other
    provider. *)
Theorem metrics_need_both_providers (now : string) (q : Endpoints.metric_query)
    (db : Server.pools) :
  down (Server.pool_12go db) \/ down (Server.pool_bookaway db) ->
  status (Endpoints.highest_price q db) = 500%Z /\
  status (Endpoints.lowest_price now q db) = 500%Z /\
  status (Endpoints.unique_routes now q db) = 500%Z /\
  status (Endpoints.unique_providers now q db) = 500%Z.
Proof.
  intros D.
  unfold Endpoints.highest_price, Endpoints.lowest_price, Endpoints.unique_routes,
    Endpoints.unique_providers, Endpoints.getHighestPrice, Endpoints.getLowestPrice,
    Endpoints.getUniqueRoutes, Endpoints.getUniqueProviders, Endpoints.both.
  cbv zeta.
  destruct D as [D|D];
    repeat match goal with
           | |- context [Endpoints.aggregate (Server.pool_12go db) ?s ?p ?c ?k] =>
               first
                 [ destruct (aggregate_down _ s p c k D) as [? ->]
                 | destruct (Endpoints.aggregate (Server.pool_12go db) s p c k) ]
           | |- context [Endpoints.aggregate (Server.pool_bookaway db) ?s ?p ?c ?k] =>
               first
                 [ destruct (aggregate_down _ s p c k D) as [? ->]
                 | destruct (Endpoints.aggregate (Server.pool_bookaway db) s p c k) ]
           end;
    repeat split; reflexivity.
Qed.

Lemma metrics_need_both_providers_witness :
  (down (Server.pool_12go one_provider_down)
   \/ down (Server.pool_bookaway one_provider_down)) /\
  status (Endpoints.lowest_price "2024-01-01T00:00:00.000Z" bangkok_by_bus one_provider_down)
  = 500%Z.
Proof.
  assert (D : down (Server.pool_12go one_provider_down)
              \/ down (Server.pool_bookaway one_provider_down))
    by (right; intros text values; eexists; reflexivity).
  split; [exact D|].
  exact (proj1 (proj2 (metrics_need_both_providers "2024-01-01T00:00:00.000Z"
                         bangkok_by_bus one_provider_down D))).
Defined.

(** Two filters set: two values, two conditions, numbered 1 and 2. *)
Example two_metric_filters :
  Endpoints.m_params (Endpoints.lower_filters bangkok_by_bus) = [Str "Bangkok"; Str "Bus"] /\
  Endpoints.m_conditions (Endpoints.lower_filters bangkok_by_bus)
  = ["LOWER(origin) = LOWER($1)"; "LOWER(transport_type) = LOWER($2)"] /\
  Endpoints.m_conditions (Endpoints.exact_filters bangkok_by_bus)
  = ["origin = $1"; "transport_type = $2"].
Proof. repeat split; reflexivity. Qed.

(* ----------------------------------------------------------------- *)
(** ** Statement texts *)

Ltac fixed_text :=
  unfold fixed_statements, Endpoints.validFields;
  cbn [flat_map List.app In];
  repeat first [ left; reflexivity | right ].

Lemma lookup_pool_cases (db : Server.pools) (provider : string) :
  (provider = "12go" /\ Server.lookup_pool db provider = Server.IsPool (Server.pool_12go db)) \/
  (provider = "bookaway" /\
   Server.lookup_pool db provider = Server.IsPool (Server.pool_bookaway db)) \/
  (String.eqb provider "bookaway" = false /\
   forall db', Server.lookup_pool db' provider = Server.lookup_pool db provider /\
               Server.lookup_pool db provider <> Server.IsPool (Server.pool_12go db) /\
               forall p, Server.lookup_pool db provider <> Server.IsPool p).
Proof.
  unfold Server.lookup_pool.
  destruct (String.eqb_spec provider "12go") as [->|_]; [left; now split|].
  destruct (String.eqb_spec provider "bookaway") as [->|_]; [right; left; now split|].
  right; right. split; [reflexivity|]. intros db'.
  destruct (includes Server.object_prototype_keys provider); repeat split; discriminate.
Qed.

Section FixedStatements.

Variable lru : Type.
Variable lru_get : lru -> string -> option json * lru.
Variable lru_set : lru -> string -> json -> lru.
Variable lru_size : lru -> Z.

Variables db db' : Server.pools.
Hypothesis agree : agree_on fixed_statements db db'.

Lemma agree_12go (text : string) (values : list prim) :
  In text fixed_statements ->
  Server.pool_12go db text values = Server.pool_12go db' text values.
Proof. intros I. now destruct (agree text values I). Qed.

Lemma agree_bookaway (text : string) (values : list prim) :
  In text fixed_statements ->
  Server.pool_bookaway db text values = Server.pool_bookaway db' text values.
Proof. intros I. now destruct (agree text values I). Qed.

Lemma provider_trips_fixed (provider : string) (page limit : option string)
    (st : Server.state lru) :
  Server.provider_trips lru_get lru_set lru_size provider page limit db st
  = Server.provider_trips lru_get lru_set lru_size provider page limit db' st.
Proof.
  unfold Server.provider_trips. cbv zeta.
  destruct (lookup_pool_cases db provider) as [[-> L]|[[-> L]|[_ L]]].
  - cbn [Server.lookup_pool String.eqb Ascii.eqb Bool.eqb].
    destruct (Server.getFromCache lru_get _ st) as [cached st1].
    destruct (served cached); [reflexivity|].
    rewrite !(agree_12go _ _) by fixed_text. reflexivity.
  - cbn [Server.lookup_pool String.eqb Ascii.eqb Bool.eqb].
    destruct (Server.getFromCache lru_get _ st) as [cached st1].
    destruct (served cached); [reflexivity|].
    rewrite !(agree_bookaway _ _) by fixed_text. reflexivity.
  - destruct (L db') as (E & _ & N). rewrite E.
    destruct (Server.lookup_pool db provider) as [p| |]; [now destruct (N p)| |];
      reflexivity.
Qed.

Lemma search_fixed (provider : string) (field q : option string) (st : Server.state lru) :
  Endpoints.search lru_get lru_set lru_size provider field q db st
  = Endpoints.search lru_get lru_set lru_size provider field q db' st.
Proof.
  unfold Endpoints.search. cbv zeta.
  destruct (lookup_pool_cases db provider) as [[-> L]|[[-> L]|[_ L]]].
  - cbn [Server.lookup_pool String.eqb Ascii.eqb Bool.eqb].
    destruct (negb (truthy_str field) || negb (truthy_str q)); [reflexivity|].
    destruct (includes Endpoints.validFields _) eqn:V; [|reflexivity]. cbn [negb].
    destruct (Server.getFromCache lru_get _ st) as [cached st1].
    destruct (served cached); [reflexivity|].
    apply includes_In in V. unfold Endpoints.validFields in V. cbn [In] in V.
    destruct V as [<-|[<-|[<-|[<-|[]]]]];
      rewrite (agree_12go _ _) by fixed_text; reflexivity.
  - cbn [Server.lookup_pool String.eqb Ascii.eqb Bool.eqb].
    destruct (negb (truthy_str field) || negb (truthy_str q)); [reflexivity|].
    destruct (includes Endpoints.validFields _) eqn:V; [|reflexivity]. cbn [negb].
    destruct (Server.getFromCache lru_get _ st) as [cached st1].
    destruct (served cached); [reflexivity|].
    apply includes_In in V. unfold Endpoints.validFields in V. cbn [In] in V.
    destruct V as [<-|[<-|[<-|[<-|[]]]]];
      rewrite (agree_bookaway _ _) by fixed_text; reflexivity.
  - destruct (L db') as (E & _ & N). rewrite E.
    destruct (Server.lookup_pool db provider) as [p| |]; [now destruct (N p)| |];
      reflexivity.
Qed.

Lemma collect_filters_fixed : Endpoints.collect_filters db = Endpoints.collect_filters db'.
Proof.
  unfold Endpoints.collect_filters, Endpoints.collect_provider.
  rewrite !(agree_12go _ _) by fixed_text.
  rewrite !(agree_bookaway _ _) by fixed_text.
  reflexivity.
Qed.

Lemma filters_fixed (st : Server.state lru) :
  Endpoints.filters lru_get lru_set lru_size db st
  = Endpoints.filters lru_get lru_set lru_size db' st.
Proof. unfold Endpoints.filters. now rewrite collect_filters_fixed. Qed.

Lemma transport_types_fixed (now : string) (st : Server.state lru) :
  Endpoints.transport_types lru_get lru_set lru_size now db st
  = Endpoints.transport_types lru_get lru_set lru_size now db' st.
Proof.
  unfold Endpoints.transport_types.
  rewrite (agree_12go _ _) by fixed_text.
  rewrite (agree_bookaway _ _) by fixed_text.
  reflexivity.
Qed.

Lemma filters_search_fixed (field query : option string) :
  Endpoints.filters_search field query db = Endpoints.filters_search field query db'.
Proof.
  unfold Endpoints.filters_search, Endpoints.search_provider, Endpoints.columnName.
  cbv zeta.
  destruct (negb (truthy_str field) || negb (truthy_str query)); [reflexivity|].
  repeat (destruct (String.eqb (Server.or_default EmptyString field) _);
          [ rewrite (agree_12go _ _) by fixed_text;
            destruct (Server.pool_12go db' _ _); reflexivity | ]).
  reflexivity.
Qed.

Lemma filter_date_fixed (q : Endpoints.date_query) :
  Endpoints.filter_date q db = Endpoints.filter_date q db'.
Proof.
  unfold Endpoints.filter_date, Endpoints.filtered, Endpoints.date_tableName. cbv zeta.
  destruct (negb (truthy_str (Endpoints.d_provider q))
            || negb (truthy_str (Endpoints.d_range q))); [reflexivity|].
  set (range := toLowerCase _).
  assert (T : (if String.eqb (Server.or_default EmptyString (Endpoints.d_provider q)) "12go"
               then "trips" else "trips") = "trips") by (now destruct (String.eqb _ _)).
  rewrite T. clear T.
  assert (D : forall text, Endpoints.date_statement "trips" range = Some text ->
                           In text fixed_statements).
  { unfold Endpoints.date_statement. cbv zeta. intros text.
    repeat (destruct (String.eqb range _);
            [intros [= <-]; fixed_text|]).
    discriminate. }
  destruct (lookup_pool_cases db (Server.or_default EmptyString (Endpoints.d_provider q)))
    as [[E L]|[[E L]|[_ L]]].
  - rewrite E. cbn [Server.lookup_pool String.eqb Ascii.eqb Bool.eqb].
    destruct (String.eqb range "custom").
    + destruct (negb _ || negb _); [reflexivity|].
      rewrite (agree_12go _ _) by fixed_text. reflexivity.
    + destruct (Endpoints.date_statement "trips" range) as [text|]; [|reflexivity].
      rewrite (agree_12go _ _) by (now apply D). reflexivity.
  - rewrite E. cbn [Server.lookup_pool String.eqb Ascii.eqb Bool.eqb].
    destruct (String.eqb range "custom").
    + destruct (negb _ || negb _); [reflexivity|].
      rewrite (agree_bookaway _ _) by fixed_text. reflexivity.
    + destruct (Endpoints.date_statement "trips" range) as [text|]; [|reflexivity].
      rewrite (agree_bookaway _ _) by (now apply D). reflexivity.
  - destruct (L db') as (E & _ & N). rewrite E.
    destruct (Server.lookup_pool db _) as [p| |]; [now destruct (N p)| |];
      reflexivity.
Qed.

End FixedStatements.

(** X24.  Request text never becomes statement text in the provider listing,
    the search, the filter lists, the transport types, the filter
    search and the date filter: whatever the request, these handlers
    consult the database through a fixed set of statements only, so two
    databases that answer alike on those are served alike. *)
Theorem statements_are_fixed (lru : Type)
    (lru_get : lru -> string -> option json * lru)
    (lru_set : lru -> string -> json -> lru) (lru_size : lru -> Z)
    (db db' : Server.pools) :
  agree_on fixed_statements db db' ->
  (forall provider page limit st,
     Server.provider_trips lru_get lru_set lru_size provider page limit db st
     = Server.provider_trips lru_get lru_set lru_size provider page limit db' st) /\
  (forall provider field q st,
     Endpoints.search lru_get lru_set lru_size provider field q db st
     = Endpoints.search lru_get lru_set lru_size provider field q db' st) /\
  (forall st,
     Endpoints.filters lru_get lru_set lru_size db st
     = Endpoints.filters lru_get lru_set lru_size db' st) /\
  (forall now st,
     Endpoints.transport_types lru_get lru_set lru_size now db st
     = Endpoints.transport_types lru_get lru_set lru_size now db' st) /\
  (forall field query,
     Endpoints.filters_search field query db = Endpoints.filters_search field query db') /\
  (forall q, Endpoints.filter_date q db = Endpoints.filter_date q db').
Proof.
  intros A. repeat split; intros.
  - now apply provider_trips_fixed.
  - now apply search_fixed.
  - now apply filters_fixed.
  - now apply transport_types_fixed.
  - now apply filters_search_fixed.
  - now apply filter_date_fixed.
Qed.

Lemma strict_providers_agree : agree_on fixed_statements both_providers_up strict_providers.
Proof.
  intros text values I. apply includes_In in I.
  unfold strict_providers, only_fixed. cbn [Server.pool_12go Server.pool_bookaway].
  now rewrite I.
Qed.

Lemma statements_are_fixed_witness :
  agree_on fixed_statements both_providers_up strict_providers /\
  Endpoints.search keeping_get keeping_set keeping_size
    "12go" (Some "origin") (Some "x'; DROP TABLE trips; --") both_providers_up nothing_kept
  = Endpoints.search keeping_get keeping_set keeping_size
      "12go" (Some "origin") (Some "x'; DROP TABLE trips; --") strict_providers nothing_kept.
Proof.
  split; [exact strict_providers_agree|].
  exact (proj1 (proj2 (statements_are_fixed keeping keeping_get keeping_set keeping_size
                         both_providers_up strict_providers strict_providers_agree))
           "12go" (Some "origin") (Some "x'; DROP TABLE trips; --") nothing_kept).
Defined.

(* ----------------------------------------------------------------- *)
(** ** Size of a combined page *)




(* ----------------------------------------------------------------- *)
(** ** The cache branch of GET /api/trips/from/:origin *)

Lemma keeping_adds_only_what_is_written : adds_only_what_is_written keeping_get keeping_set.
Proof.
  split.
  - intros c key other A. exact A.
  - intros c key other value N A. unfold absent, keeping_get, keeping_set in *.
    cbn [fst assoc] in *. destruct (String.eqb_spec key other) as [E|_]; [contradiction|].
    induction c as [|[k v] c IH]; [reflexivity|].
    cbn [filter fst assoc] in *.
    destruct (String.eqb_spec key k) as [->|Nk]; [discriminate A|].
    destruct (String.eqb_spec other k) as [->|No]; cbn [negb assoc].
    + now apply IH.
    + destruct (String.eqb_spec key k); [contradiction|]. now apply IH.
Qed.

Section StandaloneFacts.

Variable lru : Type.
Variable lru_get : lru -> string -> option json * lru.
Variable lru_set : lru -> string -> json -> lru.

Hypothesis honest : adds_only_what_is_written lru_get lru_set.

Local Abbreviation no_entry := (absent lru_get).
Local Abbreviation cache_after := (Standalone.cache_after lru_get lru_set).
Local Abbreviation cache_after_all := (Standalone.cache_after_all lru_get lru_set).

Lemma cache_after_keeps_absent (r : Standalone.request) (db : pool) (c : lru)
    (origin : string) :
  no_entry ("trips_from_" ++ origin) c ->
  no_entry ("trips_from_" ++ origin) (cache_after r db c).
Proof.
  destruct honest as [G S]. intros A.
  destruct r; cbn [Standalone.cache_after]; try exact A; try (now apply G).
  - unfold Standalone.trips_all. pose proof (G c _ "allTrips" A) as A'.
    destruct (lru_get c "allTrips") as [cached c']. cbn [snd] in A'.
    destruct (served cached); [exact A'|].
    destruct (db _ _); cbn [snd]; [|exact A'].
    apply S; [discriminate | exact A'].
  - unfold Standalone.destinations. pose proof (G c _ "destinations" A) as A'.
    destruct (lru_get c "destinations") as [cached c']. cbn [snd] in A'.
    destruct (served cached); [exact A'|].
    destruct (db _ _); cbn [snd]; [|exact A'].
    apply S; [discriminate | exact A'].
Qed.

(** X26.  Nothing is ever stored under a key of GET /api/trips/from/:origin:
    starting from a cache without such entries, after any sequence of
    requests to the server the handler takes its database branch and
    answers, so its read of [tripCacheMap] is never reached. *)
Theorem trips_from_cache_branch_is_dead (requests : list (Standalone.request * pool))
    (c : lru) (origin : string) (db : pool) :
  (forall o, no_entry ("trips_from_" ++ o) c) ->
  exists r,
    TripRoutes.trips_from lru_get origin db (cache_after_all requests c)
    = TripRoutes.Responded r /\
    (status r = 200%Z \/ status r = 404%Z \/ status r = 500%Z).
Proof.
  intros A.
  assert (I : forall o, no_entry ("trips_from_" ++ o) (cache_after_all requests c)).
  { unfold Standalone.cache_after_all. revert c A.
    induction requests as [|[r p] requests IH]; intros c A o; cbn [fold_left fst snd].
    - apply A.
    - apply IH. intros o'. now apply cache_after_keeps_absent. }
  specialize (I origin). unfold absent in I.
  unfold TripRoutes.trips_from.
  destruct (lru_get (cache_after_all requests c) ("trips_from_" ++ origin)) as [cached c'].
  cbn [fst] in I. subst cached. cbn [served].
  unfold TripRoutes.from_database.
  destruct (db _ _) as [[|row rows]|m]; eexists; (split; [reflexivity|]); simpl; auto.
Qed.

End StandaloneFacts.

Lemma trips_from_cache_branch_is_dead_witness :
  adds_only_what_is_written keeping_get keeping_set /\
  (forall o, absent keeping_get ("trips_from_" ++ o) []) /\
  exists r,
    TripRoutes.trips_from keeping_get "Bangkok" (answering [row_12go 1 1])
      (Standalone.cache_after_all keeping_get keeping_set some_requests [])
    = TripRoutes.Responded r.
Proof.
  assert (A : forall o, absent keeping_get ("trips_from_" ++ o) []) by reflexivity.
  split; [exact keeping_adds_only_what_is_written|]. split; [exact A|].
  destruct (trips_from_cache_branch_is_dead keeping keeping_get keeping_set
              keeping_adds_only_what_is_written some_requests [] "Bangkok"
              (answering [row_12go 1 1]) A) as (r & E & _).
  exists r. exact E.
Defined.
